(** * GIC.CNN.model: dimension bookkeeping, training and evaluation helpers

    A shallow embedding of [src/GIC/CNN/model.py].  Python integers are [Z];
    Python's true division [a / b] of two integers is the binary64 number
    nearest to the exact quotient (ties to even), which is what CPython
    computes; [int(x)] and [math.ceil(x)] are exact on that number.
    Methods of [ConvNet] mutate [self]: they are written in a state monad
    over the object, with exceptions kept apart from returned values.  The
    constructors of torch's layers check their arguments and may raise:
    which arguments they refuse is a parameter of the development. *)

From Stdlib Require Import ZArith QArith Lia Bool List.
From stdpp Require Import base strings gmap.

Local Open Scope Z_scope.

(** ** Exceptions and results *)

(** The exceptions that the modelled code can raise. *)
Inductive exn : Type :=
  | ZeroDivisionError
  | OverflowError
  | IndexError
  | FileNotFoundError
  | RuntimeError
  | ValueError
  | TypeError (msg : string).

(** Outcome of evaluating a Python expression: a value or a raised exception. *)
Inductive result (A : Type) : Type :=
  | Ok (a : A)
  | Raise (e : exn).
Arguments Ok {A} a.
Arguments Raise {A} e.

(** ** Binary64 quotients of integers *)

Module Float64.

(** A finite binary64 number, as the dyadic rational [mant * 2 ^ expo]. *)
Record float : Type := mkfloat { mant : Z; expo : Z }.

(** The fraction [a / (b * 2 ^ e)] as a pair of integers, for any sign of [e]. *)
Definition scale (a b e : Z) : Z * Z :=
  if 0 <=? e then (a, b * 2 ^ e) else (a * 2 ^ (- e), b).

(** Nearest integer to [n / d], ties to the even one ([0 <= n], [0 < d]). *)
Definition round_half_even (n d : Z) : Z :=
  let q := n / d in
  match 2 * (n mod d) ?= d with
  | Lt => q
  | Gt => q + 1
  | Eq => if Z.even q then q else q + 1
  end.

(** [binade a b] is the integer [l] with [2 ^ l <= a / b < 2 ^ (l + 1)]
    ([0 < a], [0 < b]). *)
Definition binade (a b : Z) : Z :=
  let d := Z.log2 a - Z.log2 b in
  let '(n, m) := scale a b d in
  if m <=? n then d else d - 1.

(** [in_binade a b l]: [2 ^ l <= a / b < 2 ^ (l + 1)], stated on integers. *)
Definition in_binade (a b l : Z) : Prop :=
  fst (scale a b l) >= snd (scale a b l) /\
  fst (scale a b l) < 2 * snd (scale a b l).

(** The binary64 number nearest to [a / b] for [0 < a] and [0 < b]:
    53 significant bits, exponents down to that of the subnormals,
    [OverflowError] from [2 ^ 1024] on. *)
Definition nearest (a b : Z) : result float :=
  let e := Z.max (binade a b - 52) (-1074) in
  let '(n, d) := scale a b e in
  let m := round_half_even n d in
  if (971 <? e) || ((e =? 971) && (2 ^ 53 <=? m)) then Raise OverflowError
  else Ok (mkfloat m e).

(** Python [a / b] on integers. *)
Definition true_div (a b : Z) : result float :=
  if b =? 0 then Raise ZeroDivisionError
  else if a =? 0 then Ok (mkfloat 0 0)
  else match nearest (Z.abs a) (Z.abs b) with
       | Ok f => Ok (mkfloat (Z.sgn a * Z.sgn b * mant f) (expo f))
       | Raise e => Raise e
       end.

(** Python [int(x)] on a float: truncation toward zero. *)
Definition py_int (x : float) : Z :=
  if 0 <=? expo x then mant x * 2 ^ expo x
  else Z.quot (mant x) (2 ^ (- expo x)).

(** Python [math.ceil(x)] on a float. *)
Definition py_ceil (x : float) : Z :=
  if 0 <=? expo x then mant x * 2 ^ expo x
  else - ((- mant x) / 2 ^ (- expo x)).

End Float64.

Import Float64.

(** ** State and exceptions

    A computation over a mutable store [S]: it yields a value or raises, and
    in both cases leaves the store as mutated so far. *)

Definition M (S A : Type) : Type := S -> result A * S.

Definition ret {S A : Type} (a : A) : M S A := fun s => (Ok a, s).

Definition bind {S A B : Type} (c : M S A) (k : A -> M S B) : M S B :=
  fun s => match c s with
           | (Ok a, s') => k a s'
           | (Raise e, s') => (Raise e, s')
           end.

Definition raise {S A : Type} (e : exn) : M S A := fun s => (Raise e, s).

Definition lift {S A : Type} (r : result A) : M S A := fun s => (r, s).

Definition gets {S A : Type} (f : S -> A) : M S A := fun s => (Ok (f s), s).

Definition modify {S : Type} (f : S -> S) : M S unit := fun s => (Ok tt, f s).

Declare Scope py_scope.
Delimit Scope py_scope with py.
Notation "x <- c ;; k" := (bind c (fun x => k))
  (at level 100, c at next level, right associativity) : py_scope.
Notation "c ;; k" := (bind c (fun _ => k))
  (at level 100, right associativity) : py_scope.
Local Open Scope py_scope.

(** [for x in l: acc = body(acc, x)], the loop-carried variables being [acc]. *)
Fixpoint for_each {S A B : Type} (l : list A) (acc : B) (body : B -> A -> M S B)
  : M S B :=
  match l with
  | [] => ret acc
  | x :: l' => acc' <- body acc x ;; for_each l' acc' body
  end.

(** [range(n)] as a list of integers; empty for [n <= 0]. *)
Definition range (n : Z) : list Z := map Z.of_nat (seq 0 (Z.to_nat n)).

(** ** conv_out *)

Definition conv_out (size padding kernel stride : Z) : result Z :=
  match true_div (size + 2 * padding - kernel) stride with
  | Ok q => Ok (py_int q + 1)
  | Raise e => Raise e
  end.

(** ** ConvNet: the builder methods *)

(** The objects that [convolution] and [pooling] return and that [__init__]
    stores: a torch layer, described by its class and constructor arguments
    (its weights belong to torch), or an exception instance used as a value. *)
Inductive obj : Type :=
  | Conv2d (in_channels out_channels kernel_size padding : Z)
  | MaxPool2d (kernel_size stride : Z)
  | AvgPool2d (kernel_size stride : Z)
  | LPPool2d (norm_type kernel_size : Z)
  | Linear (in_features out_features : Z)
  | ExnObj (e : exn).

(** The attributes of [self] that the builder methods read and assign. *)
Record attrs : Type := mkattrs { img_h : Z; img_w : Z; last_out : Z }.

Definition set_img_h (v : Z) (self : attrs) : attrs :=
  {| img_h := v; img_w := img_w self; last_out := last_out self |}.
Definition set_img_w (v : Z) (self : attrs) : attrs :=
  {| img_h := img_h self; img_w := v; last_out := last_out self |}.
Definition set_last_out (v : Z) (self : attrs) : attrs :=
  {| img_h := img_h self; img_w := img_w self; last_out := v |}.

(** What torch decides when a layer is built: [refused o] is the exception
    that the constructor raises for the class and arguments in [o], if it
    raises one.  The checks themselves belong to torch. *)
Class Layers : Type := {
  refused : obj -> option exn }.

(** [nn.Conv2d(...)], [nn.MaxPool2d(...)], [nn.Linear(...)], ...: the layer,
    or the exception of its constructor. *)
Definition construct `{Layers} (o : obj) : result obj :=
  match refused o with
  | Some e => Raise e
  | None => Ok o
  end.

Definition convolution `{Layers} (in_size out_size kernel stride padding : Z)
  : M attrs obj :=
  modify (set_last_out out_size) ;;
  if padding =? -1 then
    h <- gets img_h ;; q <- lift (true_div h stride) ;;
    modify (set_img_h (py_ceil q)) ;;
    w <- gets img_w ;; q <- lift (true_div w stride) ;;
    modify (set_img_w (py_ceil q)) ;;
    p <- lift (true_div kernel 2) ;;
    lift (construct (Conv2d in_size out_size kernel (py_int p)))
  else
    h <- gets img_h ;; q <- lift (true_div (h + 2 * padding - kernel) stride) ;;
    modify (set_img_h (py_int q + 1)) ;;
    w <- gets img_w ;; q <- lift (true_div (w + 2 * padding - kernel) stride) ;;
    modify (set_img_w (py_int q + 1)) ;;
    lift (construct (Conv2d in_size out_size kernel padding)).

Definition pooling `{Layers} (kernel stride : Z) (pool_type : string) : M attrs obj :=
  h <- gets img_h ;; q <- lift (true_div h stride) ;;
  modify (set_img_h (py_int q)) ;;
  w <- gets img_w ;; q <- lift (true_div w stride) ;;
  modify (set_img_w (py_int q)) ;;
  if String.eqb pool_type "max" then lift (construct (MaxPool2d kernel stride))
  else if String.eqb pool_type "avg" then lift (construct (AvgPool2d kernel stride))
  else if String.eqb pool_type "lp" then lift (construct (LPPool2d kernel stride))
  else ret (ExnObj (TypeError "Unknown Type")).

(** ** ConvNet: construction and forward pass *)

Record ConvNet : Type := mkConvNet {
  dims : attrs;
  conv1 : obj;
  maxPool3 : obj;
  conv2 : obj;
  maxPool2 : obj;
  flattened : Z;
  fc1 : obj;
  fc2 : obj;
  fc3 : obj;
  fc4 : obj }.

(** [ConvNet.__init__(img_h, img_w, n_classes, colour_size)]: the builder
    methods run on the attributes, the four linear layers are built, then
    the object is complete. *)
Definition init `{Layers} (h w n_classes colour_size : Z) : result ConvNet :=
  let build : M attrs ConvNet :=
    c1 <- convolution colour_size 16 5 1 (-1) ;;
    p3 <- pooling 3 3 "max" ;;
    lo <- gets last_out ;;
    c2 <- convolution lo 32 5 1 (-1) ;;
    p2 <- pooling 2 2 "max" ;;
    self <- gets id ;;
    let flat := img_h self * img_w self * last_out self in
    l1 <- lift (construct (Linear flat 128)) ;;
    l2 <- lift (construct (Linear 128 64)) ;;
    l3 <- lift (construct (Linear 64 32)) ;;
    l4 <- lift (construct (Linear 32 n_classes)) ;;
    ret {| dims := self; conv1 := c1; maxPool3 := p3; conv2 := c2; maxPool2 := p2;
           flattened := flat; fc1 := l1; fc2 := l2; fc3 := l3; fc4 := l4 |}
  in fst (build {| img_h := h; img_w := w; last_out := 0 |}).

(** What the forward pass needs from torch: tensors, the activation, the
    effect of calling a layer and of [x.view(-1, n)]. *)
Class Tensors : Type := {
  Tensor : Type;
  relu : Tensor -> Tensor;
  layer_forward : obj -> Tensor -> result Tensor;
  view : Tensor -> Z -> result Tensor }.

(** Calling an attribute: a layer runs, an exception instance is not callable. *)
Definition call `{Tensors} (o : obj) (x : Tensor) : result Tensor :=
  match o with
  | ExnObj _ => Raise (TypeError "'TypeError' object is not callable")
  | _ => layer_forward o x
  end.

Definition forward `{Tensors} (x : Tensor) : M ConvNet Tensor :=
  c <- gets conv1 ;; y <- lift (call c x) ;;
  p <- gets maxPool3 ;; x <- lift (call p (relu y)) ;;
  c <- gets conv2 ;; y <- lift (call c x) ;;
  p <- gets maxPool2 ;; x <- lift (call p (relu y)) ;;
  n <- gets flattened ;; x <- lift (view x n) ;;
  l <- gets fc1 ;; y <- lift (call l x) ;; let x := relu y in
  l <- gets fc2 ;; y <- lift (call l x) ;; let x := relu y in
  l <- gets fc3 ;; y <- lift (call l x) ;; let x := relu y in
  l <- gets fc4 ;; x <- lift (call l x) ;;
  ret x.

(** The pipeline in the words of the specification: a list of stages, each
    followed by the activation when its flag is set. *)
Fixpoint run_stages `{Tensors} (stages : list ((Tensor -> result Tensor) * bool))
    (x : Tensor) : result Tensor :=
  match stages with
  | [] => Ok x
  | (f, act) :: rest =>
      match f x with
      | Ok y => run_stages rest (if act then relu y else y)
      | Raise e => Raise e
      end
  end.

(** The nine stages conv1, pool(3), conv2, pool(2), flatten, fc1, fc2, fc3, fc4. *)
Definition stages_of `{Tensors} (net : ConvNet) : list (Tensor -> result Tensor) :=
  [ call (conv1 net); call (maxPool3 net); call (conv2 net); call (maxPool2 net);
    (fun x => view x (flattened net));
    call (fc1 net); call (fc2 net); call (fc3 net); call (fc4 net) ].

(** Activation after every stage except the last. *)
Fixpoint all_but_last {A : Type} (l : list A) : list (A * bool) :=
  match l with
  | [] => []
  | [a] => [(a, false)]
  | a :: rest => (a, true) :: all_but_last rest
  end.

Definition forward_spec `{Tensors} (net : ConvNet) (x : Tensor) : result Tensor :=
  run_stages (all_but_last (stages_of net)) x.

(** Activation after every convolution and fully-connected layer except the
    last; pooling and flattening are not followed by one of their own. *)
Definition forward_layers_spec `{Tensors} (net : ConvNet) (x : Tensor) : result Tensor :=
  run_stages
    (combine (stages_of net) [true; false; true; false; false; true; true; true; false])
    x.

(** ** Python helpers used by the training and evaluation loops *)

(** Floats coming out of torch (losses) and the arithmetic done on them. *)
Class Floats : Type := {
  F : Type;
  of_Z : Z -> F;
  fadd : F -> F -> F;
  fmul : F -> F -> F;
  fdiv : F -> F -> F }.

(** [x / n] for a float [x] and an integer [n]. *)
Definition py_fdiv `{Floats} (x : F) (n : Z) : result F :=
  if n =? 0 then Raise ZeroDivisionError else Ok (fdiv x (of_Z n)).

(** [a % b] on integers. *)
Definition py_mod (a b : Z) : result Z :=
  if b =? 0 then Raise ZeroDivisionError else Ok (a mod b).

(** [enumerate(l)] *)
Definition enumerate {A : Type} (l : list A) : list (Z * A) :=
  combine (map Z.of_nat (seq 0 (length l))) l.

(** Position designated by a Python index: negative indices count from the end. *)
Definition py_index {A : Type} (l : list A) (i : Z) : result nat :=
  let n := Z.of_nat (length l) in
  if (0 <=? i) && (i <? n) then Ok (Z.to_nat i)
  else if (- n <=? i) && (i <? 0) then Ok (Z.to_nat (i + n))
  else Raise IndexError.

(** [l[i]] *)
Definition py_getitem {A : Type} (l : list A) (i : Z) : result A :=
  match py_index l i with
  | Ok k => match l !! k with Some a => Ok a | None => Raise IndexError end
  | Raise e => Raise e
  end.

(** [l[i] += 1] *)
Definition py_incr (l : list Z) (i : Z) : result (list Z) :=
  match py_index l i with
  | Ok k => match l !! k with
            | Some a => Ok (<[k := a + 1]> l)
            | None => Raise IndexError
            end
  | Raise e => Raise e
  end.

(** A data loader: its length and the batches that its [k]-th traversal yields. *)
Record DataLoader (B : Type) : Type := mkloader {
  dl_len : Z;
  dl_iter : nat -> list B }.
Arguments mkloader {B} _ _.
Arguments dl_len {B} _.
Arguments dl_iter {B} _ _.

(** [torch.device]: a type and an optional index; [torch.device('cuda')] has
    no index and differs from [torch.device('cuda:0')]. *)
Record device : Type := mkdevice { dev_type : string; dev_index : option Z }.

#[global] Instance device_eq_dec : EqDecision device.
Proof. solve_decision. Defined.

Definition torch_device (type : string) : device := mkdevice type None.

(** ** The torch objects handled by the helpers

    [Model] is any [nn.Module]; its parameters are shared with the optimizer,
    whose methods therefore act on the pair.  Only what the helpers call is
    listed. *)
Class Torch `{Floats} `{Tensors} : Type := {
  Model : Type;
  Optimizer : Type;
  StateDict : Type;
  Loss : Type;
  state_dict : Model -> StateDict;
  load_state_dict : StateDict -> M Model unit;
  module_to : device -> M Model unit;
  module_call : Tensor -> M Model Tensor;
  tensor_to : device -> Tensor -> result Tensor;
  item : Loss -> F;
  backward : Loss -> M Model unit;
  zero_grad : M (Model * Optimizer) unit;
  step : M (Model * Optimizer) unit;
  argmax : Tensor -> result (list Z);
  pixel_key : Tensor -> Z -> result string }.

(** A batch: the images and the integer labels ([labels.to(device)] keeps
    the values). *)
Definition Batch `{Tensors} : Type := (Tensor * list Z)%type.

(** *** train_model *)

Inductive train_event `{Floats} : Type :=
  | TrainingStarted
  | Progress (epoch n_epochs step n_total_steps : Z) (loss : F) (loss_acc : Z)
  | TrainingFinished.

(** The objects that [train_model] mutates, what it prints, and the values
    that [loss.item()] returned, each with its epoch, oldest first. *)
Record train_world `{Torch} : Type := mktrain {
  tw_model : Model;
  tw_optimizer : Optimizer;
  tw_out : list train_event;
  tw_items : list (Z * F) }.

Section TrainModel.
Context `{Torch}.

Definition on_model {A : Type} (c : M Model A) : M train_world A :=
  fun w => let '(r, m) := c (tw_model w) in
           (r, {| tw_model := m; tw_optimizer := tw_optimizer w;
                  tw_out := tw_out w; tw_items := tw_items w |}).

Definition on_optimizer {A : Type} (c : M (Model * Optimizer) A) : M train_world A :=
  fun w => let '(r, (m, o)) := c (tw_model w, tw_optimizer w) in
           (r, {| tw_model := m; tw_optimizer := o;
                  tw_out := tw_out w; tw_items := tw_items w |}).

Definition print (e : train_event) : M train_world unit :=
  modify (fun w => {| tw_model := tw_model w; tw_optimizer := tw_optimizer w;
                      tw_out := tw_out w ++ [e]; tw_items := tw_items w |}).

Definition record_item (epoch : Z) (x : F) : M train_world unit :=
  modify (fun w => {| tw_model := tw_model w; tw_optimizer := tw_optimizer w;
                      tw_out := tw_out w; tw_items := tw_items w ++ [(epoch, x)] |}).

(** The body of the inner loop; [(mean_loss, loss_counter)] are carried.
    The format specification [.{loss_acc}f] of the progress line is refused
    with [ValueError] for a negative precision and for one that exceeds the
    largest C [int], [2 ^ 31 - 1]. *)
Definition train_batch (criterion : Tensor -> list Z -> result Loss)
    (n_epochs : Z) (device_ : device) (print_steps print_epochs loss_acc : Z)
    (n_total_steps epoch : Z) (acc : F * Z) (ib : Z * Batch)
  : M train_world (F * Z) :=
  let '(mean_loss, loss_counter) := acc in
  let '(i, (images, labels)) := ib in
  images <- lift (tensor_to device_ images) ;;
  outputs <- on_model (module_call images) ;;
  loss <- lift (criterion outputs labels) ;;
  record_item epoch (item loss) ;;
  let mean_loss := fadd mean_loss (item loss) in
  let loss_counter := loss_counter + 1 in
  on_optimizer zero_grad ;;
  on_model (backward loss) ;;
  on_optimizer step ;;
  r <- lift (py_mod epoch print_epochs) ;;
  (if r =? 0 then
     q <- lift (true_div n_total_steps print_steps) ;;
     r <- lift (py_mod (i + 1) (py_int q)) ;;
     if r =? 0 then
       avg <- lift (py_fdiv mean_loss loss_counter) ;;
       (if (loss_acc <? 0) || (2 ^ 31 <=? loss_acc) then raise ValueError
        else ret tt) ;;
       print (Progress (epoch + 1) n_epochs (i + 1) n_total_steps avg loss_acc)
     else ret tt
   else ret tt) ;;
  ret (mean_loss, loss_counter).

(** The body of the outer loop: one traversal of the loader, from fresh
    [mean_loss] and [loss_counter]. *)
Definition train_epoch (data_loader : DataLoader Batch)
    (criterion : Tensor -> list Z -> result Loss)
    (n_epochs : Z) (device_ : device) (print_steps print_epochs loss_acc : Z)
    (epoch : Z) : M train_world F :=
  let mean_loss := of_Z 0 in
  let loss_counter := 0 in
  acc <- for_each (enumerate (dl_iter data_loader (Z.to_nat epoch)))
           (mean_loss, loss_counter)
           (train_batch criterion n_epochs device_ print_steps print_epochs
              loss_acc (dl_len data_loader) epoch) ;;
  ret (fst acc).

(** [mean_loss = 0] is an integer until the first addition; added to a
    float or divided it is converted, so it is kept as the float [of_Z 0]. *)
Definition train_model (data_loader : DataLoader Batch)
    (criterion : Tensor -> list Z -> result Loss)
    (n_epochs : Z) (device_ : device) (print_steps : Z) (print_epochs : option Z)
    (loss_acc : Z) : M train_world F :=
  print TrainingStarted ;;
  let print_epochs := match print_epochs with None => n_epochs | Some p => p end in
  let n_total_steps := dl_len data_loader in
  let mean_loss := of_Z 0 in
  on_model (module_to device_) ;;
  mean_loss <- for_each (range n_epochs) mean_loss (fun _ epoch =>
    train_epoch data_loader criterion n_epochs device_ print_steps print_epochs
      loss_acc epoch) ;;
  print TrainingFinished ;;
  lift (py_fdiv mean_loss n_total_steps).

End TrainModel.

(** *** load_model and save_model *)

Inductive event `{Floats} `{Tensors} : Type :=
  | TorchLoad (path map_location : string)
  | PrintWrong (class predicted : string)
  | Imshow (images : Tensor) (i : Z)
  | PrintAccuracy (accuracy : F)
  | PrintClassAccuracy (class : string) (accuracy : F).

(** The model object, the files that hold checkpoints, and the output. *)
Record world `{Torch} : Type := mkworld {
  w_model : Model;
  w_fs : gmap string StateDict;
  w_out : list event }.

(** The counters of the evaluation loop. *)
Record tally : Type := mktally {
  wrongs : list string;
  n_correct : Z;
  n_samples : Z;
  n_class_correct : list Z;
  n_class_samples : list Z }.

(** [(predicted == labels).sum().item()]: element-wise comparison, a tensor
    of one element being broadcast. *)
Definition count_eq (predicted labels : list Z) : result Z :=
  let count l := Z.of_nat (length (filter (fun pl => fst pl = snd pl) l)) in
  if decide (length predicted = length labels) then Ok (count (zip predicted labels))
  else match predicted, labels with
       | [p], _ => Ok (count (map (pair p) labels))
       | _, [l] => Ok (count (map (fun p => (p, l)) predicted))
       | _, _ => Raise RuntimeError
       end.

Section LoadModel.
Context `{Torch}.

Definition with_model {A : Type} (c : M Model A) : M world A :=
  fun w => let '(r, m) := c (w_model w) in
           (r, {| w_model := m; w_fs := w_fs w; w_out := w_out w |}).

Definition emit (e : event) : M world unit :=
  modify (fun w => {| w_model := w_model w; w_fs := w_fs w; w_out := w_out w ++ [e] |}).

(** [torch.save(obj, path)] *)
Definition torch_save (sd : StateDict) (path : string) : M world unit :=
  modify (fun w => {| w_model := w_model w; w_fs := <[path := sd]> (w_fs w);
                      w_out := w_out w |}).

(** [torch.load(path, map_location=loc)] *)
Definition torch_load (path loc : string) : M world StateDict :=
  emit (TorchLoad path loc) ;;
  fs <- gets w_fs ;;
  match fs !! path with
  | Some sd => ret sd
  | None => raise FileNotFoundError
  end.

Definition save_model (save_path : string) : M world unit :=
  sd <- gets (fun w => state_dict (w_model w)) ;;
  torch_save sd save_path.

(** One conditional of the loading prologue. *)
Definition load_if (save_path : option string) (device_ : device) (type : string)
  : M world unit :=
  match save_path with
  | Some path =>
      if bool_decide (device_ = torch_device type) then
        sd <- torch_load path type ;;
        with_model (load_state_dict sd)
      else ret tt
  | None => ret tt
  end.

(** The three conditionals that open [load_model]. *)
Definition restore (save_path : option string) (device_ : device) : M world unit :=
  load_if save_path device_ "cuda" ;;
  load_if save_path device_ "mps" ;;
  load_if save_path device_ "cpu".

(** Modelled from the spec: [visual.imshow] is not in src/; it displays a
    misclassified sample. *)
Definition imshow (images : Tensor) (i : Z) : M world unit :=
  emit (Imshow images i).

(** The body of [for i in range(len(labels))]. *)
Definition tally_sample (classification : list string) (show_wrongs : bool)
    (n_wrongs : Z) (images : Tensor) (labels predicted : list Z)
    (t : tally) (i : Z) : M world tally :=
  label <- lift (py_getitem labels i) ;;
  pred <- lift (py_getitem predicted i) ;;
  t <- (if label =? pred then
          ncc <- lift (py_incr (n_class_correct t) label) ;;
          ret {| wrongs := wrongs t; n_correct := n_correct t;
                 n_samples := n_samples t; n_class_correct := ncc;
                 n_class_samples := n_class_samples t |}
        else if show_wrongs && (Z.of_nat (length (wrongs t)) <? n_wrongs) then
          key <- lift (pixel_key images i) ;;
          if bool_decide (key ∈ wrongs t) then ret t
          else
            c <- lift (py_getitem classification label) ;;
            p <- lift (py_getitem classification pred) ;;
            emit (PrintWrong c p) ;;
            imshow images i ;;
            ret {| wrongs := wrongs t ++ [key]; n_correct := n_correct t;
                   n_samples := n_samples t; n_class_correct := n_class_correct t;
                   n_class_samples := n_class_samples t |}
        else ret t) ;;
  ncs <- lift (py_incr (n_class_samples t) label) ;;
  ret {| wrongs := wrongs t; n_correct := n_correct t; n_samples := n_samples t;
         n_class_correct := n_class_correct t; n_class_samples := ncs |}.

(** The body of [for images, labels in data_loader]. *)
Definition tally_batch (classification : list string) (device_ : device)
    (show_wrongs : bool) (n_wrongs : Z) (t : tally) (b : Batch) : M world tally :=
  let '(images, labels) := b in
  images <- lift (tensor_to device_ images) ;;
  outputs <- with_model (module_call images) ;;
  predicted <- lift (argmax outputs) ;;
  let n_samples' := n_samples t + Z.of_nat (length labels) in
  eq <- lift (count_eq predicted labels) ;;
  let t := {| wrongs := wrongs t; n_correct := n_correct t + eq;
              n_samples := n_samples'; n_class_correct := n_class_correct t;
              n_class_samples := n_class_samples t |} in
  for_each (range (Z.of_nat (length labels))) t
    (tally_sample classification show_wrongs n_wrongs images labels predicted).

(** The body of [for i in range(n_classes)], then the loop. *)
Definition class_accuracy (classification : list string) (t : tally) (i : Z)
  : M world unit :=
  c <- lift (py_getitem (n_class_correct t) i) ;;
  s <- lift (py_getitem (n_class_samples t) i) ;;
  accuracy <- lift (py_fdiv (fmul (of_Z 100) (of_Z c)) s) ;;
  name <- lift (py_getitem classification i) ;;
  emit (PrintClassAccuracy name accuracy).

Definition class_accuracies (classification : list string) (t : tally) : M world unit :=
  for_each (range (Z.of_nat (length classification))) tt
    (fun _ i => class_accuracy classification t i).

(** The counting loop of [load_model], from fresh counters. *)
Definition run_tally (data_loader : DataLoader Batch) (classification : list string)
    (device_ : device) (show_wrongs : bool) (n_wrongs : Z) : M world tally :=
  let n_classes := length classification in
  for_each (dl_iter data_loader 0%nat)
    {| wrongs := []; n_correct := 0; n_samples := 0;
       n_class_correct := replicate n_classes 0;
       n_class_samples := replicate n_classes 0 |}
    (tally_batch classification device_ show_wrongs n_wrongs).

Definition load_model (data_loader : DataLoader Batch) (classification : list string)
    (device_ : device) (save_path : option string)
    (class_results show_wrongs : bool) (n_wrongs : Z) : M world F :=
  restore save_path device_ ;;
  with_model (module_to device_) ;;
  t <- run_tally data_loader classification device_ show_wrongs n_wrongs ;;
  total_accuracy <- lift (py_fdiv (fmul (of_Z 100) (of_Z (n_correct t))) (n_samples t)) ;;
  emit (PrintAccuracy total_accuracy) ;;
  (if class_results then class_accuracies classification t else ret tt) ;;
  ret total_accuracy.

End LoadModel.

(** The part of [load_model] that precedes the accuracies: loading, moving
    the model, counting. *)
Definition load_and_tally `{Torch} (data_loader : DataLoader Batch)
    (classification : list string) (device_ : device) (save_path : option string)
    (show_wrongs : bool) (n_wrongs : Z) : M world tally :=
  restore save_path device_ ;;
  with_model (module_to device_) ;;
  run_tally data_loader classification device_ show_wrongs n_wrongs.

(** The two per-class lists have one entry per class. *)
Definition tally_sized (n : nat) (t : tally) : Prop :=
  length (n_class_correct t) = n /\ length (n_class_samples t) = n.

(** ** Reading the record of [loss.item()] values *)

(** The values recorded during one epoch, in order. *)
Definition epoch_items `{Floats} (epoch : Z) (items : list (Z * F)) : list F :=
  map snd (filter (fun p => fst p = epoch) items).

(** Their sum as the loop accumulates it: from [0], left to right. *)
Definition py_sum `{Floats} (l : list F) : F := fold_left fadd l (of_Z 0).

(** ** The losses of an epoch *)

(** One step of training on a batch, on the model and the optimizer: the
    value added to [mean_loss] is [criterion(model(images), labels).item()],
    computed on the model as the previous steps left it; then the gradients
    are reset, the loss is propagated back and the optimizer steps. *)
Definition train_step `{Torch} (criterion : Tensor -> list Z -> result Loss)
    (device_ : device) (mo : Model * Optimizer) (b : Batch) (x : F)
    (mo' : Model * Optimizer) : Prop :=
  exists images outputs m1 loss mo2 m3,
    tensor_to device_ (fst b) = Ok images
    /\ module_call images (fst mo) = (Ok outputs, m1)
    /\ criterion outputs (snd b) = Ok loss
    /\ x = item loss
    /\ zero_grad (m1, snd mo) = (Ok tt, mo2)
    /\ backward loss (fst mo2) = (Ok tt, m3)
    /\ step (m3, snd mo2) = (Ok tt, mo').

(** [trains criterion device mo batches losses mo']: training on the batches
    in turn from [mo] ends in [mo'], and [losses] are the loss values of the
    batches, in order. *)
Inductive trains `{Torch} (criterion : Tensor -> list Z -> result Loss)
    (device_ : device)
  : Model * Optimizer -> list Batch -> list F -> Model * Optimizer -> Prop :=
  | trains_nil mo : trains criterion device_ mo [] [] mo
  | trains_cons mo b x mo1 bs xs mo' :
      train_step criterion device_ mo b x mo1 ->
      trains criterion device_ mo1 bs xs mo' ->
      trains criterion device_ mo (b :: bs) (x :: xs) mo'.

(** The same for a list of epochs, each with its batches and its losses. *)
Inductive trains_epochs `{Torch} (criterion : Tensor -> list Z -> result Loss)
    (device_ : device)
  : Model * Optimizer -> list (list Batch) -> list (list F) -> Model * Optimizer
    -> Prop :=
  | trains_epochs_nil mo : trains_epochs criterion device_ mo [] [] mo
  | trains_epochs_cons mo bs xs mo1 bss xss mo' :
      trains criterion device_ mo bs xs mo1 ->
      trains_epochs criterion device_ mo1 bss xss mo' ->
      trains_epochs criterion device_ mo (bs :: bss) (xs :: xss) mo'.

(** The batches that the epochs [0 .. n_epochs - 1] traverse. *)
Definition epochs_batches {B : Type} (data_loader : DataLoader B) (n_epochs : Z)
  : list (list B) :=
  map (fun epoch => dl_iter data_loader (Z.to_nat epoch)) (range n_epochs).

(** ** A small interpretation of the torch interface

    Rational numbers for floats, integer vectors for tensors, a threshold
    classifier for the model: enough to run the helpers on examples. *)
Module Example.

#[export] Instance floats : Floats :=
  {| F := Q; of_Z := inject_Z; fadd := Qplus; fmul := Qmult; fdiv := Qdiv |}.

#[export] Instance tensors : Tensors :=
  {| Tensor := list Z;
     relu := map (Z.max 0);
     layer_forward o x :=
       match o with
       | Conv2d _ _ k _ => Ok (map (fun v => v - k) x)
       | MaxPool2d _ _ => Ok [foldr Z.max 0 x]
       | AvgPool2d _ _ => Ok x
       | LPPool2d _ _ => Ok x
       | Linear _ n => Ok (map (fun v => 2 * v - n) x)
       | ExnObj _ => Raise RuntimeError
       end;
     view x _ := Ok x |}.

(** The constructors refuse negative sizes and a norm of zero. *)
#[export] Instance layers : Layers :=
  {| refused o :=
       match o with
       | Conv2d i n k p =>
           if (i <? 0) || (n <? 0) || (k <? 0) || (p <? 0) then Some RuntimeError
           else None
       | Linear i n => if (i <? 0) || (n <? 0) then Some RuntimeError else None
       | LPPool2d norm _ => if norm =? 0 then Some ValueError else None
       | _ => None
       end |}.

(** The model predicts class [1] for the inputs that reach its threshold;
    the optimizer moves the threshold by a fixed amount. *)
#[export] Instance torch : Torch :=
  {| Model := Z;
     Optimizer := Z;
     StateDict := Z;
     Loss := Z;
     state_dict m := m;
     load_state_dict sd := fun _ => (Ok tt, sd);
     module_to _ := ret tt;
     module_call x := fun m => (Ok (map (fun v => if v <? m then 0 else 1) x), m);
     tensor_to _ x := Ok x;
     item l := inject_Z l;
     backward _ := ret tt;
     zero_grad := ret tt;
     step := fun mo => (Ok tt, (fst mo + snd mo, snd mo));
     argmax t := Ok t;
     pixel_key t i := Ok (if Z.even (default 0 (t !! Z.to_nat i)) then "even" else "odd") |}.

(** Number of wrong predictions. *)
Definition criterion (outputs : Tensor) (labels : list Z) : result Loss :=
  Ok (Z.of_nat (length (filter (fun pl => fst pl <> snd pl) (zip outputs labels)))).

(** Two batches per traversal, the same at every epoch. *)
Definition loader : DataLoader Batch :=
  mkloader 2 (fun _ => [([1; 5; 7], [0; 1; 1]); ([2; 9], [1; 1])]).

(** A loader whose length is not the number of batches that a traversal
    yields, as with an iterable dataset of declared length. *)
Definition long_loader : DataLoader Batch :=
  mkloader 4 (fun _ => [([1; 5; 7], [0; 1; 1]); ([2; 9], [1; 1])]).

Definition start (m : Z) : train_world :=
  {| tw_model := m; tw_optimizer := 1; tw_out := []; tw_items := [] |}.

Definition fresh (m : Z) (fs : gmap string Z) : world :=
  {| w_model := m; w_fs := fs; w_out := [] |}.

End Example.

(** A progress line is due: its epoch index (printed plus one) is a multiple
    of [print_epochs], its step a multiple of the cadence. *)
Definition progress_due `{Floats} (print_epochs cadence : Z) (e : train_event) : Prop :=
  match e with
  | Progress epoch _ step _ _ _ =>
      print_epochs <> 0 /\ (epoch - 1) mod print_epochs = 0
      /\ cadence <> 0 /\ step mod cadence = 0
  | _ => True
  end.

(** The output of a state extends [out] by events that satisfy [P]. *)
Definition prints_only `{Torch} (P : train_event -> Prop) (out : list train_event)
    (w : train_world) : Prop :=
  exists new, tw_out w = out ++ new /\ Forall P new.

(** ** Further inputs for the examples *)
Module Cases.
Import Example.

(** A loader that yields nothing and has length zero. *)
Definition empty_loader : DataLoader Batch := mkloader 0 (fun _ => []).

End Cases.

(** ** Reading the counters of the evaluation loop *)

(** Sum of a list of counters. *)
Definition total (l : list Z) : Z := foldr Z.add 0 l.

(** Number of labels in a list of batches. *)
Definition n_labels `{Tensors} (batches : list Batch) : Z :=
  Z.of_nat (length (concat (map snd batches))).

(** The per-class counters after [k] samples: one entry per class, the
    sample counts add up to [k], and no class has more correct predictions
    than samples. *)
Definition tally_counted (n : nat) (k : Z) (t : tally) : Prop :=
  tally_sized n t
  /\ total (n_class_samples t) = k
  /\ Forall2 (fun c s => 0 <= c <= s) (n_class_correct t) (n_class_samples t).

(** ** Reading the output of the evaluation loop *)

Definition is_imshow `{Floats} `{Tensors} (e : event) : bool :=
  match e with Imshow _ _ => true | _ => false end.

(** Number of samples displayed in an output. *)
Definition shown `{Floats} `{Tensors} (out : list event) : nat :=
  length (filter (fun e => is_imshow e = true) out).

(** What holds after a computation: [J] of the value and the store when it
    returns, [Q] of the store when it raises. *)
Definition after {S A : Type} (J : A -> S -> Prop) (Q : S -> Prop)
    (x : result A * S) : Prop :=
  match x with
  | (Ok a, s) => J a s
  | (Raise _, s) => Q s
  end.

(** The displayed samples are accounted for by the list [wrongs], which
    stays within the limit and stays empty when display is off. *)
Definition wrongs_shown `{Torch} (show_wrongs : bool) (n_wrongs : Z) (base : nat)
    (t : tally) (w : world) : Prop :=
  shown (w_out w) = (base + length (wrongs t))%nat
  /\ Z.of_nat (length (wrongs t)) <= Z.max 0 n_wrongs
  /\ (show_wrongs = false -> wrongs t = []).

(** At most [n_wrongs] samples displayed beyond [base], none when display
    is off. *)
Definition shown_within `{Torch} (show_wrongs : bool) (n_wrongs : Z) (base : nat)
    (w : world) : Prop :=
  (shown (w_out w) <= base + Z.to_nat n_wrongs)%nat
  /\ (show_wrongs = false -> shown (w_out w) = base).

(** Two states of a training run that differ at most in what was printed. *)
Definition same_training `{Torch} (w1 w2 : train_world) : Prop :=
  tw_model w1 = tw_model w2 /\ tw_optimizer w1 = tw_optimizer w2
  /\ tw_items w1 = tw_items w2.

(** * Properties *)

(** ** Binary64 quotients: known values *)

(** [1 / 3] is [0x3FD5555555555555]. *)
Example true_div_one_third : true_div 1 3 = Ok (mkfloat 6004799503160661 (-54)).
Proof. vm_compute. reflexivity. Qed.

(** [int(-1 / 2) = 0]: truncation toward zero. *)
Example int_of_minus_half : exists x, true_div (-1) 2 = Ok x /\ py_int x = 0.
Proof. eexists. split; vm_compute; reflexivity. Qed.

(** [int(7 / 2) = 3] and [ceil(7 / 2) = 4]. *)
Example int_and_ceil_of_seven_halves :
  exists x, true_div 7 2 = Ok x /\ py_int x = 3 /\ py_ceil x = 4.
Proof. eexists. split; [|split]; vm_compute; reflexivity. Qed.

(** [(2 ** 53 + 1) / 1] is the float [2 ** 53]. *)
Example true_div_rounds_above_2_53 :
  exists x, true_div (2 ^ 53 + 1) 1 = Ok x /\ py_int x = 2 ^ 53.
Proof. eexists. split; vm_compute; reflexivity. Qed.

(** Division by zero and overflow raise. *)
Example true_div_raising :
  true_div 1 0 = Raise ZeroDivisionError
  /\ true_div (2 ^ 1024) 1 = Raise OverflowError
  /\ true_div (2 ^ 1024 - 2 ^ 970) 1 = Raise OverflowError.
Proof. repeat split; vm_compute; reflexivity. Qed.

(** ** Binary64 quotients: truncation and exactness below [2 ^ 53] *)

Lemma rhe_bounds n d : 0 <= n -> 0 < d ->
  n / d <= round_half_even n d <= n / d + 1.
Proof.
  intros Hn Hd. unfold round_half_even.
  destruct (2 * (n mod d) ?= d); [destruct (Z.even (n / d))|..]; lia.
Qed.

Lemma rhe_up n d : 0 <= n -> 0 < d ->
  round_half_even n d = n / d + 1 -> d <= 2 * (n mod d).
Proof.
  intros Hn Hd. unfold round_half_even.
  destruct (2 * (n mod d) ?= d) eqn:E.
  - apply Z.compare_eq in E. lia.
  - lia.
  - apply Z.compare_gt_iff in E. lia.
Qed.

Lemma rhe_div a b N : 0 <= a -> 0 < b -> 1 <= N ->
  b < 2 * N * (b - a mod b) ->
  round_half_even (a * N) b / N = a / b.
Proof.
  intros Ha Hb HN Hlt.
  pose proof (Z.div_mod a b ltac:(lia)) as Hab.
  pose proof (Z.mod_pos_bound a b Hb) as Hr.
  set (k := a / b) in *. set (r := a mod b) in *.
  assert (Hk : 0 <= k) by (apply Z.div_pos; lia).
  pose proof (Z.div_mod (a * N) b ltac:(lia)) as HaN.
  pose proof (Z.mod_pos_bound (a * N) b Hb) as Hr'.
  pose proof (rhe_bounds (a * N) b ltac:(nia) Hb) as Hbd.
  pose proof (rhe_up (a * N) b ltac:(nia) Hb) as Hup.
  set (m := round_half_even (a * N) b) in *.
  set (q := (a * N) / b) in *. set (r' := (a * N) mod b) in *.
  symmetry. apply Z.div_unique with (r := m - k * N).
  2: lia.
  left.
  assert (Hq1 : k * N <= q) by nia.
  assert (Hq2 : q < k * N + N) by nia.
  split. lia.
  destruct (Z.eq_dec m (q + 1)) as [E|E].
  - specialize (Hup E).
    assert (q + 1 < k * N + N); [|lia].
    destruct (Z.eq_dec q (k * N + N - 1)); [|lia].
    exfalso. nia.
  - lia.
Qed.

Lemma scale_nonneg a b e : 0 <= e -> scale a b e = (a, b * 2 ^ e).
Proof. intros. unfold scale. destruct (Z.leb_spec 0 e); [reflexivity|lia]. Qed.

Lemma scale_neg a b e : e < 0 -> scale a b e = (a * 2 ^ (- e), b).
Proof. intros. unfold scale. destruct (Z.leb_spec 0 e); [lia|reflexivity]. Qed.

Lemma binade_spec a b : 0 < a -> 0 < b -> in_binade a b (binade a b).
Proof.
  intros Ha Hb. unfold in_binade, binade.
  destruct (Z.log2_spec a Ha) as [La Ua]. destruct (Z.log2_spec b Hb) as [Lb Ub].
  pose proof (Z.log2_nonneg a) as Hla. pose proof (Z.log2_nonneg b) as Hlb.
  set (la := Z.log2 a) in *. set (lb := Z.log2 b) in *.
  rewrite Z.pow_succ_r in Ua, Ub by assumption.
  destruct (Z_le_gt_dec 0 (la - lb)) as [Hd|Hd].
  - rewrite (scale_nonneg a b (la - lb)) by assumption.
    assert (Hp : 2 ^ la = 2 ^ lb * 2 ^ (la - lb)).
    { rewrite <- Z.pow_add_r by lia. f_equal; lia. }
    assert (0 < 2 ^ (la - lb)) by (apply Z.pow_pos_nonneg; lia).
    assert (0 < 2 ^ lb) by (apply Z.pow_pos_nonneg; lia).
    destruct (Z.leb_spec (b * 2 ^ (la - lb)) a) as [Hle|Hgt].
    + rewrite scale_nonneg by assumption. cbn [fst snd]. nia.
    + destruct (Z.eq_dec (la - lb) 0) as [E|E].
      * rewrite E in *. rewrite scale_neg by lia. cbn [fst snd].
        change (2 ^ (- (0 - 1))) with 2. change (2 ^ 0) with 1 in *. nia.
      * rewrite scale_nonneg by lia. cbn [fst snd].
        assert (Hq : 2 ^ (la - lb) = 2 * 2 ^ (la - lb - 1)).
        { rewrite <- Z.pow_succ_r by lia. f_equal; lia. }
        assert (0 < 2 ^ (la - lb - 1)) by (apply Z.pow_pos_nonneg; lia).
        nia.
  - rewrite (scale_neg a b (la - lb)) by lia.
    assert (Hp : 2 ^ lb = 2 ^ la * 2 ^ (- (la - lb))).
    { rewrite <- Z.pow_add_r by lia. f_equal; lia. }
    assert (0 < 2 ^ (- (la - lb))) by (apply Z.pow_pos_nonneg; lia).
    assert (0 < 2 ^ la) by (apply Z.pow_pos_nonneg; lia).
    destruct (Z.leb_spec b (a * 2 ^ (- (la - lb)))) as [Hle|Hgt].
    + rewrite scale_neg by lia. cbn [fst snd]. nia.
    + rewrite scale_neg by lia. cbn [fst snd].
      assert (Hq : 2 ^ (- (la - lb - 1)) = 2 * 2 ^ (- (la - lb))).
      { rewrite <- Z.pow_succ_r by lia. f_equal; lia. }
      nia.
Qed.

Lemma binade_small a b : 0 < a < 2 ^ 53 -> 0 < b -> binade a b <= 52.
Proof.
  intros Ha Hb. pose proof (binade_spec a b ltac:(lia) Hb) as [H1 _].
  destruct (Z_le_gt_dec (binade a b) 52) as [|Hgt]; [assumption|exfalso].
  rewrite scale_nonneg in H1 by lia. cbn [fst snd] in H1.
  assert (2 ^ 53 <= 2 ^ binade a b) by (apply Z.pow_le_mono_r; lia).
  nia.
Qed.

Lemma nearest_floor a b : 0 < a < 2 ^ 53 -> 0 < b ->
  exists f, nearest a b = Ok f /\ expo f <= 0 /\ 0 <= mant f /\
            mant f / 2 ^ (- expo f) = a / b.
Proof.
  intros Ha Hb.
  pose proof (binade_spec a b ltac:(lia) Hb) as [H1 H2].
  pose proof (binade_small a b Ha Hb) as Hl.
  unfold nearest.
  set (l := binade a b) in *.
  set (e := Z.max (l - 52) (-1074)).
  assert (He : e <= 0) by lia.
  assert (Hsc : scale a b e = (a * 2 ^ (- e), b)).
  { destruct (Z.eq_dec e 0) as [E|E].
    - rewrite E. rewrite scale_nonneg by lia. change (2 ^ (- 0)) with 1.
      change (2 ^ 0) with 1. f_equal; lia.
    - apply scale_neg. lia. }
  rewrite Hsc.
  assert (HN : 1 <= 2 ^ (- e)).
  { assert (0 < 2 ^ (- e)) by (apply Z.pow_pos_nonneg; lia). lia. }
  destruct (Z.ltb_spec 971 e); [lia|].
  destruct (Z.eqb_spec e 971); [lia|]. cbn [orb andb].
  eexists. split; [reflexivity|]. cbn [mant expo].
  pose proof (Z.mod_pos_bound a b Hb) as Hr.
  split; [assumption|]. split.
  { pose proof (rhe_bounds (a * 2 ^ (- e)) b ltac:(nia) Hb).
    assert (0 <= a * 2 ^ (- e) / b) by (apply Z.div_pos; nia). lia. }
  apply rhe_div; try lia.
  destruct (Z_le_gt_dec (-1074) (l - 52)) as [Hc|Hc].
  - (* a normal number: [b < 2 * 2 ^ (- e)] *)
    assert (E : e = l - 52) by lia.
    assert (b < 2 * 2 ^ (- e)); [|nia].
    rewrite <- Z.pow_succ_r by lia.
    replace (Z.succ (- e)) with (53 - l) by lia.
    destruct (Z_le_gt_dec 0 l) as [Hl0|Hl0].
    + rewrite scale_nonneg in H1 by assumption. cbn [fst snd] in H1.
      assert (Hp : 2 ^ 53 = 2 ^ (53 - l) * 2 ^ l).
      { rewrite <- Z.pow_add_r by lia. f_equal; lia. }
      assert (0 < 2 ^ l) by (apply Z.pow_pos_nonneg; lia).
      assert (0 < 2 ^ (53 - l)) by (apply Z.pow_pos_nonneg; lia).
      nia.
    + rewrite scale_neg in H1 by lia. cbn [fst snd] in H1.
      assert (Hp : 2 ^ (53 - l) = 2 ^ 53 * 2 ^ (- l)).
      { rewrite <- Z.pow_add_r by lia. f_equal; lia. }
      assert (0 < 2 ^ (- l)) by (apply Z.pow_pos_nonneg; lia).
      nia.
  - (* below the normal range the quotient is less than one half *)
    assert (E : e = -1074) by lia. rewrite E in *.
    assert (HN' : 2 ^ 53 <= 2 ^ (- -1074)) by (apply Z.pow_le_mono_r; lia).
    set (N := 2 ^ (- -1074)) in *.
    destruct (Z_lt_ge_dec b (2 * N)) as [Hb'|Hb']; [nia|].
    rewrite Z.mod_small by lia. nia.
Qed.

Lemma quot_sign a b : b <> 0 ->
  Z.quot a b = Z.sgn a * Z.sgn b * (Z.abs a / Z.abs b).
Proof.
  intros Hb.
  rewrite <- Z.quot_div_nonneg by lia.
  destruct (Z.abs_spec a) as [[Ha ->]|[Ha ->]], (Z.abs_spec b) as [[Hb' ->]|[Hb' ->]].
  - destruct (Z.eq_dec a 0) as [->|]; [rewrite Z.quot_0_l by lia; reflexivity|].
    rewrite !Z.sgn_pos by lia. lia.
  - destruct (Z.eq_dec a 0) as [->|]; [rewrite !Z.quot_0_l by lia; reflexivity|].
    rewrite Z.sgn_pos, Z.sgn_neg by lia. rewrite Z.quot_opp_r by lia. lia.
  - rewrite Z.sgn_neg, Z.sgn_pos by lia. rewrite Z.quot_opp_l by lia. lia.
  - rewrite !Z.sgn_neg by lia. rewrite Z.quot_opp_l, Z.quot_opp_r by lia. lia.
Qed.

(** Below [2 ^ 53] the binary64 quotient truncates to the integer quotient. *)
Lemma true_div_int a b : Z.abs a < 2 ^ 53 -> b <> 0 ->
  exists f, true_div a b = Ok f /\ py_int f = Z.quot a b.
Proof.
  intros Ha Hb. unfold true_div.
  destruct (Z.eqb_spec b 0); [contradiction|].
  destruct (Z.eqb_spec a 0) as [->|Ha0].
  { eexists. split; [reflexivity|]. rewrite Z.quot_0_l by assumption. reflexivity. }
  destruct (nearest_floor (Z.abs a) (Z.abs b)) as (f & -> & He & Hm & Hq); [lia..|].
  eexists. split; [reflexivity|].
  rewrite quot_sign by assumption. rewrite <- Hq.
  unfold py_int. cbn [mant expo].
  assert (HN : 0 < 2 ^ (- expo f)) by (apply Z.pow_pos_nonneg; lia).
  destruct (Z.leb_spec 0 (expo f)).
  - replace (expo f) with 0 by lia. change (2 ^ (- 0)) with 1. change (2 ^ 0) with 1.
    rewrite Z.div_1_r. lia.
  - rewrite <- (Z.quot_div_nonneg (mant f)) by lia.
    assert (Hs : Z.sgn a * Z.sgn b = 1 \/ Z.sgn a * Z.sgn b = -1).
    { destruct (Z.sgn_spec a) as [[? ->]|[[? ->]|[? ->]]],
               (Z.sgn_spec b) as [[? ->]|[[? ->]|[? ->]]]; lia. }
    destruct Hs as [-> | ->].
    + rewrite !Z.mul_1_l. reflexivity.
    + replace (-1 * mant f) with (- mant f) by lia.
      rewrite Z.quot_opp_l by lia. lia.
Qed.

Lemma true_div_floor a b : 0 <= a < 2 ^ 53 -> 0 < b ->
  exists f, true_div a b = Ok f /\ py_int f = a / b.
Proof.
  intros Ha Hb. destruct (true_div_int a b) as (f & Hf & Hi); [lia..|].
  exists f. split; [assumption|]. rewrite Hi. apply Z.quot_div_nonneg; lia.
Qed.

Lemma rhe_one n : round_half_even n 1 = n.
Proof.
  unfold round_half_even. rewrite Z.mod_1_r, Z.div_1_r. reflexivity.
Qed.

Lemma nearest_one a : 0 < a < 2 ^ 53 ->
  exists e, nearest a 1 = Ok (mkfloat (a * 2 ^ (- e)) e) /\ e <= 0.
Proof.
  intros Ha.
  pose proof (binade_small a 1 Ha ltac:(lia)) as Hl.
  unfold nearest. set (e := Z.max (binade a 1 - 52) (-1074)).
  assert (He : e <= 0) by lia.
  assert (Hsc : scale a 1 e = (a * 2 ^ (- e), 1)).
  { destruct (Z.eq_dec e 0) as [E|E].
    - rewrite E, scale_nonneg by lia. change (2 ^ (- 0)) with 1.
      change (2 ^ 0) with 1. f_equal; lia.
    - apply scale_neg. lia. }
  rewrite Hsc, rhe_one.
  destruct (Z.ltb_spec 971 e); [lia|].
  destruct (Z.eqb_spec e 971); [lia|]. cbn [orb andb].
  exists e. split; [reflexivity|assumption].
Qed.

(** Division by one is exact up to [2 ^ 53] in absolute value. *)
Lemma true_div_one a : Z.abs a <= 2 ^ 53 ->
  exists f, true_div a 1 = Ok f /\ py_ceil f = a /\ py_int f = a.
Proof.
  intros Ha.
  destruct (Z.eq_dec (Z.abs a) (2 ^ 53)) as [E|E].
  - destruct (Z.abs_spec a) as [[_ Ea]|[_ Ea]]; rewrite Ea in E.
    + rewrite E. eexists. split; [vm_compute; reflexivity|]. split; vm_compute; reflexivity.
    + replace a with (- 2 ^ 53) by lia.
      eexists. split; [vm_compute; reflexivity|]. split; vm_compute; reflexivity.
  - unfold true_div. change (1 =? 0) with false. cbv iota.
    destruct (Z.eqb_spec a 0) as [->|Ha0].
    { eexists. split; [reflexivity|]. split; reflexivity. }
    change (Z.abs 1) with 1. change (Z.sgn 1) with 1. rewrite Z.mul_1_r.
    destruct (nearest_one (Z.abs a)) as (e & -> & He); [lia|].
    eexists. split; [reflexivity|].
    unfold py_int, py_ceil. cbn [mant expo].
    assert (HN : 0 < 2 ^ (- e)) by (apply Z.pow_pos_nonneg; lia).
    assert (Hs : Z.sgn a * Z.abs a = a) by lia.
    destruct (Z.leb_spec 0 e).
    + replace e with 0 by lia. change (2 ^ (- 0)) with 1. change (2 ^ 0) with 1.
      split; lia.
    + rewrite Z.mul_assoc, Hs. split.
      * rewrite <- Z.mul_opp_l, Z.div_mul by lia. lia.
      * rewrite Z.quot_mul by lia. reflexivity.
Qed.

(** ** conv_out, convolution and pooling *)

Import Example.

(** Expose the assignments of a builder method as record updates. *)
Ltac unfold_builder :=
  unfold bind, modify, gets, lift, ret, set_img_h, set_img_w, set_last_out;
  cbn [img_h img_w last_out].

(** A constructor that returns, returns the layer it was asked for. *)
Lemma construct_ok `{Layers} (o o' : obj) :
  construct o = Ok o' -> o' = o /\ refused o = None.
Proof.
  unfold construct. destruct (refused o); [discriminate|].
  intros [= <-]. split; reflexivity.
Qed.

Lemma construct_accepted `{Layers} (o : obj) : refused o = None -> construct o = Ok o.
Proof. unfold construct. intros ->. reflexivity. Qed.

Lemma convolution_explicit `{Layers} in_size out_size kernel stride padding self qh qw :
  padding <> -1 ->
  true_div (img_h self + 2 * padding - kernel) stride = Ok qh ->
  true_div (img_w self + 2 * padding - kernel) stride = Ok qw ->
  convolution in_size out_size kernel stride padding self =
    (construct (Conv2d in_size out_size kernel padding),
     {| img_h := py_int qh + 1; img_w := py_int qw + 1; last_out := out_size |}).
Proof.
  intros Hp Hh Hw. unfold convolution.
  destruct (Z.eqb_spec padding (-1)); [contradiction|].
  unfold_builder. rewrite Hh. cbn [img_h img_w last_out].
  rewrite Hw. reflexivity.
Qed.

Lemma pooling_run `{Layers} kernel stride pool_type self qh qw :
  true_div (img_h self) stride = Ok qh ->
  true_div (img_w self) stride = Ok qw ->
  pooling kernel stride pool_type self =
    (if String.eqb pool_type "max" then construct (MaxPool2d kernel stride)
     else if String.eqb pool_type "avg" then construct (AvgPool2d kernel stride)
     else if String.eqb pool_type "lp" then construct (LPPool2d kernel stride)
     else Ok (ExnObj (TypeError "Unknown Type")),
     {| img_h := py_int qh; img_w := py_int qw; last_out := last_out self |}).
Proof.
  intros Hh Hw. unfold pooling.
  unfold_builder. rewrite Hh. cbn [img_h img_w last_out].
  rewrite Hw. cbn [img_h img_w last_out].
  destruct (String.eqb pool_type "max"); [reflexivity|].
  destruct (String.eqb pool_type "avg"); [reflexivity|].
  destruct (String.eqb pool_type "lp"); reflexivity.
Qed.

(** With an unknown pool type no constructor is called. *)
Lemma pooling_unknown `{Layers} kernel stride pool_type self qh qw :
  pool_type <> "max" -> pool_type <> "avg" -> pool_type <> "lp" ->
  true_div (img_h self) stride = Ok qh ->
  true_div (img_w self) stride = Ok qw ->
  pooling kernel stride pool_type self =
    (Ok (ExnObj (TypeError "Unknown Type")),
     {| img_h := py_int qh; img_w := py_int qw; last_out := last_out self |}).
Proof.
  intros Hmax Havg Hlp Eh Ew. rewrite (pooling_run _ _ _ _ _ _ Eh Ew).
  destruct (String.eqb_spec pool_type "max"); [contradiction|].
  destruct (String.eqb_spec pool_type "avg"); [contradiction|].
  destruct (String.eqb_spec pool_type "lp"); [contradiction|reflexivity].
Qed.

(** The state that [pooling] leaves does not depend on the pool type, nor
    on what the constructor of the layer does. *)
Lemma pooling_state `{Layers} kernel stride pool_type pool_type' self :
  snd (pooling kernel stride pool_type self) = snd (pooling kernel stride pool_type' self).
Proof.
  unfold pooling. unfold_builder.
  destruct (true_div (img_h self) stride); [|reflexivity]. cbn [img_h img_w last_out].
  destruct (true_div (img_w self) stride); [|reflexivity]. cbn [img_h img_w last_out].
  destruct (String.eqb pool_type "max"), (String.eqb pool_type "avg"),
    (String.eqb pool_type "lp"), (String.eqb pool_type' "max"),
    (String.eqb pool_type' "avg"), (String.eqb pool_type' "lp"); reflexivity.
Qed.

(** What [pooling] can raise with an unknown pool type: only what the two
    divisions raise. *)
Lemma pooling_raises `{Layers} kernel stride pool_type self e :
  pool_type <> "max" -> pool_type <> "avg" -> pool_type <> "lp" ->
  fst (pooling kernel stride pool_type self) = Raise e ->
  true_div (img_h self) stride = Raise e \/ true_div (img_w self) stride = Raise e.
Proof.
  intros Hmax Havg Hlp.
  destruct (true_div (img_h self) stride) as [qh|e1] eqn:Hh.
  2: { unfold pooling. unfold_builder. rewrite Hh. cbn [fst].
       intros [= ->]. left. reflexivity. }
  destruct (true_div (img_w self) stride) as [qw|e2] eqn:Hw.
  2: { unfold pooling. unfold_builder. rewrite Hh. cbn [fst img_h img_w last_out].
       rewrite Hw. cbn [fst]. intros [= ->]. right. reflexivity. }
  rewrite (pooling_unknown _ _ _ _ _ _ Hmax Havg Hlp Hh Hw). discriminate.
Qed.

Lemma true_div_raises a b e :
  true_div a b = Raise e -> e = ZeroDivisionError \/ e = OverflowError.
Proof.
  unfold true_div.
  destruct (b =? 0); [intros [= <-]; left; reflexivity|].
  destruct (a =? 0); [discriminate|].
  unfold nearest.
  destruct (scale (Z.abs a) (Z.abs b) _) as [n d].
  destruct (_ || _); [intros [= <-]; right; reflexivity|discriminate].
Qed.

(** C1 (as amended). For non-negative size, padding and kernel and a
    positive stride, when the kernel fits in the padded size
    ([kernel <= size + 2 * padding]) and the numerator is below [2 ^ 53],
    [conv_out] returns [floor((size + 2 * padding - kernel) / stride) + 1];
    the explicit-padding branch of [ConvNet.convolution] assigns to each
    recorded dimension what [conv_out] returns for it, whether the
    constructor of the layer then returns or raises; and
    [conv_out(28, 2, 5, 1) = 28]. *)
Theorem conv_out_floor `{Layers} (size padding kernel stride : Z) :
  0 <= size -> 0 <= padding -> 0 <= kernel -> 0 < stride ->
  kernel <= size + 2 * padding -> size + 2 * padding - kernel < 2 ^ 53 ->
  conv_out size padding kernel stride
    = Ok ((size + 2 * padding - kernel) / stride + 1)
  /\ (forall in_size out_size self h' w',
        conv_out (img_h self) padding kernel stride = Ok h' ->
        conv_out (img_w self) padding kernel stride = Ok w' ->
        snd (convolution in_size out_size kernel stride padding self)
          = {| img_h := h'; img_w := w'; last_out := out_size |})
  /\ conv_out 28 2 5 1 = Ok 28.
Proof.
  intros Hs Hp Hk Hst Hfit Hlt. split; [|split].
  - unfold conv_out.
    destruct (true_div_floor (size + 2 * padding - kernel) stride) as (f & -> & ->);
      [lia..|reflexivity].
  - intros in_size out_size self h' w'. unfold conv_out.
    destruct (true_div (img_h self + 2 * padding - kernel) stride) as [qh|] eqn:Hh;
      [|discriminate].
    destruct (true_div (img_w self + 2 * padding - kernel) stride) as [qw|] eqn:Hw;
      [|discriminate].
    intros [= <-] [= <-].
    rewrite (convolution_explicit in_size out_size kernel stride padding self qh qw);
      [reflexivity|lia|assumption..].
  - vm_compute. reflexivity.
Qed.

Lemma conv_out_floor_witness :
  conv_out 28 2 5 1 = Ok ((28 + 2 * 2 - 5) / 1 + 1)
  /\ snd (convolution 1 16 5 1 2 {| img_h := 28; img_w := 30; last_out := 0 |})
     = {| img_h := 28; img_w := 30; last_out := 16 |}.
Proof.
  destruct (conv_out_floor 28 2 5 1) as (H1 & H2 & _); [lia..|].
  split; [exact H1|].
  apply (H2 1 16 {| img_h := 28; img_w := 30; last_out := 0 |});
    vm_compute; reflexivity.
Defined.

(** C1 as stated fails: a kernel larger than the padded size makes the
    numerator negative, and [int] truncates toward zero instead of flooring;
    a numerator above [2 ^ 53] is rounded by the float division. *)
Lemma conv_out_not_floor :
  (conv_out 0 0 1 2 = Ok 1
   /\ conv_out 0 0 1 2 <> Ok ((0 + 2 * 0 - 1) / 2 + 1))
  /\ conv_out (2 ^ 53 + 1) 0 0 1 <> Ok ((2 ^ 53 + 1 + 2 * 0 - 0) / 1 + 1).
Proof.
  split; [split|]; vm_compute; congruence.
Qed.

(** C5 (as amended). In auto mode ([padding = -1]) with [stride = 1] the
    recorded height and width are unchanged by [ConvNet.convolution]
    whenever their absolute values do not exceed [2 ^ 53]. *)
Theorem auto_padding_keeps_size `{Layers} (in_size out_size kernel : Z) (self : attrs) :
  Z.abs (img_h self) <= 2 ^ 53 -> Z.abs (img_w self) <= 2 ^ 53 ->
  img_h (snd (convolution in_size out_size kernel 1 (-1) self)) = img_h self
  /\ img_w (snd (convolution in_size out_size kernel 1 (-1) self)) = img_w self.
Proof.
  intros Hh Hw.
  destruct (true_div_one (img_h self) Hh) as (fh & Eh & Ch & _).
  destruct (true_div_one (img_w self) Hw) as (fw & Ew & Cw & _).
  unfold convolution. change (-1 =? -1) with true. cbv iota.
  unfold_builder. rewrite Eh. cbn [img_h img_w last_out].
  rewrite Ew. cbn [img_h img_w last_out]. rewrite Ch, Cw.
  destruct (true_div kernel 2); split; reflexivity.
Qed.

Lemma auto_padding_keeps_size_witness :
  img_h (snd (convolution 1 16 5 1 (-1) {| img_h := 28; img_w := 32; last_out := 0 |})) = 28
  /\ img_w (snd (convolution 1 16 5 1 (-1) {| img_h := 28; img_w := 32; last_out := 0 |})) = 32.
Proof.
  apply (auto_padding_keeps_size 1 16 5 {| img_h := 28; img_w := 32; last_out := 0 |});
    vm_compute; discriminate.
Defined.

(** C5 as stated fails for a height that binary64 cannot hold: the division
    by the stride rounds it. *)
Lemma auto_padding_rounds_large_size :
  img_h (snd (convolution 1 16 5 1 (-1)
                {| img_h := 2 ^ 53 + 1; img_w := 28; last_out := 0 |}))
  <> 2 ^ 53 + 1.
Proof. vm_compute. discriminate. Qed.

(** C6 (as amended). For a positive stride and recorded dimensions in
    [0, 2 ^ 53), a call to [ConvNet.pooling] updates the dimensions to
    [floor(img_h / stride)] and [floor(img_w / stride)], whatever the kernel
    and the pool type, and whether the constructor of the layer then returns
    or raises. *)
Theorem pooling_floors `{Layers} (kernel stride : Z) (pool_type : string)
    (self : attrs) :
  0 < stride -> 0 <= img_h self < 2 ^ 53 -> 0 <= img_w self < 2 ^ 53 ->
  snd (pooling kernel stride pool_type self)
    = {| img_h := img_h self / stride; img_w := img_w self / stride;
         last_out := last_out self |}.
Proof.
  intros Hs Hh Hw.
  destruct (true_div_floor (img_h self) stride Hh Hs) as (qh & Eh & Ih).
  destruct (true_div_floor (img_w self) stride Hw Hs) as (qw & Ew & Iw).
  rewrite (pooling_run kernel stride pool_type self qh qw Eh Ew).
  cbn [snd]. rewrite Ih, Iw. reflexivity.
Qed.

Lemma pooling_floors_witness :
  snd (pooling 3 3 "avg" {| img_h := 28; img_w := 31; last_out := 16 |})
    = {| img_h := 28 / 3; img_w := 31 / 3; last_out := 16 |}.
Proof.
  apply (pooling_floors 3 3 "avg" {| img_h := 28; img_w := 31; last_out := 16 |});
    cbn [img_h img_w]; lia.
Defined.

(** C6 as stated fails: a zero stride raises before any update, a negative
    quotient is truncated toward zero instead of floored, and a dimension
    above [2 ^ 53] is rounded by the float division. *)
Lemma pooling_not_floor :
  pooling 2 0 "max" {| img_h := 28; img_w := 28; last_out := 16 |}
    = (Raise ZeroDivisionError, {| img_h := 28; img_w := 28; last_out := 16 |})
  /\ img_h (snd (pooling 2 2 "max" {| img_h := -3; img_w := 28; last_out := 16 |}))
     <> -3 / 2
  /\ img_h (snd (pooling 2 (-2) "max" {| img_h := 3; img_w := 28; last_out := 16 |}))
     <> 3 / -2
  /\ img_h (snd (pooling 2 1 "max" {| img_h := 2 ^ 53 + 1; img_w := 28; last_out := 16 |}))
     <> (2 ^ 53 + 1) / 1.
Proof. repeat split; vm_compute; congruence. Qed.

(** What the update is in general: the quotient truncated toward zero. *)
Lemma pooling_truncates `{Layers} (kernel stride : Z) (pool_type : string)
    (self : attrs) :
  stride <> 0 -> Z.abs (img_h self) < 2 ^ 53 -> Z.abs (img_w self) < 2 ^ 53 ->
  snd (pooling kernel stride pool_type self)
    = {| img_h := Z.quot (img_h self) stride; img_w := Z.quot (img_w self) stride;
         last_out := last_out self |}.
Proof.
  intros Hs Hh Hw.
  destruct (true_div_int (img_h self) stride Hh Hs) as (qh & Eh & Ih).
  destruct (true_div_int (img_w self) stride Hw Hs) as (qw & Ew & Iw).
  rewrite (pooling_run kernel stride pool_type self qh qw Eh Ew).
  cbn [snd]. rewrite Ih, Iw. reflexivity.
Qed.

(** C3. For a pool type other than 'max', 'avg' and 'lp', [ConvNet.pooling]
    never raises a [TypeError]; once the two divisions of the dimension
    update have succeeded it returns the value [TypeError("Unknown Type")]
    as its result, so the caller receives the error object in place of a
    layer. *)
Theorem pooling_returns_error_object `{Layers} (kernel stride : Z)
    (pool_type : string) (self : attrs) :
  pool_type <> "max" -> pool_type <> "avg" -> pool_type <> "lp" ->
  (forall qh qw,
      true_div (img_h self) stride = Ok qh ->
      true_div (img_w self) stride = Ok qw ->
      fst (pooling kernel stride pool_type self)
        = Ok (ExnObj (TypeError "Unknown Type")))
  /\ (forall e, fst (pooling kernel stride pool_type self) = Raise e ->
                e = ZeroDivisionError \/ e = OverflowError).
Proof.
  intros Hmax Havg Hlp. split.
  - intros qh qw Eh Ew.
    rewrite (pooling_unknown _ _ _ _ _ _ Hmax Havg Hlp Eh Ew). reflexivity.
  - intros e He. destruct (pooling_raises _ _ _ _ _ Hmax Havg Hlp He) as [E|E];
      exact (true_div_raises _ _ _ E).
Qed.

Lemma pooling_returns_error_object_witness :
  fst (pooling 2 2 "median" {| img_h := 28; img_w := 28; last_out := 16 |})
    = Ok (ExnObj (TypeError "Unknown Type")).
Proof.
  destruct (pooling_returns_error_object 2 2 "median"
              {| img_h := 28; img_w := 28; last_out := 16 |}) as [E _];
    [discriminate..|].
  eapply E; vm_compute; reflexivity.
Defined.

(** C10. [ConvNet.pooling] updates the recorded dimensions before it looks
    at the pool type.  For an unknown pool type the state after the call is
    the state after the same call with 'max'; once the two divisions have
    succeeded the call returns the error value with both dimensions
    replaced by the truncated quotients; and for a stride of at least two
    and a positive height below [2 ^ 53] the recorded height has strictly
    decreased, so the state is not the one before the call. *)
Theorem pooling_error_path_mutates `{Layers} (kernel stride : Z) (pool_type : string)
    (self : attrs) :
  pool_type <> "max" -> pool_type <> "avg" -> pool_type <> "lp" ->
  snd (pooling kernel stride pool_type self) = snd (pooling kernel stride "max" self)
  /\ (forall qh qw,
        true_div (img_h self) stride = Ok qh ->
        true_div (img_w self) stride = Ok qw ->
        pooling kernel stride pool_type self
          = (Ok (ExnObj (TypeError "Unknown Type")),
             {| img_h := py_int qh; img_w := py_int qw; last_out := last_out self |}))
  /\ (2 <= stride -> 0 < img_h self < 2 ^ 53 -> 0 <= img_w self < 2 ^ 53 ->
      pooling kernel stride pool_type self
        = (Ok (ExnObj (TypeError "Unknown Type")),
           {| img_h := img_h self / stride; img_w := img_w self / stride;
              last_out := last_out self |})
      /\ img_h self / stride < img_h self
      /\ snd (pooling kernel stride pool_type self) <> self).
Proof.
  intros Hmax Havg Hlp.
  pose proof (fun qh qw => pooling_unknown kernel stride pool_type self qh qw
                             Hmax Havg Hlp) as Herr.
  split; [|split; [exact Herr|]].
  - apply pooling_state.
  - intros Hs Hh Hw.
    destruct (true_div_floor (img_h self) stride) as (qh & Eh & Ih); [lia..|].
    destruct (true_div_floor (img_w self) stride) as (qw & Ew & Iw); [lia..|].
    rewrite (Herr _ _ Eh Ew). cbn [snd]. rewrite Ih, Iw.
    assert (Hlt : img_h self / stride < img_h self) by (apply Z.div_lt; lia).
    repeat split; [assumption|].
    intros E. rewrite <- E in Hlt at 2. cbn [img_h] in Hlt. lia.
Qed.

Lemma pooling_error_path_mutates_witness :
  pooling 2 2 "median" {| img_h := 28; img_w := 28; last_out := 16 |}
    = (Ok (ExnObj (TypeError "Unknown Type")),
       {| img_h := 28 / 2; img_w := 28 / 2; last_out := 16 |})
  /\ snd (pooling 2 2 "median" {| img_h := 28; img_w := 28; last_out := 16 |})
     <> {| img_h := 28; img_w := 28; last_out := 16 |}.
Proof.
  destruct (pooling_error_path_mutates 2 2 "median"
              {| img_h := 28; img_w := 28; last_out := 16 |}) as (_ & _ & E);
    try discriminate.
  destruct E as (E1 & _ & E2); try (cbn [img_h img_w]; lia).
  split; [exact E1|exact E2].
Defined.

(** ** Running computations *)

Lemma bind_ok {S A B : Type} (c : M S A) (k : A -> M S B) s b s' :
  bind c k s = (Ok b, s') ->
  exists a s1, c s = (Ok a, s1) /\ k a s1 = (Ok b, s').
Proof.
  unfold bind. destruct (c s) as [[a|e] s1]; [eauto|discriminate].
Qed.

Lemma bind_run {S A B : Type} (c : M S A) (k : A -> M S B) s a s1 :
  c s = (Ok a, s1) -> bind c k s = k a s1.
Proof. intros E. unfold bind. rewrite E. reflexivity. Qed.

Lemma bind_raise {S A B : Type} (c : M S A) (k : A -> M S B) s e s1 :
  c s = (Raise e, s1) -> bind c k s = (Raise e, s1).
Proof. intros E. unfold bind. rewrite E. reflexivity. Qed.

Lemma bind_lift {S A B : Type} (r : result A) (k : A -> M S B) s a :
  r = Ok a -> bind (lift r) k s = k a s.
Proof. intros ->. reflexivity. Qed.

Lemma bind_assoc {S A B C : Type} (c : M S A) (k : A -> M S B) (k' : B -> M S C) s :
  bind (bind c k) k' s = bind c (fun a => bind (k a) k') s.
Proof. unfold bind. destruct (c s) as [[a|e] s1]; reflexivity. Qed.

Lemma lift_ok {S A : Type} (r : result A) (s s' : S) a :
  lift r s = (Ok a, s') -> r = Ok a /\ s' = s.
Proof. unfold lift. intros [= -> ->]. split; reflexivity. Qed.

(** ** The forward pass *)

Lemma convolution_auto_value `{Layers} in_size out_size self c self' :
  convolution in_size out_size 5 1 (-1) self = (Ok c, self') ->
  c = Conv2d in_size out_size 5 2 /\ last_out self' = out_size.
Proof.
  unfold convolution. change (-1 =? -1) with true. cbv iota.
  change (true_div 5 2) with (Ok (mkfloat 5629499534213120 (- 51))).
  unfold_builder.
  destruct (true_div (img_h self) 1); [|discriminate]. cbn [img_h img_w last_out].
  destruct (true_div (img_w self) 1); [|discriminate]. cbn [img_h img_w last_out].
  intros [= E <-]. apply construct_ok in E as [-> _]. split; reflexivity.
Qed.

Lemma pooling_max_value `{Layers} kernel stride self p self' :
  pooling kernel stride "max" self = (Ok p, self') ->
  p = MaxPool2d kernel stride /\ last_out self' = last_out self.
Proof.
  unfold pooling. unfold_builder.
  destruct (true_div (img_h self) stride); [|discriminate]. cbn [img_h img_w last_out].
  destruct (true_div (img_w self) stride); [|discriminate]. cbn [img_h img_w last_out].
  intros [= E <-]. apply construct_ok in E as [-> _]. split; reflexivity.
Qed.

(** The layers that [__init__] stores. *)
Lemma init_layers `{Layers} h w n_classes colour_size net :
  init h w n_classes colour_size = Ok net ->
  conv1 net = Conv2d colour_size 16 5 2 /\ maxPool3 net = MaxPool2d 3 3 /\
  conv2 net = Conv2d 16 32 5 2 /\ maxPool2 net = MaxPool2d 2 2 /\
  flattened net = img_h (dims net) * img_w (dims net) * 32 /\
  fc1 net = Linear (flattened net) 128 /\ fc2 net = Linear 128 64 /\
  fc3 net = Linear 64 32 /\ fc4 net = Linear 32 n_classes.
Proof.
  unfold init.
  match goal with |- fst (?b ?s) = _ -> _ => destruct (b s) as [r s'] eqn:E end.
  cbn [fst]. intros ->.
  apply bind_ok in E as (c1 & s1 & E1 & E).
  apply bind_ok in E as (p3 & s2 & E2 & E).
  apply bind_ok in E as (lo & s3 & E3 & E).
  apply bind_ok in E as (c2 & s4 & E4 & E).
  apply bind_ok in E as (p2 & s5 & E5 & E).
  apply bind_ok in E as (self & s6 & E6 & E).
  apply bind_ok in E as (l1 & s7 & F1 & E). apply lift_ok in F1 as [F1 ->].
  apply bind_ok in E as (l2 & s8 & F2 & E). apply lift_ok in F2 as [F2 ->].
  apply bind_ok in E as (l3 & s9 & F3 & E). apply lift_ok in F3 as [F3 ->].
  apply bind_ok in E as (l4 & s10 & F4 & E). apply lift_ok in F4 as [F4 ->].
  apply construct_ok in F1 as [-> _]. apply construct_ok in F2 as [-> _].
  apply construct_ok in F3 as [-> _]. apply construct_ok in F4 as [-> _].
  apply convolution_auto_value in E1 as [-> L1].
  apply pooling_max_value in E2 as [-> L2].
  injection E3 as <- <-.
  apply convolution_auto_value in E4 as [-> L4].
  apply pooling_max_value in E5 as [-> L5].
  injection E6 as <- <-. injection E as <-. cbn.
  unfold id. rewrite L5, L4, L2, L1. repeat split; reflexivity.
Qed.

(** [forward] reads [self] and applies the layers in the order of the code. *)
Lemma forward_layers `{Tensors} (net : ConvNet) (x : Tensor) :
  forward x net = (forward_layers_spec net x, net).
Proof.
  unfold forward, forward_layers_spec, stages_of, bind, gets, lift, ret.
  cbn [combine run_stages].
  destruct (call (conv1 net) x) as [y1|]; [|reflexivity].
  destruct (call (maxPool3 net) (relu y1)) as [x1|]; [|reflexivity].
  destruct (call (conv2 net) x1) as [y2|]; [|reflexivity].
  destruct (call (maxPool2 net) (relu y2)) as [x2|]; [|reflexivity].
  destruct (view x2 (flattened net)) as [x3|]; [|reflexivity].
  destruct (call (fc1 net) x3) as [y3|]; [|reflexivity].
  destruct (call (fc2 net) (relu y3)) as [y4|]; [|reflexivity].
  destruct (call (fc3 net) (relu y4)) as [y5|]; [|reflexivity].
  destruct (call (fc4 net) (relu y5)) as [y6|]; reflexivity.
Qed.

(** C8. For a network built by [__init__] and every input tensor, [forward]
    leaves the object unchanged and computes conv1, pool(3), conv2, pool(2),
    flatten, fc1, fc2, fc3, fc4 in this order, with the activation after each
    convolution and fully-connected layer except fc4; when the activation is
    idempotent and max pooling and flattening keep a tensor that the
    activation fixes, this is the pipeline with the activation after every
    stage except the last. *)
Theorem forward_pipeline `{Layers} `{Tensors} (h w n_classes colour_size : Z)
    (net : ConvNet) (x : Tensor) :
  init h w n_classes colour_size = Ok net ->
  (conv1 net = Conv2d colour_size 16 5 2 /\ maxPool3 net = MaxPool2d 3 3 /\
   conv2 net = Conv2d 16 32 5 2 /\ maxPool2 net = MaxPool2d 2 2 /\
   fc1 net = Linear (flattened net) 128 /\ fc2 net = Linear 128 64 /\
   fc3 net = Linear 64 32 /\ fc4 net = Linear 32 n_classes)
  /\ forward x net = (forward_layers_spec net x, net)
  /\ ((forall t, relu (relu t) = relu t) ->
      (forall k s t u,
          relu t = t -> layer_forward (MaxPool2d k s) t = Ok u -> relu u = u) ->
      (forall n t u, relu t = t -> view t n = Ok u -> relu u = u) ->
      forward x net = (forward_spec net x, net)).
Proof.
  intros Hinit.
  destruct (init_layers _ _ _ _ _ Hinit) as (C1 & P3 & C2 & P2 & Hf & L1 & L2 & L3 & L4).
  split; [tauto|]. split; [apply forward_layers|].
  intros Hidem Hpool Hview.
  rewrite forward_layers. f_equal.
  unfold forward_layers_spec, forward_spec, stages_of.
  cbn [combine all_but_last run_stages].
  destruct (call (conv1 net) x) as [y1|]; [|reflexivity].
  rewrite P3. cbn [call].
  destruct (layer_forward (MaxPool2d 3 3) (relu y1)) as [x1|] eqn:E1; [|reflexivity].
  rewrite (Hpool _ _ _ _ (Hidem y1) E1).
  destruct (call (conv2 net) x1) as [y2|]; [|reflexivity].
  rewrite P2. cbn [call].
  destruct (layer_forward (MaxPool2d 2 2) (relu y2)) as [x2|] eqn:E2; [|reflexivity].
  pose proof (Hpool _ _ _ _ (Hidem y2) E2) as F2. rewrite F2.
  destruct (view x2 (flattened net)) as [x3|] eqn:E3; [|reflexivity].
  rewrite (Hview _ _ _ F2 E3). reflexivity.
Qed.

Lemma example_relu_idempotent (t : list Z) : relu (relu t) = relu t.
Proof.
  cbn. rewrite map_map. apply map_ext. intros v. lia.
Qed.

Lemma example_pool_nonneg (t : list Z) : 0 <= foldr Z.max 0 t.
Proof. induction t as [|v t IH]; cbn [foldr]; lia. Qed.

Lemma example_pool_fixed (k s : Z) (t u : list Z) :
  relu t = t -> layer_forward (MaxPool2d k s) t = Ok u -> relu u = u.
Proof.
  intros _ [= <-]. cbn. f_equal. pose proof (example_pool_nonneg t). lia.
Qed.

Lemma example_view_fixed (n : Z) (t u : list Z) :
  relu t = t -> view t n = Ok u -> relu u = u.
Proof. intros Ht [= <-]. exact Ht. Qed.

Lemma forward_pipeline_witness :
  exists net,
    init 28 28 10 1 = Ok net
    /\ forward [3; -4; 10] net = (forward_layers_spec net [3; -4; 10], net)
    /\ forward [3; -4; 10] net = (forward_spec net [3; -4; 10], net).
Proof.
  exists {| dims := {| img_h := 4; img_w := 4; last_out := 32 |};
            conv1 := Conv2d 1 16 5 2; maxPool3 := MaxPool2d 3 3;
            conv2 := Conv2d 16 32 5 2; maxPool2 := MaxPool2d 2 2;
            flattened := 512;
            fc1 := Linear 512 128; fc2 := Linear 128 64; fc3 := Linear 64 32;
            fc4 := Linear 32 10 |}.
  assert (E : init 28 28 10 1
              = Ok {| dims := {| img_h := 4; img_w := 4; last_out := 32 |};
                      conv1 := Conv2d 1 16 5 2; maxPool3 := MaxPool2d 3 3;
                      conv2 := Conv2d 16 32 5 2; maxPool2 := MaxPool2d 2 2;
                      flattened := 512;
                      fc1 := Linear 512 128; fc2 := Linear 128 64;
                      fc3 := Linear 64 32; fc4 := Linear 32 10 |})
    by (vm_compute; reflexivity).
  split; [exact E|].
  destruct (@forward_pipeline layers tensors 28 28 10 1 _ [3; -4; 10] E) as (_ & H1 & H2).
  split; [exact H1|].
  apply H2; [exact example_relu_idempotent | exact example_pool_fixed
            | exact example_view_fixed].
Defined.

(** ** train_model *)

Lemma range_last n : 1 <= n -> last (range n) = Some (n - 1).
Proof.
  intros Hn. unfold range.
  replace (Z.to_nat n) with (S (Z.to_nat (n - 1))) by lia.
  rewrite seq_S, map_app. cbn [map]. rewrite last_snoc. f_equal. lia.
Qed.

Lemma range_NoDup n : NoDup (range n).
Proof.
  unfold range. apply (NoDup_fmap_2 Z.of_nat). apply NoDup_seq.
Qed.

Lemma enumerate_length {A : Type} (l : list A) : length (enumerate l) = length l.
Proof.
  unfold enumerate. rewrite length_combine, length_map, length_seq. lia.
Qed.

Lemma enumerate_values {A : Type} (l : list A) : map snd (enumerate l) = l.
Proof.
  unfold enumerate. generalize 0%nat.
  induction l as [|a l IH]; intros n; [reflexivity|].
  cbn [length seq map combine snd]. rewrite IH. reflexivity.
Qed.

Section TrainModelFacts.
Context `{Torch}.

Lemma on_model_run {A : Type} (c : M Model A) w r w' :
  on_model c w = (r, w') ->
  c (tw_model w) = (r, tw_model w') /\ tw_optimizer w' = tw_optimizer w
  /\ tw_items w' = tw_items w.
Proof.
  unfold on_model. destruct (c (tw_model w)) as [r0 m]. intros [= <- <-].
  repeat split.
Qed.

Lemma on_optimizer_run {A : Type} (c : M (Model * Optimizer) A) w r w' :
  on_optimizer c w = (r, w') ->
  c (tw_model w, tw_optimizer w) = (r, (tw_model w', tw_optimizer w'))
  /\ tw_items w' = tw_items w.
Proof.
  unfold on_optimizer. destruct (c (tw_model w, tw_optimizer w)) as [r0 [m o]].
  intros [= <- <-]. repeat split.
Qed.

Lemma on_model_items {A : Type} (c : M Model A) w r w' :
  on_model c w = (r, w') -> tw_items w' = tw_items w.
Proof. intros E. apply on_model_run in E. tauto. Qed.

Lemma on_optimizer_items {A : Type} (c : M (Model * Optimizer) A) w r w' :
  on_optimizer c w = (r, w') -> tw_items w' = tw_items w.
Proof. intros E. apply on_optimizer_run in E. tauto. Qed.

Lemma print_run e w r w' :
  print e w = (r, w') ->
  tw_model w' = tw_model w /\ tw_optimizer w' = tw_optimizer w
  /\ tw_items w' = tw_items w.
Proof. unfold print, modify. intros [= _ <-]. repeat split. Qed.

Lemma print_items e w r w' : print e w = (r, w') -> tw_items w' = tw_items w.
Proof. intros E. apply print_run in E. tauto. Qed.

Variable criterion : Tensor -> list Z -> result Loss.
Variables (n_epochs : Z) (device_ : device) (print_steps print_epochs loss_acc : Z).
Variable n_total_steps : Z.

Local Abbreviation body :=
  (train_batch criterion n_epochs device_ print_steps print_epochs loss_acc
     n_total_steps).

(** One iteration is one step of training on its batch: it records the loss
    of the batch and adds it to the accumulator; the progress report touches
    neither the model nor the optimizer. *)
Lemma train_batch_step epoch mean_loss loss_counter ib w mean_loss' loss_counter' w' :
  body epoch (mean_loss, loss_counter) ib w = (Ok (mean_loss', loss_counter'), w') ->
  exists x,
    train_step criterion device_ (tw_model w, tw_optimizer w) (snd ib) x
      (tw_model w', tw_optimizer w')
    /\ tw_items w' = tw_items w ++ [(epoch, x)]
    /\ mean_loss' = fadd mean_loss x /\ loss_counter' = loss_counter + 1.
Proof.
  destruct ib as [i [images labels]]. unfold train_batch.
  intros E.
  apply bind_ok in E as (images' & w1 & E1 & E). apply lift_ok in E1 as [E1 ->].
  apply bind_ok in E as (outputs & w2 & E2 & E).
  apply on_model_run in E2 as (E2 & O2 & I2).
  apply bind_ok in E as (loss & w3 & E3 & E). apply lift_ok in E3 as [E3 ->].
  apply bind_ok in E as ([] & w4 & E4 & E).
  unfold record_item, modify in E4. injection E4 as <-.
  apply bind_ok in E as ([] & w5 & E5 & E).
  apply on_optimizer_run in E5 as (E5 & I5). cbn [tw_model tw_optimizer tw_items] in E5, I5.
  apply bind_ok in E as ([] & w6 & E6 & E).
  apply on_model_run in E6 as (E6 & O6 & I6).
  apply bind_ok in E as ([] & w7 & E7 & E).
  apply on_optimizer_run in E7 as (E7 & I7).
  apply bind_ok in E as (r & w8 & E8 & E). apply lift_ok in E8 as [_ ->].
  apply bind_ok in E as ([] & w9 & E9 & E).
  injection E as <- <- <-.
  assert (E10 : tw_model w9 = tw_model w7 /\ tw_optimizer w9 = tw_optimizer w7
                /\ tw_items w9 = tw_items w7).
  { destruct (r =? 0); [|injection E9 as <-; repeat split].
    apply bind_ok in E9 as (q & wa & Ea & E9). apply lift_ok in Ea as [_ ->].
    apply bind_ok in E9 as (r' & wb & Eb & E9). apply lift_ok in Eb as [_ ->].
    destruct (r' =? 0); [|injection E9 as <-; repeat split].
    apply bind_ok in E9 as (avg & wc & Ec & E9). apply lift_ok in Ec as [_ ->].
    apply bind_ok in E9 as ([] & wd & Ed & E9).
    destruct (_ || _); [discriminate|]. injection Ed as <-.
    apply print_run in E9. assumption. }
  destruct E10 as (M10 & O10 & I10).
  exists (item loss). split; [|split; [|split; reflexivity]].
  - exists images', outputs, (tw_model w2), loss, (tw_model w5, tw_optimizer w5),
      (tw_model w6).
    cbn [fst snd]. rewrite M10, O10.
    repeat split; try assumption; try reflexivity.
    + rewrite <- O2. exact E5.
    + rewrite <- O6. exact E7.
  - rewrite I10, I7, I6, I5. cbn [tw_items]. rewrite I2. reflexivity.
Qed.

(** One iteration records one value and adds it to the accumulator. *)
Lemma train_batch_items epoch mean_loss loss_counter ib w mean_loss' loss_counter' w' :
  body epoch (mean_loss, loss_counter) ib w = (Ok (mean_loss', loss_counter'), w') ->
  exists x, tw_items w' = tw_items w ++ [(epoch, x)]
            /\ mean_loss' = fadd mean_loss x /\ loss_counter' = loss_counter + 1.
Proof.
  intros E. apply train_batch_step in E as (x & _ & E). exists x. exact E.
Qed.

(** One traversal of the loader trains on its batches in turn, records the
    loss of each, tagged with the epoch, and returns their running sum. *)
Lemma epoch_loop_trains epoch (l : list (Z * Batch)) :
  forall mean_loss loss_counter w mean_loss' loss_counter' w',
    for_each l (mean_loss, loss_counter) (body epoch) w
      = (Ok (mean_loss', loss_counter'), w') ->
    exists xs,
      trains criterion device_ (tw_model w, tw_optimizer w) (map snd l) xs
        (tw_model w', tw_optimizer w')
      /\ tw_items w' = tw_items w ++ map (pair epoch) xs
      /\ mean_loss' = fold_left fadd xs mean_loss
      /\ length xs = length l.
Proof.
  induction l as [|ib l IH]; intros ml lc w ml' lc' w' E.
  - injection E as <- <- <-. exists []. rewrite app_nil_r.
    repeat split. constructor.
  - cbn [for_each] in E. apply bind_ok in E as ([ml1 lc1] & w1 & E1 & E).
    apply train_batch_step in E1 as (x & T1 & I1 & -> & ->).
    apply IH in E as (xs & T2 & I2 & -> & L).
    exists (x :: xs). cbn [map fold_left length]. rewrite I2, I1, <- app_assoc.
    repeat split; [|lia]. econstructor; eassumption.
Qed.

Lemma epoch_loop_items epoch (l : list (Z * Batch)) :
  forall mean_loss loss_counter w mean_loss' loss_counter' w',
    for_each l (mean_loss, loss_counter) (body epoch) w
      = (Ok (mean_loss', loss_counter'), w') ->
    exists xs, tw_items w' = tw_items w ++ map (pair epoch) xs
               /\ mean_loss' = fold_left fadd xs mean_loss
               /\ length xs = length l.
Proof.
  intros ml lc w ml' lc' w' E. apply epoch_loop_trains in E as (xs & _ & E).
  exists xs. exact E.
Qed.

Lemma trains_length mo bs xs mo' :
  trains criterion device_ mo bs xs mo' -> length xs = length bs.
Proof. induction 1; cbn [length]; congruence. Qed.

Lemma trains_epochs_length mo bss xss mo' :
  trains_epochs criterion device_ mo bss xss mo' -> length xss = length bss.
Proof. induction 1; cbn [length]; congruence. Qed.

End TrainModelFacts.

Section TrainModelEpochs.
Context `{Torch}.
Variable data_loader : DataLoader Batch.
Variable criterion : Tensor -> list Z -> result Loss.
Variables (n_epochs : Z) (device_ : device) (print_steps print_epochs loss_acc : Z).

Local Abbreviation epoch_body :=
  (fun (_ : F) (epoch : Z) =>
     train_epoch data_loader criterion n_epochs device_ print_steps print_epochs
       loss_acc epoch).

(** The record that a list of epochs leaves: the losses of each, tagged. *)
Local Abbreviation tagged es xss :=
  (concat (zip_with (fun (e : Z) (xs : list F) => map (pair e) xs) es xss)).

Lemma epoch_items_tagged epoch e (xs : list F) :
  epoch_items e (map (pair epoch) xs) = if decide (epoch = e) then xs else [].
Proof.
  unfold epoch_items. induction xs as [|x xs IH]; [destruct (decide _); reflexivity|].
  cbn [map]. rewrite filter_cons. cbn [fst].
  destruct (decide (epoch = e)); cbn [map snd]; rewrite IH; reflexivity.
Qed.

Lemma epoch_items_app e (l1 l2 : list (Z * F)) :
  epoch_items e (l1 ++ l2) = epoch_items e l1 ++ epoch_items e l2.
Proof. unfold epoch_items. rewrite filter_app, map_app. reflexivity. Qed.

Lemma epoch_items_other e (es : list Z) :
  forall xss : list (list F), e ∉ es -> epoch_items e (tagged es xss) = [].
Proof.
  induction es as [|e0 es IH]; intros xss He; [reflexivity|].
  destruct xss as [|xs xss]; [reflexivity|].
  cbn [zip_with concat]. rewrite epoch_items_app, epoch_items_tagged.
  rewrite not_elem_of_cons in He. destruct He as [He1 He2].
  rewrite decide_False by congruence. apply IH. assumption.
Qed.

(** With distinct epochs, the values tagged with the last one are the
    losses of the last epoch. *)
Lemma epoch_items_last e (es : list Z) :
  forall xss : list (list F),
    length xss = length es -> NoDup es -> last es = Some e ->
    last xss = Some (epoch_items e (tagged es xss)).
Proof.
  induction es as [|e0 es IH]; intros xss L Hnd He; [discriminate|].
  destruct xss as [|xs xss]; [discriminate|].
  apply NoDup_cons in Hnd as [Hnotin Hnd].
  cbn [zip_with concat]. rewrite epoch_items_app, epoch_items_tagged.
  destruct es as [|e1 es'].
  - injection He as <-. destruct xss; [|discriminate].
    rewrite decide_True by reflexivity. cbn. rewrite app_nil_r. reflexivity.
  - destruct xss as [|xs1 xss']; [discriminate|].
    change (last (e0 :: e1 :: es')) with (last (e1 :: es')) in He.
    change (last (xs :: xs1 :: xss')) with (last (xs1 :: xss')).
    assert (e ∈ e1 :: es') by (apply last_Some_elem_of; assumption).
    rewrite decide_False by (intros ->; contradiction).
    apply IH; [|assumption..]. cbn [length] in L |- *. lia.
Qed.

(** The epochs in turn: each trains on its own traversal of the loader,
    from the model and optimizer that the previous one left, and the value
    that survives the loop is the sum of the losses of the last one. *)
Lemma epochs_loop_trains (es : list Z) :
  forall mean_loss w mean_loss' w',
    for_each es mean_loss epoch_body w = (Ok mean_loss', w') ->
    exists xss,
      trains_epochs criterion device_ (tw_model w, tw_optimizer w)
        (map (fun e => dl_iter data_loader (Z.to_nat e)) es) xss
        (tw_model w', tw_optimizer w')
      /\ tw_items w' = tw_items w ++ tagged es xss
      /\ (es = [] -> mean_loss' = mean_loss)
      /\ (forall xs, last xss = Some xs -> mean_loss' = py_sum xs).
Proof.
  induction es as [|epoch es IH]; intros ml w ml' w' E.
  - injection E as <- <-. exists []. cbn. rewrite app_nil_r.
    repeat split; try discriminate. constructor.
  - cbn [for_each] in E. apply bind_ok in E as (ml1 & w1 & E1 & E).
    unfold train_epoch in E1.
    apply bind_ok in E1 as ([ml2 lc2] & w2 & E1 & E2). injection E2 as <- <-.
    apply epoch_loop_trains in E1 as (xs & T1 & I1 & -> & L1).
    rewrite enumerate_values in T1.
    apply IH in E as (xss & T2 & I2 & Hnil & Hlast).
    exists (xs :: xss). cbn [map zip_with concat].
    split; [econstructor; eassumption|].
    split; [rewrite I2, I1, <- app_assoc; reflexivity|].
    split; [discriminate|].
    intros ys Hys. destruct xss as [|xs1 xss'].
    + injection Hys as <-. apply trains_epochs_length in T2.
      rewrite length_map in T2. destruct es; [|discriminate].
      rewrite Hnil by reflexivity. reflexivity.
    + apply Hlast. exact Hys.
Qed.

(** What is recorded carries the epochs of the list, and the value that
    survives the loop is the sum recorded at the last one. *)
Lemma epochs_loop_items (es : list Z) :
  forall mean_loss w mean_loss' w',
    for_each es mean_loss epoch_body w = (Ok mean_loss', w') ->
    exists new,
      tw_items w' = tw_items w ++ new
      /\ (forall e, e ∉ es -> epoch_items e new = [])
      /\ (es = [] -> mean_loss' = mean_loss)
      /\ (forall e, last es = Some e -> NoDup es ->
            mean_loss' = py_sum (epoch_items e new)
            /\ length (epoch_items e new)
               = length (dl_iter data_loader (Z.to_nat e))).
Proof.
  induction es as [|epoch es IH]; intros ml w ml' w' E.
  - injection E as <- <-. exists []. rewrite app_nil_r.
    repeat split; try reflexivity; discriminate.
  - cbn [for_each] in E. apply bind_ok in E as (ml1 & w1 & E1 & E).
    unfold train_epoch in E1.
    apply bind_ok in E1 as ([ml2 lc2] & w2 & E1 & E2). injection E2 as <- <-.
    apply epoch_loop_items in E1 as (xs & I1 & -> & L1).
    rewrite enumerate_length in L1.
    apply IH in E as (new & I2 & Hout & Hnil & Hlast).
    exists (map (pair epoch) xs ++ new).
    split; [rewrite I2, I1, <- app_assoc; reflexivity|].
    split; [|split; [discriminate|]].
    + intros e He. rewrite epoch_items_app, epoch_items_tagged.
      rewrite not_elem_of_cons in He. destruct He as [He1 He2].
      destruct (decide (epoch = e)); [congruence|]. apply Hout. assumption.
    + intros e He Hnd. apply NoDup_cons in Hnd as [Hnotin Hnd].
      rewrite epoch_items_app, epoch_items_tagged.
      destruct es as [|e' es'].
      * injection He as <-. rewrite (Hout epoch) by apply not_elem_of_nil.
        rewrite decide_True by reflexivity. rewrite app_nil_r.
        split; [rewrite Hnil by reflexivity; reflexivity|assumption].
      * change (last (epoch :: e' :: es')) with (last (e' :: es')) in He.
        assert (e ∈ e' :: es') by (apply last_Some_elem_of; assumption).
        rewrite decide_False by (intros ->; contradiction).
        apply Hlast; assumption.
Qed.

End TrainModelEpochs.

Section TrainModelReturns.
Context `{Torch}.
Variable data_loader : DataLoader Batch.
Variable criterion : Tensor -> list Z -> result Loss.
Variables (n_epochs : Z) (device_ : device) (print_steps print_epochs loss_acc : Z).

(** The torch calls made by a step do not raise. *)
Hypothesis module_to_ok : forall m, exists m', module_to device_ m = (Ok tt, m').
Hypothesis tensor_to_ok : forall x, exists y, tensor_to device_ x = Ok y.
Hypothesis module_call_ok : forall x m, exists y m', module_call x m = (Ok y, m').
Hypothesis criterion_ok : forall y l, exists loss, criterion y l = Ok loss.
Hypothesis zero_grad_ok : forall mo, exists mo', zero_grad mo = (Ok tt, mo').
Hypothesis backward_ok : forall loss m, exists m', backward loss m = (Ok tt, m').
Hypothesis step_ok : forall mo, exists mo', step mo = (Ok tt, mo').

(** The printing parameters do not make the progress report fail. *)
Hypothesis print_epochs_ok : print_epochs <> 0.
Hypothesis print_steps_ok : print_steps <> 0.
Hypothesis n_total_steps_ok : Z.abs (dl_len data_loader) < 2 ^ 53.
Hypothesis cadence_ok : Z.quot (dl_len data_loader) print_steps <> 0.
Hypothesis loss_acc_ok : 0 <= loss_acc < 2 ^ 31.

Lemma on_model_ok {A : Type} (c : M Model A) :
  (forall m, exists a m', c m = (Ok a, m')) ->
  forall w, exists a w', on_model c w = (Ok a, w').
Proof.
  intros Hc w. unfold on_model. destruct (Hc (tw_model w)) as (a & m' & ->). eauto.
Qed.

Lemma on_optimizer_ok {A : Type} (c : M (Model * Optimizer) A) :
  (forall mo, exists a mo', c mo = (Ok a, mo')) ->
  forall w, exists a w', on_optimizer c w = (Ok a, w').
Proof.
  intros Hc w. unfold on_optimizer.
  destruct (Hc (tw_model w, tw_optimizer w)) as (a & [m o] & ->). eauto.
Qed.

Local Abbreviation body :=
  (train_batch criterion n_epochs device_ print_steps print_epochs loss_acc
     (dl_len data_loader)).

Lemma train_batch_ok epoch mean_loss loss_counter ib w :
  0 <= loss_counter ->
  exists mean_loss' loss_counter' w',
    body epoch (mean_loss, loss_counter) ib w = (Ok (mean_loss', loss_counter'), w')
    /\ 0 <= loss_counter'.
Proof.
  intros Hlc. destruct ib as [i [images labels]]. unfold train_batch.
  destruct (tensor_to_ok images) as (images' & E1).
  rewrite (bind_lift _ _ _ _ E1).
  destruct (on_model_ok (module_call images') (module_call_ok images') w)
    as (outputs & w2 & E2).
  rewrite (bind_run _ _ _ _ _ E2).
  destruct (criterion_ok outputs labels) as (loss & E3).
  rewrite (bind_lift _ _ _ _ E3).
  rewrite (bind_run (record_item epoch (item loss)) _ _ tt _ eq_refl).
  match goal with |- context [bind (on_optimizer zero_grad) _ ?s] =>
    destruct (on_optimizer_ok zero_grad) with (w := s) as ([] & w5 & E5) end.
  { intros mo. destruct (zero_grad_ok mo) as (mo' & ->). eauto. }
  rewrite (bind_run _ _ _ _ _ E5).
  destruct (on_model_ok (backward loss)) with (w := w5) as ([] & w6 & E6).
  { intros m. destruct (backward_ok loss m) as (m' & ->). eauto. }
  rewrite (bind_run _ _ _ _ _ E6).
  destruct (on_optimizer_ok step) with (w := w6) as ([] & w7 & E7).
  { intros mo. destruct (step_ok mo) as (mo' & ->). eauto. }
  rewrite (bind_run _ _ _ _ _ E7).
  unfold py_mod at 1. destruct (Z.eqb_spec print_epochs 0); [contradiction|].
  rewrite (bind_lift _ _ _ _ eq_refl).
  assert (Hreport : exists w9,
    (if epoch mod print_epochs =? 0
     then q <- lift (true_div (dl_len data_loader) print_steps) ;;
          r <- lift (py_mod (i + 1) (py_int q)) ;;
          (if r =? 0
           then avg <- lift (py_fdiv (fadd mean_loss (item loss)) (loss_counter + 1)) ;;
                (if (loss_acc <? 0) || (2 ^ 31 <=? loss_acc) then raise ValueError
                 else ret tt) ;;
                print (Progress (epoch + 1) n_epochs (i + 1) (dl_len data_loader)
                         avg loss_acc)
           else ret tt)
     else ret tt) w7 = (Ok tt, w9)).
  { destruct (epoch mod print_epochs =? 0); [|eexists; reflexivity].
    destruct (true_div_int (dl_len data_loader) print_steps) as (q & Eq & Iq);
      [assumption..|].
    rewrite (bind_lift _ _ _ _ Eq).
    unfold py_mod. rewrite Iq.
    destruct (Z.eqb_spec (Z.quot (dl_len data_loader) print_steps) 0); [contradiction|].
    rewrite (bind_lift _ _ _ _ eq_refl).
    destruct (_ =? 0); [|eexists; reflexivity].
    unfold py_fdiv. destruct (Z.eqb_spec (loss_counter + 1) 0); [lia|].
    rewrite (bind_lift _ _ _ _ eq_refl).
    destruct (Z.ltb_spec loss_acc 0); [lia|].
    destruct (Z.leb_spec (2 ^ 31) loss_acc); [lia|]. cbn [orb].
    rewrite (bind_run (ret tt) _ w7 tt w7 eq_refl). eexists. reflexivity. }
  destruct Hreport as (w9 & E9). rewrite (bind_run _ _ _ _ _ E9).
  do 3 eexists. split; [reflexivity|lia].
Qed.

Lemma epoch_loop_ok epoch (l : list (Z * Batch)) :
  forall mean_loss loss_counter w,
    0 <= loss_counter ->
    exists acc w', for_each l (mean_loss, loss_counter) (body epoch) w = (Ok acc, w').
Proof.
  induction l as [|ib l IH]; intros ml lc w Hlc; [do 2 eexists; reflexivity|].
  cbn [for_each].
  destruct (train_batch_ok epoch ml lc ib w Hlc) as (ml' & lc' & w' & E & Hlc').
  rewrite (bind_run _ _ _ _ _ E). apply IH. assumption.
Qed.

Lemma epochs_loop_ok (es : list Z) :
  forall mean_loss w,
    exists mean_loss' w',
      for_each es mean_loss (fun _ epoch =>
        train_epoch data_loader criterion n_epochs device_ print_steps print_epochs
          loss_acc epoch) w = (Ok mean_loss', w').
Proof.
  induction es as [|epoch es IH]; intros ml w; [do 2 eexists; reflexivity|].
  cbn [for_each]. unfold train_epoch at 1.
  destruct (epoch_loop_ok epoch (enumerate (dl_iter data_loader (Z.to_nat epoch)))
              (of_Z 0) 0 w) as (acc & w' & E); [lia|].
  erewrite bind_run; [apply IH|].
  rewrite (bind_run _ _ _ _ _ E). reflexivity.
Qed.

End TrainModelReturns.

(** C2. A run of [train_model] with [n_epochs >= 1] that returns, returns
    the sum of the values of [loss.item()] recorded during the last epoch,
    accumulated from [0], divided by [len(data_loader)]; the last epoch
    recorded one value per batch of its own traversal, whose number is not
    the divisor.  The recorded values are the losses of the batches: the run
    has moved the model to the device and trained, epoch after epoch, on the
    batches of each traversal, every value being
    [criterion(model(images), labels).item()] on the model as the previous
    steps left it, and those of the last epoch are the ones summed.  The
    run does return when the torch calls do not raise, the printing
    parameters do not divide by zero and [loss_acc] is a precision that the
    format accepts ([0 <= loss_acc < 2 ^ 31]). *)
Theorem train_model_returns_last_epoch_mean `{Torch}
    (data_loader : DataLoader Batch) (criterion : Tensor -> list Z -> result Loss)
    (n_epochs : Z) (device_ : device) (print_steps : Z) (print_epochs : option Z)
    (loss_acc : Z) (w : train_world) :
  1 <= n_epochs -> tw_items w = [] ->
  (forall v w',
      train_model data_loader criterion n_epochs device_ print_steps print_epochs
        loss_acc w = (Ok v, w') ->
      v = fdiv (py_sum (epoch_items (n_epochs - 1) (tw_items w')))
               (of_Z (dl_len data_loader))
      /\ length (epoch_items (n_epochs - 1) (tw_items w'))
         = length (dl_iter data_loader (Z.to_nat (n_epochs - 1)))
      /\ exists m0 losses,
           module_to device_ (tw_model w) = (Ok tt, m0)
           /\ trains_epochs criterion device_ (m0, tw_optimizer w)
                (epochs_batches data_loader n_epochs) losses
                (tw_model w', tw_optimizer w')
           /\ last losses = Some (epoch_items (n_epochs - 1) (tw_items w')))
  /\ ((forall m, exists m', module_to device_ m = (Ok tt, m')) ->
      (forall x, exists y, tensor_to device_ x = Ok y) ->
      (forall x m, exists y m', module_call x m = (Ok y, m')) ->
      (forall y l, exists loss, criterion y l = Ok loss) ->
      (forall mo, exists mo', zero_grad mo = (Ok tt, mo')) ->
      (forall loss m, exists m', backward loss m = (Ok tt, m')) ->
      (forall mo, exists mo', step mo = (Ok tt, mo')) ->
      match print_epochs with None => n_epochs | Some p => p end <> 0 ->
      print_steps <> 0 ->
      Z.abs (dl_len data_loader) < 2 ^ 53 ->
      Z.quot (dl_len data_loader) print_steps <> 0 ->
      0 <= loss_acc < 2 ^ 31 ->
      exists v w',
        train_model data_loader criterion n_epochs device_ print_steps print_epochs
          loss_acc w = (Ok v, w')).
Proof.
  intros Hn Hw. split.
  - intros v w' E. unfold train_model in E.
    apply bind_ok in E as ([] & w1 & E1 & E). apply print_run in E1 as (M1 & O1 & I1).
    apply bind_ok in E as ([] & w2 & E2 & E).
    apply on_model_run in E2 as (E2 & O2 & I2).
    apply bind_ok in E as (ml & w3 & E3 & E).
    apply bind_ok in E as ([] & w4 & E4 & E). apply print_run in E4 as (M4 & O4 & I4).
    apply lift_ok in E as [E ->].
    pose proof (epochs_loop_items _ _ _ _ _ _ _ _ _ _ _ _ E3) as (new & I & _ & _ & Hlast).
    destruct (Hlast (n_epochs - 1) (range_last n_epochs Hn) (range_NoDup n_epochs))
      as [Hml Hlen].
    apply epochs_loop_trains in E3 as (xss & T & I' & _ & _).
    assert (Hitems : tw_items w4 = new) by (rewrite I4, I, I2, I1, Hw; reflexivity).
    rewrite Hitems. split; [|split; [assumption|]].
    + unfold py_fdiv in E. destruct (dl_len data_loader =? 0); [discriminate|].
      injection E as <-. rewrite Hml. reflexivity.
    + exists (tw_model w2), xss. rewrite M1 in E2. split; [exact E2|].
      rewrite M4, O4. rewrite O2, O1 in T. split; [exact T|].
      assert (new = concat (zip_with (fun (e : Z) (xs : list F) => map (pair e) xs)
                              (range n_epochs) xss)) as ->.
      { rewrite I, I2, I1, Hw in I'. cbn [app] in I'. exact I'. }
      apply epoch_items_last; [|apply range_NoDup|apply range_last; assumption].
      apply trains_epochs_length in T. rewrite length_map in T. exact T.
  - intros Hto Htt Hcall Hcrit Hzg Hbw Hst Hpe Hps Hlen Hcad Hacc.
    unfold train_model.
    rewrite (bind_run (print TrainingStarted) _ w tt _ eq_refl).
    match goal with |- context [bind (on_model (module_to device_)) _ ?s] =>
      destruct (on_model_ok (module_to device_)) with (w := s) as ([] & w2 & E2) end.
    { intros m. destruct (Hto m) as (m' & ->). eauto. }
    rewrite (bind_run _ _ _ _ _ E2).
    match goal with |- context [bind (for_each (range n_epochs) ?a ?b) _ w2] =>
      destruct (epochs_loop_ok data_loader criterion n_epochs device_ print_steps
                  (match print_epochs with None => n_epochs | Some p => p end)
                  loss_acc Htt Hcall Hcrit Hzg Hbw Hst Hpe Hps Hlen Hcad Hacc
                  (range n_epochs) a w2) as (ml & w3 & E3) end.
    rewrite (bind_run _ _ _ _ _ E3).
    rewrite (bind_run (print TrainingFinished) _ w3 tt _ eq_refl).
    unfold py_fdiv, lift.
    destruct (Z.eqb_spec (dl_len data_loader) 0) as [E0|]; [|eauto].
    rewrite E0 in Hcad. rewrite Z.quot_0_l in Hcad by assumption. contradiction.
Qed.

Lemma train_model_returns_last_epoch_mean_witness :
  (forall v w',
      train_model Example.loader Example.criterion 2 (torch_device "cpu") 1 (Some 1) 4
        (Example.start 3) = (Ok v, w') ->
      v = fdiv (py_sum (epoch_items (2 - 1) (tw_items w'))) (of_Z 2)
      /\ length (epoch_items (2 - 1) (tw_items w')) = 2%nat
      /\ exists m0 losses,
           module_to (torch_device "cpu") 3 = (Ok tt, m0)
           /\ trains_epochs Example.criterion (torch_device "cpu") (m0, 1)
                (epochs_batches Example.loader 2) losses
                (tw_model w', tw_optimizer w')
           /\ last losses = Some (epoch_items (2 - 1) (tw_items w')))
  /\ exists v w',
      train_model Example.loader Example.criterion 2 (torch_device "cpu") 1 (Some 1) 4
        (Example.start 3) = (Ok v, w').
Proof.
  destruct (train_model_returns_last_epoch_mean Example.loader Example.criterion 2
              (torch_device "cpu") 1 (Some 1) 4 (Example.start 3)) as [H1 H2];
    [lia|reflexivity|].
  split; [exact H1|].
  apply H2; try (intros; repeat eexists; reflexivity); try discriminate;
    try lia; vm_compute; congruence.
Defined.

(** The divisor is the length of the loader even when the epoch took fewer
    steps: two losses, [0] and [1], divided by four. *)
Example train_model_divides_by_len :
  fst (train_model Example.long_loader Example.criterion 1 (torch_device "cpu") 1
         (Some 1) 4 (Example.start 3))
  = Ok (fdiv (fadd (fadd (of_Z 0) (of_Z 0)) (of_Z 1)) (of_Z 4)).
Proof. vm_compute. reflexivity. Qed.

(** ** load_model and save_model *)

Lemma for_each_invariant {S A B : Type} (P : B -> Prop) (body : B -> A -> M S B) :
  (forall acc x s acc' s', P acc -> body acc x s = (Ok acc', s') -> P acc') ->
  forall l acc s acc' s',
    P acc -> for_each l acc body s = (Ok acc', s') -> P acc'.
Proof.
  intros Hbody. induction l as [|x l IH]; intros acc s acc' s' HP E.
  - injection E as <- <-. assumption.
  - cbn [for_each] in E. apply bind_ok in E as (acc1 & s1 & E1 & E).
    eapply IH; [|exact E]. eapply Hbody; eassumption.
Qed.

Lemma py_incr_length l i l' : py_incr l i = Ok l' -> length l' = length l.
Proof.
  unfold py_incr. destruct (py_index l i) as [k|]; [|discriminate].
  destruct (l !! k); [|discriminate]. intros [= <-]. apply length_insert.
Qed.

Lemma py_getitem_range {A : Type} (l : list A) (i : nat) a :
  l !! i = Some a -> py_getitem l (Z.of_nat i) = Ok a.
Proof.
  intros Hl. pose proof (lookup_lt_Some _ _ _ Hl) as Hi.
  unfold py_getitem, py_index.
  destruct (Z.leb_spec 0 (Z.of_nat i)); [|lia].
  destruct (Z.ltb_spec (Z.of_nat i) (Z.of_nat (length l))); [|lia].
  cbn [andb]. rewrite Nat2Z.id, Hl. reflexivity.
Qed.

Section LoadModelFacts.
Context `{Torch}.

Lemma restore_none device_ w : restore None device_ w = (Ok tt, w).
Proof. reflexivity. Qed.

(** A device that is none of the three compared ones skips every load. *)
Lemma restore_skip path device_ w :
  device_ <> torch_device "cuda" -> device_ <> torch_device "mps" ->
  device_ <> torch_device "cpu" ->
  restore (Some path) device_ w = (Ok tt, w).
Proof.
  intros Hcuda Hmps Hcpu. unfold restore, load_if.
  rewrite !bool_decide_eq_false_2 by assumption. reflexivity.
Qed.

Lemma load_if_miss save_path device_ type w :
  device_ <> torch_device type -> load_if save_path device_ type w = (Ok tt, w).
Proof.
  intros Hne. unfold load_if. destruct save_path; [|reflexivity].
  rewrite bool_decide_eq_false_2 by assumption. reflexivity.
Qed.

Lemma load_if_hit path type m fs out sd r m' :
  fs !! path = Some sd ->
  load_state_dict sd m = (r, m') ->
  load_if (Some path) (torch_device type) type
    {| w_model := m; w_fs := fs; w_out := out |}
    = (r, {| w_model := m'; w_fs := fs; w_out := out ++ [TorchLoad path type] |}).
Proof.
  intros Hfs Hload. unfold load_if. rewrite bool_decide_eq_true_2 by reflexivity.
  unfold torch_load, with_model, emit, bind, modify, gets, ret.
  cbn [w_model w_fs w_out]. rewrite Hfs. cbn [w_model w_fs w_out].
  rewrite Hload. reflexivity.
Qed.

(** On one of the three devices the checkpoint at the path is read and
    handed to [load_state_dict]. *)
Lemma restore_loads path type m fs out sd r m' :
  type = "cuda" \/ type = "mps" \/ type = "cpu" ->
  fs !! path = Some sd ->
  load_state_dict sd m = (r, m') ->
  restore (Some path) (torch_device type) {| w_model := m; w_fs := fs; w_out := out |}
    = (r, {| w_model := m'; w_fs := fs; w_out := out ++ [TorchLoad path type] |}).
Proof.
  intros Htype Hfs Hload. unfold restore.
  destruct Htype as [E | [E | E]]; subst type.
    unfold bind at 1. rewrite (load_if_hit _ _ _ _ _ _ _ _ Hfs Hload).
    destruct r as [u|e]; [|reflexivity].
    unfold bind. rewrite !load_if_miss by discriminate. destruct u. reflexivity.
  - unfold bind at 1. rewrite load_if_miss by discriminate.
    unfold bind at 1. rewrite (load_if_hit _ _ _ _ _ _ _ _ Hfs Hload).
    destruct r as [u|e]; [|reflexivity].
    rewrite load_if_miss by discriminate. destruct u. reflexivity.
  - unfold bind at 1. rewrite load_if_miss by discriminate.
    unfold bind at 1. rewrite load_if_miss by discriminate.
    rewrite (load_if_hit _ _ _ _ _ _ _ _ Hfs Hload).
    destruct r as [u|e]; [destruct u|]; reflexivity.
Qed.

Lemma save_model_fs path w :
  save_model path w
    = (Ok tt, {| w_model := w_model w;
                 w_fs := <[path := state_dict (w_model w)]> (w_fs w);
                 w_out := w_out w |}).
Proof. reflexivity. Qed.

End LoadModelFacts.

(** C9. With a save path and a device that equals none of
    [torch.device('cuda')], [torch.device('mps')], [torch.device('cpu')],
    the loading prologue of [load_model] does nothing: no file is read, the
    model is left as it was, and the whole call behaves as it does without
    a save path, evaluating the parameters in memory. *)
Theorem load_model_skips_load_on_other_device `{Torch}
    (data_loader : DataLoader Batch) (classification : list string)
    (device_ : device) (path : string) (class_results show_wrongs : bool)
    (n_wrongs : Z) (w : world) :
  device_ <> torch_device "cuda" -> device_ <> torch_device "mps" ->
  device_ <> torch_device "cpu" ->
  restore (Some path) device_ w = (Ok tt, w)
  /\ load_model data_loader classification device_ (Some path) class_results
       show_wrongs n_wrongs w
     = load_model data_loader classification device_ None class_results
         show_wrongs n_wrongs w.
Proof.
  intros Hcuda Hmps Hcpu.
  pose proof (restore_skip path device_ w Hcuda Hmps Hcpu) as E.
  split; [exact E|].
  unfold load_model.
  rewrite (bind_run _ _ _ _ _ E), (bind_run _ _ _ _ _ (restore_none device_ w)).
  reflexivity.
Qed.

Lemma load_model_skips_load_on_other_device_witness :
  restore (Some "ckpt") (mkdevice "cuda" (Some 0)) (Example.fresh 3 {["ckpt" := 8]})
    = (Ok tt, Example.fresh 3 {["ckpt" := 8]})
  /\ load_model Example.loader ["a"; "b"] (mkdevice "cuda" (Some 0)) (Some "ckpt")
       true false 5 (Example.fresh 3 {["ckpt" := 8]})
     = load_model Example.loader ["a"; "b"] (mkdevice "cuda" (Some 0)) None
         true false 5 (Example.fresh 3 {["ckpt" := 8]}).
Proof.
  apply (load_model_skips_load_on_other_device Example.loader ["a"; "b"]
           (mkdevice "cuda" (Some 0)) "ckpt" true false 5
           (Example.fresh 3 {["ckpt" := 8]}));
    discriminate.
Defined.

(** C7, at a failing input. The parameters of a model with threshold [8]
    are saved; [load_model] is run with that path on a model of the same
    architecture with threshold [3] and the device [cuda:0].  The checkpoint
    is in the file, yet the model keeps its own parameters and predicts
    differently from the saved one on the input [5]. *)
Theorem save_load_roundtrip_fails_on_indexed_device :
  let saved := snd (save_model "ckpt" (Example.fresh 8 ∅)) in
  let loaded :=
    snd (load_model Example.loader ["a"; "b"] (mkdevice "cuda" (Some 0)) (Some "ckpt")
           false false 5 (Example.fresh 3 (w_fs saved))) in
  w_fs saved !! "ckpt" = Some (state_dict (w_model saved))
  /\ state_dict (w_model saved) = 8
  /\ state_dict (w_model loaded) = 3
  /\ fst (module_call [5] (w_model loaded)) = Ok [1]
  /\ fst (module_call [5] (w_model saved)) = Ok [0].
Proof. vm_compute. repeat split. Qed.

(** On the three compared devices the round trip does restore the saved
    parameters: [load_state_dict] receives exactly the saved state. *)
Lemma save_then_restore `{Torch} (path type : string) (m1 m2 : Model)
    (fs : gmap string StateDict) (out : list event) r m2' :
  type = "cuda" \/ type = "mps" \/ type = "cpu" ->
  load_state_dict (state_dict m1) m2 = (r, m2') ->
  let saved := snd (save_model path {| w_model := m1; w_fs := fs; w_out := [] |}) in
  restore (Some path) (torch_device type)
    {| w_model := m2; w_fs := w_fs saved; w_out := out |}
  = (r, {| w_model := m2'; w_fs := w_fs saved; w_out := out ++ [TorchLoad path type] |}).
Proof.
  intros Htype Hload saved. apply restore_loads with (sd := state_dict m1);
    [assumption| |assumption].
  unfold saved. rewrite save_model_fs. cbn [snd w_fs w_model]. apply lookup_insert_eq.
Qed.

Section Accuracy.
Context `{Torch}.
Variable classification : list string.

Lemma tally_sample_sized n show_wrongs n_wrongs images labels predicted t i w t' w' :
  tally_sized n t ->
  tally_sample classification show_wrongs n_wrongs images labels predicted t i w
    = (Ok t', w') ->
  tally_sized n t'.
Proof.
  intros [Hc Hs] E. unfold tally_sample in E.
  apply bind_ok in E as (label & w1 & _ & E).
  apply bind_ok in E as (pred & w2 & _ & E).
  apply bind_ok in E as (t1 & w3 & E1 & E).
  assert (Ht1 : tally_sized n t1).
  { destruct (label =? pred).
    - apply bind_ok in E1 as (ncc & w4 & E1 & E2). apply lift_ok in E1 as [E1 _].
      injection E2 as <- _. split; cbn; [|assumption].
      rewrite (py_incr_length _ _ _ E1). assumption.
    - destruct (show_wrongs && _); [|injection E1 as <- _; split; assumption].
      apply bind_ok in E1 as (key & w4 & _ & E1).
      destruct (bool_decide _); [injection E1 as <- _; split; assumption|].
      apply bind_ok in E1 as (c & w5 & _ & E1).
      apply bind_ok in E1 as (p & w6 & _ & E1).
      apply bind_ok in E1 as (u1 & w7 & _ & E1).
      apply bind_ok in E1 as (u2 & w8 & _ & E1).
      injection E1 as <- _. split; assumption. }
  destruct Ht1 as [Hc1 Hs1].
  apply bind_ok in E as (ncs & w4 & E2 & E). apply lift_ok in E2 as [E2 _].
  injection E as <- _. split; cbn; [assumption|].
  rewrite (py_incr_length _ _ _ E2). assumption.
Qed.

Lemma tally_batch_sized n device_ show_wrongs n_wrongs t b w t' w' :
  tally_sized n t ->
  tally_batch classification device_ show_wrongs n_wrongs t b w = (Ok t', w') ->
  tally_sized n t'.
Proof.
  intros Ht E. destruct b as [images labels]. unfold tally_batch in E.
  apply bind_ok in E as (images' & w1 & _ & E).
  apply bind_ok in E as (outputs & w2 & _ & E).
  apply bind_ok in E as (predicted & w3 & _ & E).
  apply bind_ok in E as (eq & w4 & _ & E).
  eapply for_each_invariant; [| |exact E].
  - intros acc x s acc' s' Hacc Hb. eapply tally_sample_sized; eassumption.
  - destruct Ht. split; assumption.
Qed.

Lemma run_tally_sized data_loader device_ show_wrongs n_wrongs w t w' :
  run_tally data_loader classification device_ show_wrongs n_wrongs w = (Ok t, w') ->
  tally_sized (length classification) t.
Proof.
  unfold run_tally. apply for_each_invariant.
  - intros acc x s acc' s' Hacc Hb. eapply tally_batch_sized; eassumption.
  - split; apply length_replicate.
Qed.

Variable t : tally.
Hypothesis sized : tally_sized (length classification) t.

Local Abbreviation body := (fun (_ : unit) (i : Z) => class_accuracy classification t i).

(** In range, an iteration of the class loop either prints or divides by
    zero, and it divides by zero exactly when the class has no sample. *)
Lemma class_body_run (j : nat) w :
  (j < length classification)%nat ->
  exists c s name,
    n_class_correct t !! j = Some c /\ n_class_samples t !! j = Some s
    /\ classification !! j = Some name
    /\ body tt (Z.of_nat j) w
       = if s =? 0 then (Raise ZeroDivisionError, w)
         else emit (PrintClassAccuracy name (fdiv (fmul (of_Z 100) (of_Z c)) (of_Z s))) w.
Proof.
  intros Hj. destruct sized as [Hc Hs].
  destruct (lookup_lt_is_Some_2 (n_class_correct t) j) as [c Ec]; [lia|].
  destruct (lookup_lt_is_Some_2 (n_class_samples t) j) as [s Es]; [lia|].
  destruct (lookup_lt_is_Some_2 classification j) as [name En]; [lia|].
  exists c, s, name. repeat split; try assumption.
  unfold class_accuracy.
  rewrite (bind_lift _ _ _ _ (py_getitem_range _ _ _ Ec)).
  rewrite (bind_lift _ _ _ _ (py_getitem_range _ _ _ Es)).
  unfold py_fdiv. destruct (s =? 0); [reflexivity|].
  rewrite (bind_lift _ _ _ _ eq_refl).
  rewrite (bind_lift _ _ _ _ (py_getitem_range _ _ _ En)). reflexivity.
Qed.

Lemma class_loop_raises (js : list nat) :
  (forall j, j ∈ js -> (j < length classification)%nat) ->
  (exists j, j ∈ js /\ n_class_samples t !! j = Some 0) ->
  forall w, exists w',
    for_each (map Z.of_nat js) tt body w = (Raise ZeroDivisionError, w')
    /\ exists rest, w_out w' = w_out w ++ rest.
Proof.
  induction js as [|j js IH]; intros Hin (j0 & Hj0 & Hz) w.
  - apply elem_of_nil in Hj0. contradiction.
  - cbn [map for_each].
    destruct (class_body_run j w) as (c & s & name & Ec & Es & En & Eb).
    { apply Hin. left. }
    destruct (Z.eqb_spec s 0) as [->|Hs].
    + rewrite (bind_raise _ _ _ _ _ Eb). eexists. split; [reflexivity|].
      exists []. rewrite app_nil_r. reflexivity.
    + rewrite (bind_run _ _ _ _ _ Eb).
      destruct (IH (fun j' Hj' => Hin j' (list_elem_of_further _ _ _ Hj'))) with
        (w := {| w_model := w_model w; w_fs := w_fs w;
                 w_out := w_out w ++ [PrintClassAccuracy name
                   (fdiv (fmul (of_Z 100) (of_Z c)) (of_Z s))] |})
        as (w' & E & rest & Hout).
      { exists j0. split; [|assumption].
        apply elem_of_cons in Hj0 as [->|]; [|assumption]. congruence. }
      exists w'. split; [exact E|].
      eexists. rewrite Hout. cbn [w_out]. rewrite <- app_assoc. reflexivity.
Qed.

Lemma class_accuracies_raises (i : nat) w :
  (i < length classification)%nat -> n_class_samples t !! i = Some 0 ->
  exists w', class_accuracies classification t w = (Raise ZeroDivisionError, w')
             /\ exists rest, w_out w' = w_out w ++ rest.
Proof.
  intros Hi Hz. unfold class_accuracies, range. rewrite Nat2Z.id.
  apply class_loop_raises.
  - intros j Hj. apply elem_of_seq in Hj. lia.
  - exists i. split; [apply elem_of_seq; lia|assumption].
Qed.

End Accuracy.

(** C4. When the counting loop of [load_model] has finished with
    [n_class_samples[i] = 0] for a class index [i < len(classification)] and
    class results are enabled, [load_model] fails with [ZeroDivisionError];
    unless the evaluation set is empty altogether, the overall accuracy has
    been printed before, so the failing division is the one of the per-class
    accuracy. *)
Theorem load_model_empty_class_division `{Torch}
    (data_loader : DataLoader Batch) (classification : list string)
    (device_ : device) (save_path : option string) (show_wrongs : bool)
    (n_wrongs : Z) (w : world) (t : tally) (w1 : world) (i : nat) :
  load_and_tally data_loader classification device_ save_path show_wrongs n_wrongs w
    = (Ok t, w1) ->
  (i < length classification)%nat ->
  n_class_samples t !! i = Some 0 ->
  exists w',
    load_model data_loader classification device_ save_path true show_wrongs
      n_wrongs w = (Raise ZeroDivisionError, w')
    /\ (n_samples t <> 0 ->
        exists rest,
          w_out w' = w_out w1
                     ++ PrintAccuracy (fdiv (fmul (of_Z 100) (of_Z (n_correct t)))
                                            (of_Z (n_samples t))) :: rest).
Proof.
  intros E Hi Hz. unfold load_and_tally in E.
  apply bind_ok in E as ([] & wa & Ea & E).
  apply bind_ok in E as ([] & wb & Eb & E).
  pose proof (run_tally_sized _ _ _ _ _ _ _ _ E) as Hsized.
  unfold load_model.
  rewrite (bind_run _ _ _ _ _ Ea), (bind_run _ _ _ _ _ Eb), (bind_run _ _ _ _ _ E).
  unfold py_fdiv at 1.
  destruct (Z.eqb_spec (n_samples t) 0) as [E0|E0].
  - exists w1. split; [reflexivity|contradiction].
  - rewrite (bind_lift _ _ _ _ eq_refl).
    match goal with |- context [bind (emit ?e) _ w1] =>
      rewrite (bind_run (emit e) _ w1 tt _ eq_refl) end.
    match goal with |- context [bind (class_accuracies _ _) _ ?s] =>
      destruct (class_accuracies_raises classification t Hsized i s Hi Hz)
        as (w' & Ec & rest & Hout) end.
    exists w'. split; [apply bind_raise; exact Ec|].
    intros _. exists rest. rewrite Hout. cbn [w_out]. rewrite <- app_assoc. reflexivity.
Qed.

Lemma load_model_empty_class_division_witness :
  exists w',
    load_model Example.loader ["a"; "b"; "c"] (torch_device "cpu") None true false 5
      (Example.fresh 3 ∅) = (Raise ZeroDivisionError, w').
Proof.
  destruct (load_model_empty_class_division Example.loader ["a"; "b"; "c"]
              (torch_device "cpu") None false 5 (Example.fresh 3 ∅)
              {| wrongs := []; n_correct := 4; n_samples := 5;
                 n_class_correct := [1; 3; 0]; n_class_samples := [1; 4; 0] |}
              (Example.fresh 3 ∅) 2%nat) as (w' & E & _);
    [vm_compute; reflexivity | cbn; lia | reflexivity |].
  exists w'. exact E.
Defined.

(** * Further properties of the code *)

(** ** Ceiling of a binary64 quotient *)

Lemma rhe_ceil a b N : 0 <= a -> 0 < b -> 1 <= N -> b < 2 * N ->
  - ((- round_half_even (a * N) b) / N) = - ((- a) / b).
Proof.
  intros Ha Hb HN Hlt.
  pose proof (Z.div_mod a b ltac:(lia)) as Hab.
  pose proof (Z.mod_pos_bound a b Hb) as Hr.
  set (k := a / b) in *. set (r := a mod b) in *.
  assert (Hk : 0 <= k) by (apply Z.div_pos; lia).
  pose proof (Z.div_mod (a * N) b ltac:(lia)) as HaN.
  pose proof (Z.mod_pos_bound (a * N) b Hb) as Hr'.
  pose proof (rhe_bounds (a * N) b ltac:(nia) Hb) as Hbd.
  assert (Hdown : round_half_even (a * N) b = (a * N) / b -> 2 * ((a * N) mod b) <= b).
  { unfold round_half_even.
    destruct (2 * ((a * N) mod b) ?= b) eqn:E.
    - apply Z.compare_eq in E. intros _. rewrite E. apply Z.le_refl.
    - apply Z.compare_lt_iff in E. intros _. apply Z.lt_le_incl. exact E.
    - intros E'. exfalso. revert E'. generalize (a * N / b). intros; lia. }
  set (m := round_half_even (a * N) b) in *.
  set (q := (a * N) / b) in *. set (r' := (a * N) mod b) in *.
  assert (Hq1 : k * N <= q) by nia.
  assert (Hq2 : q < k * N + N) by nia.
  destruct (Z.eq_dec r 0) as [Hr0|Hr0].
  - (* exact quotient *)
    assert (Hq : q = k * N) by nia.
    assert (Hr'0 : r' = 0) by nia.
    assert (Hm : m = k * N).
    { unfold m, round_half_even. fold q r'. rewrite Hr'0.
      destruct (2 * 0 ?= b) eqn:E; try lia.
      - apply Z.compare_eq in E. lia.
      - apply Z.compare_gt_iff in E. lia. }
    rewrite Hm. replace (- (k * N)) with ((- k) * N) by lia.
    rewrite Z.div_mul by lia.
    replace (- a) with ((- k) * b) by lia. rewrite Z.div_mul by lia. reflexivity.
  - (* the quotient lies strictly between [k] and [k + 1] *)
    assert (Hm1 : k * N < m).
    { destruct (Z.eq_dec m q) as [E|E]; [|lia].
      specialize (Hdown E). nia. }
    assert (Hm2 : m <= k * N + N) by lia.
    assert (E1 : (- m) / N = - (k + 1)).
    { symmetry. apply Z.div_unique with (r := (k + 1) * N - m); [left; lia|lia]. }
    assert (E2 : (- a) / b = - (k + 1)).
    { symmetry. apply Z.div_unique with (r := b - r); [left; lia|lia]. }
    rewrite E1, E2. reflexivity.
Qed.

Lemma nearest_normal a b : 0 < a < 2 ^ 53 -> 0 < b < 2 ^ 53 ->
  exists e, e <= 0 /\ b < 2 * 2 ^ (- e)
            /\ nearest a b = Ok (mkfloat (round_half_even (a * 2 ^ (- e)) b) e).
Proof.
  intros Ha Hb.
  pose proof (binade_spec a b ltac:(lia) ltac:(lia)) as [H1 H2].
  pose proof (binade_small a b Ha ltac:(lia)) as Hl.
  unfold nearest.
  set (l := binade a b) in *.
  assert (Hlow : -53 <= l).
  { destruct (Z_le_gt_dec (-53) l) as [|Hgt]; [assumption|exfalso].
    rewrite scale_neg in H2 by lia. cbn [fst snd] in H2.
    assert (2 ^ 54 <= 2 ^ (- l)) by (apply Z.pow_le_mono_r; lia).
    assert (2 ^ 54 = 2 * 2 ^ 53) by reflexivity. nia. }
  set (e := Z.max (l - 52) (-1074)).
  assert (E : e = l - 52) by lia.
  assert (Hsc : scale a b e = (a * 2 ^ (- e), b)).
  { destruct (Z.eq_dec e 0) as [E0|E0].
    - rewrite E0, scale_nonneg by lia. change (2 ^ (- 0)) with 1.
      change (2 ^ 0) with 1. f_equal; lia.
    - apply scale_neg. lia. }
  rewrite Hsc.
  destruct (Z.ltb_spec 971 e); [lia|].
  destruct (Z.eqb_spec e 971); [lia|]. cbn [orb andb].
  exists e. split; [lia|]. split; [|reflexivity].
  rewrite <- Z.pow_succ_r by lia.
  replace (Z.succ (- e)) with (53 - l) by lia.
  destruct (Z_le_gt_dec 0 l) as [Hl0|Hl0].
  - rewrite scale_nonneg in H1 by assumption. cbn [fst snd] in H1.
    assert (Hp : 2 ^ 53 = 2 ^ (53 - l) * 2 ^ l).
    { rewrite <- Z.pow_add_r by lia. f_equal; lia. }
    assert (0 < 2 ^ l) by (apply Z.pow_pos_nonneg; lia).
    assert (0 < 2 ^ (53 - l)) by (apply Z.pow_pos_nonneg; lia).
    nia.
  - rewrite scale_neg in H1 by lia. cbn [fst snd] in H1.
    assert (Hp : 2 ^ (53 - l) = 2 ^ 53 * 2 ^ (- l)).
    { rewrite <- Z.pow_add_r by lia. f_equal; lia. }
    assert (0 < 2 ^ (- l)) by (apply Z.pow_pos_nonneg; lia).
    nia.
Qed.

(** Below [2 ^ 53] on both sides the ceiling of the float quotient is the
    ceiling of the exact one. *)
Lemma true_div_ceil a b : 0 <= a < 2 ^ 53 -> 0 < b < 2 ^ 53 ->
  exists f, true_div a b = Ok f /\ py_ceil f = - ((- a) / b).
Proof.
  intros Ha Hb. unfold true_div.
  destruct (Z.eqb_spec b 0); [lia|].
  destruct (Z.eqb_spec a 0) as [->|Ha0].
  { eexists. split; [reflexivity|]. cbn. rewrite Z.div_0_l by lia. reflexivity. }
  rewrite !Z.abs_eq, !Z.sgn_pos by lia.
  destruct (nearest_normal a b) as (e & He & Hlt & ->); [lia..|].
  eexists. split; [reflexivity|].
  unfold py_ceil. cbn [mant expo]. rewrite !Z.mul_1_l.
  assert (HN : 0 < 2 ^ (- e)) by (apply Z.pow_pos_nonneg; lia).
  destruct (Z.leb_spec 0 e).
  - replace e with 0 in * by lia. change (2 ^ (- 0)) with 1 in *. change (2 ^ 0) with 1.
    rewrite Z.mul_1_r.
    rewrite <- (rhe_ceil a b 1) by lia. rewrite Z.div_1_r. lia.
  - apply rhe_ceil; lia.
Qed.

(** ** More on the builder methods *)

Lemma convolution_auto_run `{Layers} in_size out_size kernel stride self qh qw p :
  true_div (img_h self) stride = Ok qh ->
  true_div (img_w self) stride = Ok qw ->
  true_div kernel 2 = Ok p ->
  convolution in_size out_size kernel stride (-1) self
    = (construct (Conv2d in_size out_size kernel (py_int p)),
       {| img_h := py_ceil qh; img_w := py_ceil qw; last_out := out_size |}).
Proof.
  intros Hh Hw Hp. unfold convolution. change (-1 =? -1) with true. cbv iota.
  unfold_builder. rewrite Hh. cbn [img_h img_w last_out]. rewrite Hw.
  cbn [img_h img_w last_out]. rewrite Hp. reflexivity.
Qed.

Lemma convolution_ok_layer `{Layers} in_size out_size kernel stride padding self l self' :
  convolution in_size out_size kernel stride padding self = (Ok l, self') ->
  exists pad, l = Conv2d in_size out_size kernel pad
              /\ (if padding =? -1
                  then exists p, true_div kernel 2 = Ok p /\ pad = py_int p
                  else pad = padding).
Proof.
  unfold convolution. destruct (padding =? -1); unfold_builder.
  - destruct (true_div (img_h self) stride); [|discriminate]. cbn [img_h img_w last_out].
    destruct (true_div (img_w self) stride); [|discriminate]. cbn [img_h img_w last_out].
    destruct (true_div kernel 2) as [p|]; [|discriminate].
    intros [= E _]. apply construct_ok in E as [-> _]. eauto.
  - destruct (true_div (img_h self + 2 * padding - kernel) stride); [|discriminate].
    cbn [img_h img_w last_out].
    destruct (true_div (img_w self + 2 * padding - kernel) stride); [|discriminate].
    intros [= E _]. apply construct_ok in E as [-> _]. eauto.
Qed.

(** X1. For a height and a width in [0, 2 ^ 53), a [ConvNet.__init__] that
    returns has recorded the input dimensions divided by three and then by
    two (flooring) and the channel count 32, and the flattened size, which
    is the input width of [fc1], is their product; it does return when torch
    accepts the eight layers that it builds. *)
Theorem init_dimensions `{Layers} (h w n_classes colour_size : Z) :
  0 <= h < 2 ^ 53 -> 0 <= w < 2 ^ 53 ->
  (forall net,
      init h w n_classes colour_size = Ok net ->
      dims net = {| img_h := h / 3 / 2; img_w := w / 3 / 2; last_out := 32 |}
      /\ flattened net = (h / 3 / 2) * (w / 3 / 2) * 32
      /\ fc1 net = Linear ((h / 3 / 2) * (w / 3 / 2) * 32) 128)
  /\ (refused (Conv2d colour_size 16 5 2) = None ->
      refused (MaxPool2d 3 3) = None ->
      refused (Conv2d 16 32 5 2) = None ->
      refused (MaxPool2d 2 2) = None ->
      refused (Linear ((h / 3 / 2) * (w / 3 / 2) * 32) 128) = None ->
      refused (Linear 128 64) = None ->
      refused (Linear 64 32) = None ->
      refused (Linear 32 n_classes) = None ->
      exists net, init h w n_classes colour_size = Ok net).
Proof.
  intros Hh Hw.
  assert (Hh3 : 0 <= h / 3 < 2 ^ 53).
  { split; [apply Z.div_pos; lia|]. apply Z.le_lt_trans with h; [|lia].
    apply Z.div_le_upper_bound; lia. }
  assert (Hw3 : 0 <= w / 3 < 2 ^ 53).
  { split; [apply Z.div_pos; lia|]. apply Z.le_lt_trans with w; [|lia].
    apply Z.div_le_upper_bound; lia. }
  destruct (true_div_one h) as (a1 & A1 & C1 & _); [lia|].
  destruct (true_div_one w) as (b1 & B1 & D1 & _); [lia|].
  destruct (true_div_floor h 3) as (a2 & A2 & C2); [lia..|].
  destruct (true_div_floor w 3) as (b2 & B2 & D2); [lia..|].
  destruct (true_div_one (h / 3)) as (a3 & A3 & C3 & _); [lia|].
  destruct (true_div_one (w / 3)) as (b3 & B3 & D3 & _); [lia|].
  destruct (true_div_floor (h / 3) 2) as (a4 & A4 & C4); [lia..|].
  destruct (true_div_floor (w / 3) 2) as (b4 & B4 & D4); [lia..|].
  assert (P : true_div 5 2 = Ok (mkfloat 5629499534213120 (- 51)))
    by (vm_compute; reflexivity).
  pose proof (convolution_auto_run colour_size 16 5 1
                {| img_h := h; img_w := w; last_out := 0 |} a1 b1 _ A1 B1 P) as S1.
  rewrite C1, D1 in S1. change (py_int _) with 2 in S1.
  pose proof (pooling_run 3 3 "max"
                {| img_h := h; img_w := w; last_out := 16 |} a2 b2 A2 B2) as S2.
  rewrite C2, D2 in S2. cbn [String.eqb Ascii.eqb Bool.eqb last_out] in S2.
  pose proof (convolution_auto_run 16 32 5 1
                {| img_h := h / 3; img_w := w / 3; last_out := 16 |} a3 b3 _ A3 B3 P)
    as S3.
  rewrite C3, D3 in S3. change (py_int _) with 2 in S3.
  pose proof (pooling_run 2 2 "max"
                {| img_h := h / 3; img_w := w / 3; last_out := 32 |} a4 b4 A4 B4) as S4.
  rewrite C4, D4 in S4. cbn [String.eqb Ascii.eqb Bool.eqb last_out] in S4.
  split.
  - intros net. unfold init.
    match goal with |- fst (?b ?s) = _ -> _ => destruct (b s) as [r s'] eqn:E end.
    cbn [fst]. intros ->.
    apply bind_ok in E as (c1 & s1 & E1 & E).
    rewrite S1 in E1. injection E1 as _ <-.
    apply bind_ok in E as (p3 & s2 & E2 & E).
    rewrite S2 in E2. injection E2 as _ <-.
    apply bind_ok in E as (lo & s3 & E3 & E). injection E3 as <- <-.
    cbn [last_out] in E.
    apply bind_ok in E as (c2 & s4 & E4 & E).
    rewrite S3 in E4. injection E4 as _ <-.
    apply bind_ok in E as (p2 & s5 & E5 & E).
    rewrite S4 in E5. injection E5 as _ <-.
    apply bind_ok in E as (self & s6 & E6 & E). injection E6 as <- <-.
    unfold id in E. cbn [img_h img_w last_out] in E.
    apply bind_ok in E as (l1 & s7 & F1 & E). apply lift_ok in F1 as [F1 ->].
    apply bind_ok in E as (l2 & s8 & F2 & E). apply lift_ok in F2 as [F2 ->].
    apply bind_ok in E as (l3 & s9 & F3 & E). apply lift_ok in F3 as [F3 ->].
    apply bind_ok in E as (l4 & s10 & F4 & E). apply lift_ok in F4 as [F4 ->].
    apply construct_ok in F1 as [-> _].
    injection E as <-. cbn [dims flattened fc1]. repeat split.
  - intros R1 R2 R3 R4 R5 R6 R7 R8.
    rewrite (construct_accepted _ R1) in S1. rewrite (construct_accepted _ R2) in S2.
    rewrite (construct_accepted _ R3) in S3. rewrite (construct_accepted _ R4) in S4.
    eexists. unfold init.
    rewrite (bind_run _ _ _ _ _ S1), (bind_run _ _ _ _ _ S2).
    rewrite (bind_run (gets last_out) _ _ _ _ eq_refl). cbn [last_out].
    rewrite (bind_run _ _ _ _ _ S3), (bind_run _ _ _ _ _ S4).
    rewrite (bind_run (gets id) _ _ _ _ eq_refl). unfold id.
    cbn [img_h img_w last_out].
    rewrite (bind_lift _ _ _ _ (construct_accepted _ R5)).
    rewrite (bind_lift _ _ _ _ (construct_accepted _ R6)).
    rewrite (bind_lift _ _ _ _ (construct_accepted _ R7)).
    rewrite (bind_lift _ _ _ _ (construct_accepted _ R8)).
    reflexivity.
Qed.

Lemma init_dimensions_witness :
  (forall net,
      init 28 28 10 1 = Ok net ->
      dims net = {| img_h := 28 / 3 / 2; img_w := 28 / 3 / 2; last_out := 32 |}
      /\ flattened net = (28 / 3 / 2) * (28 / 3 / 2) * 32
      /\ fc1 net = Linear ((28 / 3 / 2) * (28 / 3 / 2) * 32) 128)
  /\ exists net, init 28 28 10 1 = Ok net.
Proof.
  destruct (init_dimensions 28 28 10 1) as [H1 H2]; [lia..|].
  split; [exact H1|]. apply H2; reflexivity.
Defined.

(** X2. In auto mode with any positive stride below [2 ^ 53] and recorded
    dimensions in [0, 2 ^ 53), [ConvNet.convolution] records
    [ceil(img_h / stride)] and [ceil(img_w / stride)] and the new channel
    count, whether the constructor of the layer then returns or raises; for
    a kernel below [2 ^ 53] in absolute value the layer that it asks torch
    for has half the kernel, truncated, as its padding, and the call returns
    that layer or raises what the constructor raises. *)
Theorem convolution_auto_ceil `{Layers} (in_size out_size kernel stride : Z)
    (self : attrs) :
  0 < stride < 2 ^ 53 -> 0 <= img_h self < 2 ^ 53 -> 0 <= img_w self < 2 ^ 53 ->
  snd (convolution in_size out_size kernel stride (-1) self)
    = {| img_h := - (- img_h self / stride); img_w := - (- img_w self / stride);
         last_out := out_size |}
  /\ (Z.abs kernel < 2 ^ 53 ->
      fst (convolution in_size out_size kernel stride (-1) self)
        = construct (Conv2d in_size out_size kernel (Z.quot kernel 2))).
Proof.
  intros Hs Hh Hw.
  destruct (true_div_ceil (img_h self) stride Hh Hs) as (qh & Eh & Ch).
  destruct (true_div_ceil (img_w self) stride Hw Hs) as (qw & Ew & Cw).
  split.
  - unfold convolution. change (-1 =? -1) with true. cbv iota.
    unfold_builder. rewrite Eh. cbn [img_h img_w last_out]. rewrite Ew.
    cbn [img_h img_w last_out]. rewrite Ch, Cw.
    destruct (true_div kernel 2); reflexivity.
  - intros Hk. destruct (true_div_int kernel 2) as (p & Ep & Ip); [lia..|].
    rewrite (convolution_auto_run _ _ _ _ _ _ _ _ Eh Ew Ep). cbn [fst].
    rewrite Ip. reflexivity.
Qed.

Lemma convolution_auto_ceil_witness :
  snd (convolution 3 8 5 2 (-1) {| img_h := 7; img_w := 8; last_out := 3 |})
    = {| img_h := - (- 7 / 2); img_w := - (- 8 / 2); last_out := 8 |}
  /\ fst (convolution 3 8 5 2 (-1) {| img_h := 7; img_w := 8; last_out := 3 |})
     = construct (Conv2d 3 8 5 (Z.quot 5 2)).
Proof.
  destruct (convolution_auto_ceil 3 8 5 2 {| img_h := 7; img_w := 8; last_out := 3 |})
    as [H1 H2]; cbn [img_h img_w]; try lia.
  split; [exact H1|]. apply H2. vm_compute. reflexivity.
Defined.

(** X3. With stride 1 and an odd kernel, the explicit padding [kernel // 2]
    and the auto mode are the same call: they ask torch for the same layer,
    so return or raise alike, and record the same dimensions (the input
    ones) and the same channel count. *)
Theorem auto_padding_is_half_kernel `{Layers} (in_size out_size kernel : Z)
    (self : attrs) :
  Z.odd kernel = true -> 0 < kernel < 2 ^ 53 ->
  0 <= img_h self < 2 ^ 53 -> 0 <= img_w self < 2 ^ 53 ->
  convolution in_size out_size kernel 1 (kernel / 2) self
    = convolution in_size out_size kernel 1 (-1) self
  /\ snd (convolution in_size out_size kernel 1 (-1) self)
     = {| img_h := img_h self; img_w := img_w self; last_out := out_size |}
  /\ fst (convolution in_size out_size kernel 1 (-1) self)
     = construct (Conv2d in_size out_size kernel (kernel / 2)).
Proof.
  intros Hodd Hk Hh Hw.
  assert (Hhalf : 2 * (kernel / 2) - kernel = -1).
  { pose proof (Z.div_mod kernel 2 ltac:(lia)) as E.
    rewrite Zmod_odd, Hodd in E. lia. }
  assert (Hpad : 0 <= kernel / 2) by (apply Z.div_pos; lia).
  destruct (true_div_one (img_h self)) as (ah & Ah & Ch & _); [lia|].
  destruct (true_div_one (img_w self)) as (aw & Aw & Cw & _); [lia|].
  destruct (true_div_floor kernel 2) as (p & Ep & Ip); [lia..|].
  destruct (true_div_one (img_h self - 1)) as (bh & Bh & _ & Ih); [lia|].
  destruct (true_div_one (img_w self - 1)) as (bw & Bw & _ & Iw); [lia|].
  assert (Eauto : convolution in_size out_size kernel 1 (-1) self
                  = (construct (Conv2d in_size out_size kernel (kernel / 2)),
                     {| img_h := img_h self; img_w := img_w self;
                        last_out := out_size |})).
  { rewrite (convolution_auto_run _ _ _ _ _ _ _ _ Ah Aw Ep), Ch, Cw, Ip. reflexivity. }
  rewrite Eauto. split; [|split; reflexivity].
  rewrite (convolution_explicit _ _ _ _ _ _ bh bw).
  - rewrite Ih, Iw. f_equal. f_equal; lia.
  - lia.
  - replace (img_h self + 2 * (kernel / 2) - kernel) with (img_h self - 1) by lia.
    exact Bh.
  - replace (img_w self + 2 * (kernel / 2) - kernel) with (img_w self - 1) by lia.
    exact Bw.
Qed.

Lemma auto_padding_is_half_kernel_witness :
  convolution 1 16 5 1 (5 / 2) {| img_h := 28; img_w := 20; last_out := 0 |}
    = convolution 1 16 5 1 (-1) {| img_h := 28; img_w := 20; last_out := 0 |}.
Proof.
  destruct (auto_padding_is_half_kernel 1 16 5
              {| img_h := 28; img_w := 20; last_out := 0 |}) as [E _];
    [reflexivity | lia | cbn [img_h]; lia | cbn [img_w]; lia |].
  exact E.
Defined.

(** X4. The layer that [ConvNet.convolution] returns is determined by
    [in_size], [out_size], [kernel] and [padding]: two calls that differ in
    the stride and in the object they act on return the same layer, the
    stride entering the recorded dimensions only. *)
Theorem convolution_layer_ignores_stride `{Layers}
    (in_size out_size kernel padding stride1 stride2 : Z)
    (self1 self2 self1' self2' : attrs) (l1 l2 : obj) :
  convolution in_size out_size kernel stride1 padding self1 = (Ok l1, self1') ->
  convolution in_size out_size kernel stride2 padding self2 = (Ok l2, self2') ->
  l1 = l2.
Proof.
  intros E1 E2.
  apply convolution_ok_layer in E1 as (pad1 & -> & P1).
  apply convolution_ok_layer in E2 as (pad2 & -> & P2).
  destruct (padding =? -1).
  - destruct P1 as (p1 & Q1 & ->), P2 as (p2 & Q2 & ->). congruence.
  - congruence.
Qed.

Lemma convolution_layer_ignores_stride_witness :
  fst (convolution 3 8 5 1 (-1) {| img_h := 28; img_w := 28; last_out := 3 |})
    = fst (convolution 3 8 5 2 (-1) {| img_h := 28; img_w := 28; last_out := 3 |})
  /\ img_h (snd (convolution 3 8 5 1 (-1) {| img_h := 28; img_w := 28; last_out := 3 |}))
     <> img_h (snd (convolution 3 8 5 2 (-1) {| img_h := 28; img_w := 28; last_out := 3 |})).
Proof.
  split; [|vm_compute; discriminate].
  destruct (convolution 3 8 5 1 (-1) {| img_h := 28; img_w := 28; last_out := 3 |})
    as [[l1|e1] s1] eqn:E1; [|vm_compute in E1; discriminate].
  destruct (convolution 3 8 5 2 (-1) {| img_h := 28; img_w := 28; last_out := 3 |})
    as [[l2|e2] s2] eqn:E2; [|vm_compute in E2; discriminate].
  cbn [fst]. f_equal.
  exact (convolution_layer_ignores_stride _ _ _ _ _ _ _ _ _ _ _ _ E1 E2).
Defined.

Lemma pooling_ok_layer `{Layers} kernel stride pool_type self o self' :
  pooling kernel stride pool_type self = (Ok o, self') ->
  o = (if String.eqb pool_type "max" then MaxPool2d kernel stride
       else if String.eqb pool_type "avg" then AvgPool2d kernel stride
       else if String.eqb pool_type "lp" then LPPool2d kernel stride
       else ExnObj (TypeError "Unknown Type")).
Proof.
  intros E.
  destruct (true_div (img_h self) stride) as [qh|e] eqn:Eh.
  2: { exfalso. revert E. unfold pooling. unfold_builder. rewrite Eh. discriminate. }
  destruct (true_div (img_w self) stride) as [qw|e'] eqn:Ew.
  2: { exfalso. revert E. unfold pooling. unfold_builder. rewrite Eh.
       cbn [img_h img_w last_out]. rewrite Ew. discriminate. }
  rewrite (pooling_run _ _ _ _ _ _ Eh Ew) in E. injection E as E _.
  destruct (String.eqb pool_type "max"); [apply construct_ok in E; tauto|].
  destruct (String.eqb pool_type "avg"); [apply construct_ok in E; tauto|].
  destruct (String.eqb pool_type "lp"); [apply construct_ok in E; tauto|].
  congruence.
Qed.

(** X5. What [ConvNet.pooling] returns for an unknown pool type cannot be
    used as the first pooling layer: on a network that holds it as
    [maxPool3], [forward] never returns, and once [conv1] has run it raises
    the [TypeError] of calling an object that is not callable. *)
Theorem forward_fails_on_error_object `{Layers} `{Tensors}
    (kernel stride : Z) (pool_type : string) (self self' : attrs) (o : obj)
    (net : ConvNet) (x : Tensor) :
  pool_type <> "max" -> pool_type <> "avg" -> pool_type <> "lp" ->
  pooling kernel stride pool_type self = (Ok o, self') ->
  maxPool3 net = o ->
  (forall y, fst (forward x net) <> Ok y)
  /\ (forall y, call (conv1 net) x = Ok y ->
        forward x net = (Raise (TypeError "'TypeError' object is not callable"), net)).
Proof.
  intros Hmax Havg Hlp Hpool Hnet.
  apply pooling_ok_layer in Hpool.
  destruct (String.eqb_spec pool_type "max"); [contradiction|].
  destruct (String.eqb_spec pool_type "avg"); [contradiction|].
  destruct (String.eqb_spec pool_type "lp"); [contradiction|].
  subst o.
  rewrite forward_layers. cbn [fst].
  unfold forward_layers_spec, stages_of. cbn [combine run_stages].
  rewrite Hnet. cbn [call].
  split.
  - intros y. destruct (call (conv1 net) x); discriminate.
  - intros y ->. reflexivity.
Qed.

Lemma forward_fails_on_error_object_witness :
  forward [3; -4; 10]
    {| dims := {| img_h := 4; img_w := 4; last_out := 32 |};
       conv1 := Conv2d 1 16 5 2; maxPool3 := ExnObj (TypeError "Unknown Type");
       conv2 := Conv2d 16 32 5 2; maxPool2 := MaxPool2d 2 2; flattened := 512;
       fc1 := Linear 512 128; fc2 := Linear 128 64; fc3 := Linear 64 32;
       fc4 := Linear 32 10 |}
  = (Raise (TypeError "'TypeError' object is not callable"),
     {| dims := {| img_h := 4; img_w := 4; last_out := 32 |};
        conv1 := Conv2d 1 16 5 2; maxPool3 := ExnObj (TypeError "Unknown Type");
        conv2 := Conv2d 16 32 5 2; maxPool2 := MaxPool2d 2 2; flattened := 512;
        fc1 := Linear 512 128; fc2 := Linear 128 64; fc3 := Linear 64 32;
        fc4 := Linear 32 10 |}).
Proof.
  destruct (@forward_fails_on_error_object layers tensors 3 3 "median"
              {| img_h := 28; img_w := 28; last_out := 16 |}
              {| img_h := 9; img_w := 9; last_out := 16 |}
              (ExnObj (TypeError "Unknown Type"))
              {| dims := {| img_h := 4; img_w := 4; last_out := 32 |};
                 conv1 := Conv2d 1 16 5 2;
                 maxPool3 := ExnObj (TypeError "Unknown Type");
                 conv2 := Conv2d 16 32 5 2; maxPool2 := MaxPool2d 2 2;
                 flattened := 512;
                 fc1 := Linear 512 128; fc2 := Linear 128 64; fc3 := Linear 64 32;
                 fc4 := Linear 32 10 |}
              [3; -4; 10]) as [_ H];
    [discriminate | discriminate | discriminate
    | vm_compute; reflexivity | reflexivity |].
  apply (H [-2; -9; 5]). reflexivity.
Defined.

(** ** More on train_model *)

Section TrainModelEdges.
Context `{Torch}.
Variable data_loader : DataLoader Batch.
Variable criterion : Tensor -> list Z -> result Loss.
Variables (n_epochs : Z) (device_ : device) (print_steps : Z) (print_epochs : option Z).
Variable loss_acc : Z.

Local Abbreviation run := (train_model data_loader criterion n_epochs device_ print_steps
                             print_epochs loss_acc).

(** X6. Without an epoch to run ([n_epochs <= 0]) [train_model] only moves
    the model to the device and prints its two banners: no loss is computed,
    the optimizer is untouched, and the result is [0 / len(data_loader)], a
    [ZeroDivisionError] for a loader of length zero. *)
Theorem train_model_no_epoch (w : train_world) (m' : Model) :
  n_epochs <= 0 ->
  module_to device_ (tw_model w) = (Ok tt, m') ->
  run w = (py_fdiv (of_Z 0) (dl_len data_loader),
           {| tw_model := m'; tw_optimizer := tw_optimizer w;
              tw_out := tw_out w ++ [TrainingStarted; TrainingFinished];
              tw_items := tw_items w |}).
Proof.
  intros Hn Hto. unfold train_model.
  rewrite (bind_run (print TrainingStarted) _ w tt _ eq_refl).
  unfold range. replace (Z.to_nat n_epochs) with 0%nat by lia. cbn [seq map for_each].
  unfold on_model at 1. unfold bind at 1. cbn [tw_model]. rewrite Hto.
  cbn [tw_model tw_optimizer tw_out tw_items].
  unfold bind, ret, print, modify, lift. cbn [tw_model tw_optimizer tw_out tw_items].
  rewrite <- app_assoc. reflexivity.
Qed.

(** X7. With a loader of length zero [train_model] never returns a value:
    whatever happens before, the final division raises. *)
Theorem train_model_zero_length (w : train_world) :
  dl_len data_loader = 0 ->
  forall v w', run w <> (Ok v, w').
Proof.
  intros Hlen v w' E. unfold train_model in E.
  apply bind_ok in E as ([] & w1 & _ & E).
  apply bind_ok in E as ([] & w2 & _ & E).
  apply bind_ok in E as (ml & w3 & _ & E).
  apply bind_ok in E as ([] & w4 & _ & E).
  apply lift_ok in E as [E _]. unfold py_fdiv in E. rewrite Hlen in E. discriminate.
Qed.

(** X8. Asking for more progress reports per epoch than the loader has
    steps ([print_steps > len(data_loader)]) makes [train_model] fail: with
    at least one epoch and one batch it never returns a value, the cadence
    [int(n_total_steps / print_steps)] being zero. *)
Theorem train_model_too_many_print_steps (w : train_world) :
  1 <= n_epochs ->
  dl_iter data_loader 0%nat <> [] ->
  Z.abs (dl_len data_loader) < 2 ^ 53 ->
  Z.abs (dl_len data_loader) < Z.abs print_steps ->
  forall v w', run w <> (Ok v, w').
Proof.
  intros Hn Hne Hlen Hps v w' E. unfold train_model in E.
  apply bind_ok in E as ([] & w1 & _ & E).
  apply bind_ok in E as ([] & w2 & _ & E).
  apply bind_ok in E as (ml & w3 & E & _).
  unfold range in E. replace (Z.to_nat n_epochs) with (S (Z.to_nat (n_epochs - 1))) in E
    by lia.
  cbn [seq map for_each] in E. apply bind_ok in E as (ml1 & w4 & E & _).
  unfold train_epoch in E. apply bind_ok in E as (acc & w5 & E & _).
  change (Z.to_nat (Z.of_nat 0)) with 0%nat in E.
  destruct (dl_iter data_loader 0%nat) as [|[images labels] bs]; [contradiction|].
  unfold enumerate in E. cbn [length seq map combine for_each] in E.
  apply bind_ok in E as (acc1 & w6 & E & _).
  unfold train_batch in E.
  apply bind_ok in E as (images' & w7 & _ & E).
  apply bind_ok in E as (outputs & w8 & _ & E).
  apply bind_ok in E as (loss & w9 & _ & E).
  apply bind_ok in E as ([] & wa & _ & E).
  apply bind_ok in E as ([] & wb & _ & E).
  apply bind_ok in E as ([] & wc & _ & E).
  apply bind_ok in E as ([] & wd & _ & E).
  apply bind_ok in E as (r & we & Er & E). apply lift_ok in Er as [Er _].
  apply bind_ok in E as ([] & wf & E & _).
  unfold py_mod in Er.
  destruct (_ =? 0) in Er; [discriminate|]. injection Er as <-.
  change (Z.of_nat 0) with 0 in E. rewrite Zmod_0_l in E.
  change (0 =? 0) with true in E. cbv iota in E.
  apply bind_ok in E as (q & wg & Eq & E). apply lift_ok in Eq as [Eq _].
  apply bind_ok in E as (r' & wh & Er' & _). apply lift_ok in Er' as [Er' _].
  destruct (true_div_int (dl_len data_loader) print_steps) as (f & Ef & If);
    [assumption|lia|].
  rewrite Ef in Eq. injection Eq as <-.
  assert (Hq : Z.quot (dl_len data_loader) print_steps = 0).
  { rewrite quot_sign by lia. rewrite Z.div_small by lia. lia. }
  unfold py_mod in Er'. rewrite If, Hq in Er'. discriminate.
Qed.

End TrainModelEdges.

Lemma bind_cases {S A B : Type} (c : M S A) (k : A -> M S B) s r s' :
  bind c k s = (r, s') ->
  (exists e, c s = (Raise e, s') /\ r = Raise e)
  \/ (exists a s1, c s = (Ok a, s1) /\ k a s1 = (r, s')).
Proof.
  unfold bind. destruct (c s) as [[a|e] s1].
  - intros E. right. eauto.
  - intros [= <- <-]. left. eauto.
Qed.

(** A property of the store that every iteration keeps, whatever its
    outcome, holds after the loop, whatever its outcome. *)
Lemma for_each_store {S A B : Type} (Q : S -> Prop) (body : B -> A -> M S B) :
  (forall acc x s r s', Q s -> body acc x s = (r, s') -> Q s') ->
  forall l acc s r s', Q s -> for_each l acc body s = (r, s') -> Q s'.
Proof.
  intros Hbody. induction l as [|x l IH]; intros acc s r s' HQ E.
  - injection E as _ <-. assumption.
  - cbn [for_each] in E.
    apply bind_cases in E as [(e & E & _)|(a & s1 & E1 & E)].
    + eapply Hbody; eassumption.
    + eapply IH; [|exact E]. eapply Hbody; eassumption.
Qed.

Section TrainModelOutput.
Context `{Torch}.

Lemma lift_store {A : Type} (x : result A) (s : train_world) r s' :
  lift x s = (r, s') -> s' = s.
Proof. intros [= _ <-]. reflexivity. Qed.

Lemma on_model_out {A : Type} (c : M Model A) w r w' :
  on_model c w = (r, w') -> tw_out w' = tw_out w.
Proof.
  unfold on_model. destruct (c (tw_model w)) as [r0 m]. intros [= _ <-]. reflexivity.
Qed.

Lemma on_optimizer_out {A : Type} (c : M (Model * Optimizer) A) w r w' :
  on_optimizer c w = (r, w') -> tw_out w' = tw_out w.
Proof.
  unfold on_optimizer. destruct (c (tw_model w, tw_optimizer w)) as [r0 [m o]].
  intros [= _ <-]. reflexivity.
Qed.

Lemma prints_only_same P out w w' :
  tw_out w' = tw_out w -> prints_only P out w -> prints_only P out w'.
Proof. intros E (new & Hn & HP). exists new. rewrite E. split; assumption. Qed.

Lemma prints_only_print P out e w r w' :
  P e -> prints_only P out w -> print e w = (r, w') -> prints_only P out w'.
Proof.
  intros He (new & Hn & HP) [= _ <-]. exists (new ++ [e]). cbn [tw_out].
  rewrite Hn, app_assoc. split; [reflexivity|].
  apply Forall_app. split; [assumption|]. constructor; [assumption|constructor].
Qed.

Variable criterion : Tensor -> list Z -> result Loss.
Variables (n_epochs : Z) (device_ : device) (print_steps print_epochs loss_acc : Z).
Variable n_total_steps : Z.
Hypothesis n_total_steps_small : Z.abs n_total_steps < 2 ^ 53.

Local Abbreviation due := (progress_due print_epochs (Z.quot n_total_steps print_steps)).

Lemma train_batch_out out epoch acc ib w r w' :
  prints_only due out w ->
  train_batch criterion n_epochs device_ print_steps print_epochs loss_acc
    n_total_steps epoch acc ib w = (r, w') ->
  prints_only due out w'.
Proof.
  intros HQ E. destruct acc as [mean_loss loss_counter], ib as [i [images labels]].
  unfold train_batch in E.
  apply bind_cases in E as [(e & E & _)|(images' & w1 & E1 & E)].
  { apply lift_store in E as ->. assumption. }
  apply lift_store in E1 as ->.
  apply bind_cases in E as [(e & E & _)|(outputs & w2 & E2 & E)].
  { apply on_model_out in E. eapply prints_only_same; eassumption. }
  apply on_model_out in E2. apply (prints_only_same _ _ _ _ E2) in HQ. clear E2.
  apply bind_cases in E as [(e & E & _)|(loss & w3 & E3 & E)].
  { apply lift_store in E as ->. assumption. }
  apply lift_store in E3 as ->.
  apply bind_cases in E as [(e & E & _)|([] & w4 & E4 & E)]; [discriminate|].
  injection E4 as <-.
  match type of E with bind _ _ ?s = _ =>
    assert (HQ4 : prints_only due out s) by (eapply prints_only_same; [|exact HQ]; reflexivity)
  end.
  clear HQ.
  apply bind_cases in E as [(e & E & _)|([] & w5 & E5 & E)].
  { apply on_optimizer_out in E. eapply prints_only_same; eassumption. }
  apply on_optimizer_out in E5. apply (prints_only_same _ _ _ _ E5) in HQ4. clear E5.
  apply bind_cases in E as [(e & E & _)|([] & w6 & E6 & E)].
  { apply on_model_out in E. eapply prints_only_same; eassumption. }
  apply on_model_out in E6. apply (prints_only_same _ _ _ _ E6) in HQ4. clear E6.
  apply bind_cases in E as [(e & E & _)|([] & w7 & E7 & E)].
  { apply on_optimizer_out in E. eapply prints_only_same; eassumption. }
  apply on_optimizer_out in E7. apply (prints_only_same _ _ _ _ E7) in HQ4. clear E7.
  apply bind_cases in E as [(e & E & _)|(r0 & w8 & E8 & E)].
  { apply lift_store in E as ->. assumption. }
  pose proof (lift_store _ _ _ _ E8) as ->. apply lift_ok in E8 as [E8 _].
  unfold py_mod in E8. destruct (Z.eqb_spec print_epochs 0) as [|Hpe]; [discriminate|].
  injection E8 as <-.
  assert (Hblock : forall r9 w9,
    (if epoch mod print_epochs =? 0
     then q <- lift (true_div n_total_steps print_steps) ;;
          r <- lift (py_mod (i + 1) (py_int q)) ;;
          (if r =? 0
           then avg <- lift (py_fdiv (fadd mean_loss (item loss)) (loss_counter + 1)) ;;
                (if (loss_acc <? 0) || (2 ^ 31 <=? loss_acc) then raise ValueError
                 else ret tt) ;;
                print (Progress (epoch + 1) n_epochs (i + 1) n_total_steps avg loss_acc)
           else ret tt)
     else ret tt) w7 = (r9, w9) -> prints_only due out w9).
  { intros r9 w9 E9.
    destruct (Z.eqb_spec (epoch mod print_epochs) 0) as [Hep|];
      [|injection E9 as _ <-; assumption].
    apply bind_cases in E9 as [(e & E9 & _)|(q & wa & Ea & E9)].
    { apply lift_store in E9 as ->. assumption. }
    pose proof (lift_store _ _ _ _ Ea) as ->. apply lift_ok in Ea as [Ea _].
    assert (Hps : print_steps <> 0).
    { intros ->. unfold true_div in Ea. discriminate. }
    destruct (true_div_int n_total_steps print_steps) as (f & Ef & If); [assumption..|].
    rewrite Ef in Ea. injection Ea as <-. rewrite If in E9.
    apply bind_cases in E9 as [(e & E9 & _)|(r1 & wb & Eb & E9)].
    { apply lift_store in E9 as ->. assumption. }
    pose proof (lift_store _ _ _ _ Eb) as ->. apply lift_ok in Eb as [Eb _].
    unfold py_mod in Eb.
    destruct (Z.eqb_spec (Z.quot n_total_steps print_steps) 0) as [|Hcad]; [discriminate|].
    injection Eb as <-.
    destruct (Z.eqb_spec ((i + 1) mod Z.quot n_total_steps print_steps) 0) as [Hstep|];
      [|injection E9 as _ <-; assumption].
    apply bind_cases in E9 as [(e & E9 & _)|(avg & wc & Ec & E9)].
    { apply lift_store in E9 as ->. assumption. }
    apply lift_store in Ec as ->.
    apply bind_cases in E9 as [(e & E9 & _)|([] & wd & Ed & E9)].
    { destruct (_ || _); [injection E9 as _ <-; assumption|discriminate]. }
    destruct (_ || _); [discriminate|]. injection Ed as <-.
    eapply prints_only_print; [|exact HQ4|exact E9].
    cbn. replace (epoch + 1 - 1) with epoch by lia. tauto. }
  apply bind_cases in E as [(e & E & _)|([] & w9 & E9 & E)].
  { eapply Hblock. exact E. }
  injection E as _ <-. eapply Hblock. exact E9.
Qed.

End TrainModelOutput.

(** X9. Whatever the outcome of [train_model], what it has printed beyond
    its two banners are progress lines that were due: each reports an epoch
    whose index is a multiple of [print_epochs] and a step that is a multiple
    of [int(n_total_steps / print_steps)], both non-zero. *)
Theorem train_model_reports_on_cadence `{Torch}
    (data_loader : DataLoader Batch) (criterion : Tensor -> list Z -> result Loss)
    (n_epochs : Z) (device_ : device) (print_steps : Z) (print_epochs : option Z)
    (loss_acc : Z) (w : train_world) (r : result F) (w' : train_world) :
  Z.abs (dl_len data_loader) < 2 ^ 53 ->
  train_model data_loader criterion n_epochs device_ print_steps print_epochs
    loss_acc w = (r, w') ->
  prints_only
    (progress_due (match print_epochs with None => n_epochs | Some p => p end)
       (Z.quot (dl_len data_loader) print_steps))
    (tw_out w) w'.
Proof.
  intros Hlen E. unfold train_model in E.
  set (pe := match print_epochs with None => n_epochs | Some p => p end) in *.
  set (due := progress_due pe (Z.quot (dl_len data_loader) print_steps)).
  assert (HQ : prints_only due (tw_out w) w).
  { exists []. rewrite app_nil_r. split; [reflexivity|constructor]. }
  apply bind_cases in E as [(e & E & _)|([] & w1 & E1 & E)]; [discriminate|].
  apply (prints_only_print due _ TrainingStarted _ _ _ I HQ) in E1. clear HQ.
  apply bind_cases in E as [(e & E & _)|([] & w2 & E2 & E)].
  { apply on_model_out in E. eapply prints_only_same; eassumption. }
  apply on_model_out in E2. apply (prints_only_same _ _ _ _ E2) in E1. clear E2.
  assert (Hloop : forall l acc s r3 s3,
    prints_only due (tw_out w) s ->
    for_each l acc (fun _ epoch =>
      train_epoch data_loader criterion n_epochs device_ print_steps pe loss_acc epoch)
      s = (r3, s3) ->
    prints_only due (tw_out w) s3).
  { apply (for_each_store (prints_only due (tw_out w))).
    intros acc epoch s r3 s3 Hs E3. unfold train_epoch in E3.
    assert (Hinner : forall r4 s4,
      for_each (enumerate (dl_iter data_loader (Z.to_nat epoch))) (of_Z 0, 0)
        (train_batch criterion n_epochs device_ print_steps pe loss_acc
           (dl_len data_loader) epoch) s = (r4, s4) ->
      prints_only due (tw_out w) s4).
    { intros r4 s4. apply (for_each_store (prints_only due (tw_out w))); [|exact Hs].
      intros acc' ib s5 r5 s6 Hs5 E5. eapply train_batch_out; eassumption. }
    apply bind_cases in E3 as [(e & E3 & _)|(a & s4 & E4 & E3)].
    - eapply Hinner. exact E3.
    - injection E3 as _ <-. eapply Hinner. exact E4. }
  apply bind_cases in E as [(e & E & _)|(ml & w3 & E3 & E)].
  { eapply Hloop; eassumption. }
  apply (Hloop _ _ _ _ _ E1) in E3.
  apply bind_cases in E as [(e & E & _)|([] & w4 & E4 & E)]; [discriminate|].
  apply (prints_only_print due _ TrainingFinished _ _ _ I E3) in E4.
  apply lift_store in E as ->. exact E4.
Qed.

Lemma train_model_reports_on_cadence_witness :
  prints_only (progress_due 1 (Z.quot 2 1)) []
    (snd (train_model Example.loader Example.criterion 2 (torch_device "cpu") 1
            (Some 1) 4 (Example.start 3))).
Proof.
  apply (train_model_reports_on_cadence Example.loader Example.criterion 2
           (torch_device "cpu") 1 (Some 1) 4 (Example.start 3)
           (fst (train_model Example.loader Example.criterion 2 (torch_device "cpu") 1
                   (Some 1) 4 (Example.start 3)))).
  - vm_compute. reflexivity.
  - apply surjective_pairing.
Defined.

Lemma train_model_no_epoch_witness :
  train_model Example.loader Example.criterion 0 (torch_device "cpu") 1 (Some 1) 4
    (Example.start 3)
  = (py_fdiv (of_Z 0) 2,
     {| tw_model := 3; tw_optimizer := 1;
        tw_out := [] ++ [TrainingStarted; TrainingFinished]; tw_items := [] |}).
Proof.
  apply (train_model_no_epoch Example.loader Example.criterion 0 (torch_device "cpu") 1
           (Some 1) 4 (Example.start 3) 3); [lia|reflexivity].
Defined.

Lemma train_model_zero_length_witness :
  ~ exists v w',
      train_model Cases.empty_loader Example.criterion 3 (torch_device "cpu") 1 (Some 1)
        4 (Example.start 3) = (Ok v, w').
Proof.
  intros (v & w' & E).
  apply (train_model_zero_length Cases.empty_loader Example.criterion 3
           (torch_device "cpu") 1 (Some 1) 4 (Example.start 3) eq_refl v w').
  exact E.
Defined.

Lemma train_model_too_many_print_steps_witness :
  ~ exists v w',
      train_model Example.loader Example.criterion 1 (torch_device "cpu") 3 (Some 1) 4
        (Example.start 3) = (Ok v, w').
Proof.
  intros (v & w' & E).
  apply (train_model_too_many_print_steps Example.loader Example.criterion 1
           (torch_device "cpu") 3 (Some 1) 4 (Example.start 3)) with (v := v) (w' := w');
    [lia | discriminate | vm_compute; reflexivity | vm_compute; reflexivity | exact E].
Defined.

(** ** More on load_model and save_model *)

Section LoadModelEdges.
Context `{Torch}.
Variable data_loader : DataLoader Batch.
Variable classification : list string.

(** X10. On an empty evaluation set [load_model] prints nothing and fails
    with [ZeroDivisionError] when it computes the overall accuracy, after
    the loading prologue and the move to the device. *)
Theorem load_model_empty_loader (device_ : device) (save_path : option string)
    (class_results show_wrongs : bool) (n_wrongs : Z) (w w1 w2 : world) :
  dl_iter data_loader 0%nat = [] ->
  restore save_path device_ w = (Ok tt, w1) ->
  with_model (module_to device_) w1 = (Ok tt, w2) ->
  load_model data_loader classification device_ save_path class_results show_wrongs
    n_wrongs w = (Raise ZeroDivisionError, w2).
Proof.
  intros Hempty Er Eto. unfold load_model.
  rewrite (bind_run _ _ _ _ _ Er), (bind_run _ _ _ _ _ Eto).
  unfold run_tally. rewrite Hempty. reflexivity.
Qed.

(** X11. With a save path that holds no checkpoint, on one of the three
    compared devices, [load_model] fails with [FileNotFoundError] before
    anything else: the model is untouched and nothing is evaluated. *)
Theorem load_model_missing_checkpoint (type path : string)
    (class_results show_wrongs : bool) (n_wrongs : Z)
    (m : Model) (fs : gmap string StateDict) (out : list event) :
  type = "cuda" \/ type = "mps" \/ type = "cpu" ->
  fs !! path = None ->
  load_model data_loader classification (torch_device type) (Some path) class_results
    show_wrongs n_wrongs {| w_model := m; w_fs := fs; w_out := out |}
  = (Raise FileNotFoundError,
     {| w_model := m; w_fs := fs; w_out := out ++ [TorchLoad path type] |}).
Proof.
  intros Htype Hfs.
  assert (Hhit : load_if (Some path) (torch_device type) type
                   {| w_model := m; w_fs := fs; w_out := out |}
                 = (Raise FileNotFoundError,
                    {| w_model := m; w_fs := fs; w_out := out ++ [TorchLoad path type] |})).
  { unfold load_if. rewrite bool_decide_eq_true_2 by reflexivity.
    unfold torch_load, emit, bind, modify, gets, raise. cbn [w_model w_fs w_out].
    rewrite Hfs. reflexivity. }
  unfold load_model. apply bind_raise. unfold restore.
  destruct Htype as [E | [E | E]]; subst type.
  - apply bind_raise. exact Hhit.
  - unfold bind at 1. rewrite load_if_miss by discriminate.
    apply bind_raise. exact Hhit.
  - unfold bind at 1. rewrite load_if_miss by discriminate.
    unfold bind at 1. rewrite load_if_miss by discriminate. exact Hhit.
Qed.

(** X12. Round trip on the three compared devices: after [save_model] of a
    model [m1] to a path, [load_model] with that path on a model [m2] is
    [load_model] without a path on what [load_state_dict] makes of [m2] when
    given the state of [m1], the read being recorded in the output. *)
Theorem save_load_roundtrip (type path : string)
    (class_results show_wrongs : bool) (n_wrongs : Z)
    (m1 m2 m2' : Model) (fs : gmap string StateDict) (out : list event) :
  type = "cuda" \/ type = "mps" \/ type = "cpu" ->
  load_state_dict (state_dict m1) m2 = (Ok tt, m2') ->
  let saved := snd (save_model path {| w_model := m1; w_fs := fs; w_out := [] |}) in
  w_fs saved !! path = Some (state_dict m1)
  /\ (forall other, other <> path -> w_fs saved !! other = fs !! other)
  /\ load_model data_loader classification (torch_device type) (Some path)
       class_results show_wrongs n_wrongs
       {| w_model := m2; w_fs := w_fs saved; w_out := out |}
     = load_model data_loader classification (torch_device type) None
         class_results show_wrongs n_wrongs
         {| w_model := m2'; w_fs := w_fs saved;
            w_out := out ++ [TorchLoad path type] |}.
Proof.
  intros Htype Hload saved.
  assert (Hsaved : w_fs saved = <[path := state_dict m1]> fs) by reflexivity.
  split; [rewrite Hsaved; apply lookup_insert_eq|].
  split; [intros other Hne; rewrite Hsaved; apply lookup_insert_ne; congruence|].
  unfold load_model.
  rewrite (bind_run _ _ _ _ _
             (restore_loads path type m2 (w_fs saved) out (state_dict m1) (Ok tt) m2'
                Htype ltac:(rewrite Hsaved; apply lookup_insert_eq) Hload)).
  rewrite (bind_run _ _ _ _ _ (restore_none _ _)). reflexivity.
Qed.

End LoadModelEdges.

Lemma load_model_empty_loader_witness :
  load_model Cases.empty_loader ["a"; "b"] (torch_device "cpu") None true false 5
    (Example.fresh 3 ∅)
  = (Raise ZeroDivisionError, Example.fresh 3 ∅).
Proof.
  apply (load_model_empty_loader Cases.empty_loader ["a"; "b"] (torch_device "cpu")
           None true false 5 (Example.fresh 3 ∅) (Example.fresh 3 ∅));
    reflexivity.
Defined.

Lemma load_model_missing_checkpoint_witness :
  load_model Example.loader ["a"; "b"] (torch_device "cpu") (Some "ckpt") true false 5
    (Example.fresh 3 ∅)
  = (Raise FileNotFoundError,
     {| w_model := (3 : Model); w_fs := ∅; w_out := [] ++ [TorchLoad "ckpt" "cpu"] |}).
Proof.
  apply (@load_model_missing_checkpoint _ _ Example.torch Example.loader ["a"; "b"] "cpu" "ckpt" true false
           5 3 ∅ []); [right; right; reflexivity|reflexivity].
Defined.

Lemma save_load_roundtrip_witness :
  load_model Example.loader ["a"; "b"] (torch_device "cpu") (Some "ckpt") true false 5
    {| w_model := (3 : Model);
       w_fs := w_fs (snd (save_model "ckpt" (Example.fresh 8 ∅)));
       w_out := [] |}
  = load_model Example.loader ["a"; "b"] (torch_device "cpu") None true false 5
      {| w_model := (8 : Model);
         w_fs := w_fs (snd (save_model "ckpt" (Example.fresh 8 ∅)));
         w_out := [] ++ [TorchLoad "ckpt" "cpu"] |}.
Proof.
  destruct (@save_load_roundtrip _ _ Example.torch Example.loader ["a"; "b"] "cpu" "ckpt" true false 5
              8 3 8 ∅ []) as (_ & _ & H);
    [right; right; reflexivity | reflexivity |].
  exact H.
Defined.

(** *** The counters of the evaluation loop *)

Lemma total_insert (l : list Z) (k : nat) (a b : Z) :
  l !! k = Some a -> total (<[k := b]> l) = total l + (b - a).
Proof.
  unfold total. revert k. induction l as [|x l IH]; intros [|k] Hk; try discriminate.
  - injection Hk as ->. simpl. lia.
  - simpl in Hk |- *. rewrite (IH k Hk). lia.
Qed.

Lemma total_replicate (n : nat) : total (replicate n 0) = 0.
Proof.
  unfold total. induction n as [|n IH]; [reflexivity|]. simpl. rewrite IH. reflexivity.
Qed.

Lemma py_incr_ok (l : list Z) (i : Z) (l' : list Z) :
  py_incr l i = Ok l' ->
  exists k a, py_index l i = Ok k /\ l !! k = Some a /\ l' = <[k := a + 1]> l.
Proof.
  unfold py_incr. destruct (py_index l i) as [k|]; [|discriminate].
  destruct (l !! k) as [a|] eqn:E; [|discriminate]. intros [= <-]. eauto.
Qed.

Lemma py_index_length {A B : Type} (l : list A) (l' : list B) (i : Z) :
  length l = length l' -> py_index l i = py_index l' i.
Proof. intros E. unfold py_index. rewrite E. reflexivity. Qed.

Section Counters.
Context `{Torch}.
Variable classification : list string.
Variables (show_wrongs : bool) (n_wrongs : Z).

(** One more sample in the class designated by the label. *)
Lemma tally_counted_sample n k (t : tally) label ncs :
  tally_counted n k t ->
  py_incr (n_class_samples t) label = Ok ncs ->
  tally_counted n (k + 1)
    {| wrongs := wrongs t; n_correct := n_correct t; n_samples := n_samples t;
       n_class_correct := n_class_correct t; n_class_samples := ncs |}.
Proof.
  intros ([Hc Hs] & Htot & Hle) E.
  apply py_incr_ok in E as (j & s & _ & Hj & ->).
  split; [split; cbn; [assumption|rewrite length_insert; assumption]|].
  split; cbn.
  - rewrite (total_insert _ _ _ _ Hj). lia.
  - destruct (Forall2_lookup_r _ _ _ _ _ Hle Hj) as (c & Hcj & Hcs).
    rewrite <- (list_insert_id _ _ _ Hcj). apply Forall2_insert; [assumption|lia].
Qed.

(** One more sample, correctly predicted, in the class of the label. *)
Lemma tally_counted_correct n k (t : tally) label ncc ncs :
  tally_counted n k t ->
  py_incr (n_class_correct t) label = Ok ncc ->
  py_incr (n_class_samples t) label = Ok ncs ->
  tally_counted n (k + 1)
    {| wrongs := wrongs t; n_correct := n_correct t; n_samples := n_samples t;
       n_class_correct := ncc; n_class_samples := ncs |}.
Proof.
  intros ([Hc Hs] & Htot & Hle) Ec Es.
  apply py_incr_ok in Ec as (j & c & Ij & Hj & ->).
  apply py_incr_ok in Es as (j' & s & Ij' & Hj' & ->).
  rewrite (py_index_length _ (n_class_samples t)) in Ij by congruence.
  assert (j' = j) by congruence. subst j'.
  split; [split; cbn; rewrite length_insert; assumption|].
  split; cbn.
  - rewrite (total_insert _ _ _ _ Hj'). lia.
  - apply Forall2_insert; [assumption|].
    destruct (Forall2_lookup_lr _ _ _ _ _ _ Hle Hj Hj'). lia.
Qed.

Lemma tally_sample_counted n k images labels predicted t i w t' w' :
  tally_counted n k t ->
  tally_sample classification show_wrongs n_wrongs images labels predicted t i w
    = (Ok t', w') ->
  tally_counted n (k + 1) t' /\ n_samples t' = n_samples t
  /\ n_correct t' = n_correct t.
Proof.
  intros Ht E. unfold tally_sample in E.
  apply bind_ok in E as (label & w1 & _ & E).
  apply bind_ok in E as (pred & w2 & _ & E).
  apply bind_ok in E as (t1 & w3 & E1 & E).
  apply bind_ok in E as (ncs & w4 & E2 & E). apply lift_ok in E2 as [E2 _].
  injection E as <- _. cbn [n_samples n_correct].
  destruct (label =? pred).
  - apply bind_ok in E1 as (ncc & w5 & E1 & E3). apply lift_ok in E1 as [E1 _].
    injection E3 as <- _. cbn [n_class_samples n_samples n_correct wrongs] in *.
    split; [|split; reflexivity].
    apply (tally_counted_correct n k t label ncc ncs Ht E1 E2).
  - assert (Hsame : n_class_correct t1 = n_class_correct t
                    /\ n_class_samples t1 = n_class_samples t
                    /\ n_samples t1 = n_samples t /\ n_correct t1 = n_correct t).
    { destruct (show_wrongs && _); [|injection E1 as <- _; repeat split].
      apply bind_ok in E1 as (key & w5 & _ & E1).
      destruct (bool_decide _); [injection E1 as <- _; repeat split|].
      apply bind_ok in E1 as (c & w6 & _ & E1).
      apply bind_ok in E1 as (p & w7 & _ & E1).
      apply bind_ok in E1 as (u1 & w8 & _ & E1).
      apply bind_ok in E1 as (u2 & w9 & _ & E1).
      injection E1 as <- _. repeat split. }
    destruct Hsame as (Hcc & Hcs & Hn & Hco). rewrite Hn, Hco, Hcc.
    split; [|split; reflexivity].
    rewrite Hcs in E2.
    pose proof (tally_counted_sample n k t label ncs Ht E2) as (Hsz & Htot & Hle).
    split; [exact Hsz|]. split; [exact Htot|exact Hle].
Qed.

Lemma tally_samples_counted n images labels predicted (l : list Z) :
  forall k t w t' w',
    tally_counted n k t ->
    for_each l t
      (tally_sample classification show_wrongs n_wrongs images labels predicted) w
      = (Ok t', w') ->
    tally_counted n (k + Z.of_nat (length l)) t' /\ n_samples t' = n_samples t
    /\ n_correct t' = n_correct t.
Proof.
  induction l as [|i l IH]; intros k t w t' w' Ht E.
  - injection E as <- _. cbn [length]. rewrite Z.add_0_r. repeat split; apply Ht.
  - cbn [for_each] in E. apply bind_ok in E as (t1 & w1 & E1 & E).
    apply (tally_sample_counted n k) in E1 as (I1 & Hn1 & Hc1); [|assumption].
    apply (IH (k + 1)) in E as (I2 & Hn2 & Hc2); [|assumption].
    rewrite Hn2, Hn1, Hc2, Hc1. split; [|split; reflexivity].
    replace (k + Z.of_nat (length (i :: l))) with (k + 1 + Z.of_nat (length l))
      by (cbn [length]; lia).
    assumption.
Qed.

Lemma range_length (n : nat) : length (range (Z.of_nat n)) = n.
Proof. unfold range. rewrite length_map, length_seq. lia. Qed.

Lemma tally_batch_counted n device_ t (b : Batch) w t' w' :
  tally_counted n (n_samples t) t ->
  tally_batch classification device_ show_wrongs n_wrongs t b w = (Ok t', w') ->
  tally_counted n (n_samples t') t'
  /\ n_samples t' = n_samples t + Z.of_nat (length (snd b)).
Proof.
  intros Ht E. destruct b as [images labels]. unfold tally_batch in E.
  apply bind_ok in E as (images' & w1 & _ & E).
  apply bind_ok in E as (outputs & w2 & _ & E).
  apply bind_ok in E as (predicted & w3 & _ & E).
  apply bind_ok in E as (eq & w4 & _ & E).
  apply (tally_samples_counted n _ _ _ _ (n_samples t)) in E as (I1 & Hn & _).
  - cbn [n_samples] in Hn. rewrite range_length in I1. cbn [snd].
    rewrite Hn. split; [assumption|reflexivity].
  - destruct Ht as (Hsz & Htot & Hle). split; [exact Hsz|]. split; assumption.
Qed.

Lemma tally_batches_counted n device_ (bs : list Batch) :
  forall t w t' w',
    tally_counted n (n_samples t) t ->
    for_each bs t (tally_batch classification device_ show_wrongs n_wrongs) w
      = (Ok t', w') ->
    tally_counted n (n_samples t') t'
    /\ n_samples t' = n_samples t + n_labels bs.
Proof.
  unfold n_labels.
  induction bs as [|b bs IH]; intros t w t' w' Ht E.
  - injection E as <- _. cbn. split; [assumption|lia].
  - cbn [for_each] in E. apply bind_ok in E as (t1 & w1 & E1 & E).
    apply (tally_batch_counted n) in E1 as (I1 & Hn1); [|assumption].
    apply IH in E as (I2 & Hn2); [|assumption].
    split; [assumption|]. rewrite Hn2, Hn1. cbn [map concat].
    rewrite length_app. lia.
Qed.

End Counters.

(** X13. When the counting loop of [load_model] completes, its counters are
    consistent: both per-class lists have one entry per class, the number of
    samples is the number of labels that the loader yielded, the per-class
    sample counts add up to it, and no class has more correct predictions
    than samples (nor a negative count). *)
Theorem load_model_counters `{Torch}
    (data_loader : DataLoader Batch) (classification : list string)
    (device_ : device) (save_path : option string) (show_wrongs : bool)
    (n_wrongs : Z) (w : world) (t : tally) (w1 : world) :
  load_and_tally data_loader classification device_ save_path show_wrongs n_wrongs w
    = (Ok t, w1) ->
  length (n_class_correct t) = length classification
  /\ length (n_class_samples t) = length classification
  /\ n_samples t = n_labels (dl_iter data_loader 0%nat)
  /\ total (n_class_samples t) = n_samples t
  /\ Forall2 (fun c s => 0 <= c <= s) (n_class_correct t) (n_class_samples t).
Proof.
  intros E. unfold load_and_tally in E.
  apply bind_ok in E as ([] & wa & _ & E).
  apply bind_ok in E as ([] & wb & _ & E).
  unfold run_tally in E.
  apply (tally_batches_counted _ _ _ (length classification)) in E
    as (((Hc & Hs) & Htot & Hle) & Hn).
  - cbn [n_samples] in Hn. rewrite Z.add_0_l in Hn.
    repeat split; assumption.
  - split; [split; apply length_replicate|]. cbn [n_class_samples n_class_correct n_samples].
    split.
    + apply total_replicate.
    + apply Forall2_replicate. lia.
Qed.

Lemma load_model_counters_witness :
  let t := {| wrongs := []; n_correct := 4; n_samples := 5;
              n_class_correct := [1; 3; 0]; n_class_samples := [1; 4; 0] |} in
  n_samples t = n_labels (dl_iter Example.loader 0%nat)
  /\ total (n_class_samples t) = n_samples t.
Proof.
  intros t.
  destruct (load_model_counters Example.loader ["a"; "b"; "c"] (torch_device "cpu")
              None false 5 (Example.fresh 3 ∅) t (Example.fresh 3 ∅))
    as (_ & _ & I1 & I2 & _); [vm_compute; reflexivity|].
  split; [exact I1|exact I2].
Defined.

Section Returns.
Context `{Torch}.
Variable classification : list string.
Variable t : tally.
Hypothesis sized : tally_sized (length classification) t.
Hypothesis populated : Forall (fun s => s <> 0) (n_class_samples t).

Lemma class_loop_prints (js : list nat) :
  (forall j, j ∈ js -> (j < length classification)%nat) ->
  forall w, exists lines,
    for_each (map Z.of_nat js) tt (fun _ i => class_accuracy classification t i) w
      = (Ok tt, {| w_model := w_model w; w_fs := w_fs w; w_out := w_out w ++ lines |})
    /\ length lines = length js.
Proof.
  induction js as [|j js IH]; intros Hin w.
  - exists []. rewrite app_nil_r. destruct w. split; reflexivity.
  - cbn [map for_each].
    destruct (class_body_run classification t sized j w) as (c & s & name & Ec & Es & En & Eb).
    { apply Hin. left. }
    assert (Hs : s <> 0).
    { rewrite Forall_lookup in populated. exact (populated _ _ Es). }
    destruct (Z.eqb_spec s 0) as [|_]; [contradiction|].
    cbv beta in Eb. rewrite (bind_run _ _ _ _ _ Eb).
    destruct (IH (fun j' Hj' => Hin j' (list_elem_of_further _ _ _ Hj'))
                {| w_model := w_model w; w_fs := w_fs w;
                   w_out := w_out w ++ [PrintClassAccuracy name
                     (fdiv (fmul (of_Z 100) (of_Z c)) (of_Z s))] |})
      as (lines & E & Hlen).
    eexists (_ :: lines). rewrite E. cbn [w_model w_fs w_out length].
    rewrite <- app_assoc. split; [reflexivity|]. rewrite Hlen. reflexivity.
Qed.

End Returns.

(** X14. When the counting loop has completed on a non-empty evaluation set
    and, if class results are asked for, every class has a sample,
    [load_model] returns [100.0 * n_correct / n_samples]; it has printed that
    accuracy followed by one line per class (none without class results),
    and nothing else has changed since the counting. *)
Theorem load_model_returns_accuracy `{Torch}
    (data_loader : DataLoader Batch) (classification : list string)
    (device_ : device) (save_path : option string)
    (class_results show_wrongs : bool) (n_wrongs : Z)
    (w : world) (t : tally) (w1 : world) :
  load_and_tally data_loader classification device_ save_path show_wrongs n_wrongs w
    = (Ok t, w1) ->
  n_samples t <> 0 ->
  (class_results = true -> Forall (fun s => s <> 0) (n_class_samples t)) ->
  let accuracy := fdiv (fmul (of_Z 100) (of_Z (n_correct t))) (of_Z (n_samples t)) in
  exists lines,
    load_model data_loader classification device_ save_path class_results show_wrongs
      n_wrongs w
    = (Ok accuracy,
       {| w_model := w_model w1; w_fs := w_fs w1;
          w_out := w_out w1 ++ PrintAccuracy accuracy :: lines |})
    /\ length lines = if class_results then length classification else 0%nat.
Proof.
  intros E Hn Hall accuracy. unfold load_and_tally in E.
  apply bind_ok in E as ([] & wa & Ea & E).
  apply bind_ok in E as ([] & wb & Eb & E).
  pose proof (run_tally_sized _ _ _ _ _ _ _ _ E) as Hsized.
  unfold load_model.
  rewrite (bind_run _ _ _ _ _ Ea), (bind_run _ _ _ _ _ Eb), (bind_run _ _ _ _ _ E).
  unfold py_fdiv at 1. destruct (Z.eqb_spec (n_samples t) 0); [contradiction|].
  rewrite (bind_lift _ _ _ _ eq_refl). fold accuracy.
  rewrite (bind_run (emit (PrintAccuracy accuracy)) _ w1 tt _ eq_refl).
  destruct class_results.
  - destruct (class_loop_prints classification t Hsized (Hall eq_refl)
                (seq 0 (length classification))
                (fun j Hj => proj2 (proj1 (elem_of_seq _ _ _) Hj))
                {| w_model := w_model w1; w_fs := w_fs w1;
                   w_out := w_out w1 ++ [PrintAccuracy accuracy] |})
      as (lines & Ec & Hlen).
    exists lines. unfold class_accuracies, range. rewrite Nat2Z.id.
    rewrite (bind_run _ _ _ _ _ Ec). cbn [w_model w_fs w_out].
    rewrite <- app_assoc, length_seq in *. split; [reflexivity|assumption].
  - exists []. split; reflexivity.
Qed.

Lemma load_model_returns_accuracy_witness :
  exists lines,
    load_model Example.loader ["a"; "b"] (torch_device "cpu") None true false 5
      (Example.fresh 3 ∅)
    = (Ok (fdiv (fmul (of_Z 100) (of_Z 4)) (of_Z 5)),
       {| w_model := (3 : Model); w_fs := ∅;
          w_out := [] ++ PrintAccuracy (fdiv (fmul (of_Z 100) (of_Z 4)) (of_Z 5))
                         :: lines |})
    /\ length lines = 2%nat.
Proof.
  apply (@load_model_returns_accuracy _ _ Example.torch Example.loader ["a"; "b"]
           (torch_device "cpu") None true false 5 (Example.fresh 3 ∅)
           {| wrongs := []; n_correct := 4; n_samples := 5;
              n_class_correct := [1; 3]; n_class_samples := [1; 4] |}
           (Example.fresh 3 ∅)).
  - vm_compute. reflexivity.
  - discriminate.
  - intros _. repeat constructor; discriminate.
Defined.

(** *** Displayed samples *)

Lemma for_each_after {S A B : Type} (J : B -> S -> Prop) (Q : S -> Prop)
    (body : B -> A -> M S B) :
  (forall acc x s, J acc s -> after J Q (body acc x s)) ->
  forall l acc s, J acc s -> after J Q (for_each l acc body s).
Proof.
  intros Hbody. induction l as [|x l IH]; intros acc s HJ; [exact HJ|].
  cbn [for_each]. unfold bind. specialize (Hbody acc x s HJ).
  destruct (body acc x s) as [[acc'|e] s1]; [apply IH; exact Hbody|exact Hbody].
Qed.

Lemma bind_after {S A B : Type} (J : A -> S -> Prop) (J' : B -> S -> Prop)
    (Q : S -> Prop) (c : M S A) (k : A -> M S B) s :
  after J Q (c s) -> (forall a s1, J a s1 -> after J' Q (k a s1)) ->
  after J' Q (bind c k s).
Proof.
  intros Hc Hk. unfold bind. destruct (c s) as [[a|e] s1]; [apply Hk; exact Hc|exact Hc].
Qed.

Section Displayed.
Context `{Torch}.

Lemma shown_app (a b : list event) : shown (a ++ b) = (shown a + shown b)%nat.
Proof. unfold shown. rewrite filter_app, length_app. reflexivity. Qed.

Lemma shown_one (e : event) : shown [e] = if is_imshow e then 1%nat else 0%nat.
Proof.
  unfold shown. rewrite filter_cons.
  destruct (is_imshow e); [rewrite decide_True by reflexivity|
                           rewrite decide_False by discriminate]; reflexivity.
Qed.

Lemma emit_out e w : emit e w = (Ok tt, {| w_model := w_model w; w_fs := w_fs w;
                                           w_out := w_out w ++ [e] |}).
Proof. reflexivity. Qed.

Lemma with_model_out {A : Type} (c : M Model A) w :
  w_out (snd (with_model c w)) = w_out w.
Proof. unfold with_model. destruct (c (w_model w)). reflexivity. Qed.

(** [keeps n c]: from a store that shows [n] samples, [c] ends, whatever its
    outcome, in a store that shows [n] samples. *)
Local Abbreviation keeps n c :=
  (forall w, shown (w_out w) = n ->
             after (fun _ w' => shown (w_out w') = n) (fun w' => shown (w_out w') = n)
               (c w)).

Lemma lift_keeps {A : Type} n (x : result A) : keeps n (lift x).
Proof. intros w Hw. unfold lift. destruct x; exact Hw. Qed.

Lemma with_model_keeps {A : Type} n (c : M Model A) : keeps n (with_model c).
Proof.
  intros w Hw. pose proof (with_model_out c w) as E.
  destruct (with_model c w) as [[a|e] w']; cbn [snd] in E; cbn; congruence.
Qed.

Lemma emit_keeps n e : is_imshow e = false -> keeps n (emit e).
Proof.
  intros He w Hw. rewrite emit_out. cbn [after w_out].
  rewrite shown_app, Hw, shown_one, He. lia.
Qed.

Lemma bind_keeps {A B : Type} n (c : M world A) (k : A -> M world B) :
  keeps n c -> (forall a, keeps n (k a)) -> keeps n (bind c k).
Proof.
  intros Hc Hk w Hw.
  apply (bind_after (fun _ w' => shown (w_out w') = n) _ _ c k w (Hc w Hw)).
  intros a s1 Hs1. apply Hk. exact Hs1.
Qed.

Lemma load_if_keeps n save_path device_ type : keeps n (load_if save_path device_ type).
Proof.
  unfold load_if. destruct save_path as [path|]; [|intros w Hw; exact Hw].
  destruct (bool_decide _); [|intros w Hw; exact Hw].
  apply bind_keeps.
  - unfold torch_load. apply bind_keeps; [apply emit_keeps; reflexivity|]. intros _.
    apply bind_keeps; [intros w Hw; exact Hw|]. intros fs.
    destruct (fs !! path); intros w Hw; exact Hw.
  - intros sd. apply with_model_keeps.
Qed.

Lemma restore_keeps n save_path device_ : keeps n (restore save_path device_).
Proof.
  unfold restore. apply bind_keeps; [apply load_if_keeps|]. intros _.
  apply bind_keeps; [apply load_if_keeps|]. intros _. apply load_if_keeps.
Qed.

Lemma for_each_keeps {A B : Type} n (l : list A) (acc : B) (body : B -> A -> M world B) :
  (forall acc x, keeps n (body acc x)) -> keeps n (for_each l acc body).
Proof.
  intros Hbody w Hw.
  apply (for_each_after (fun _ w' => shown (w_out w') = n)); [|exact Hw].
  intros acc' x s Hs. apply Hbody. exact Hs.
Qed.

Lemma class_accuracies_keeps n classification t :
  keeps n (class_accuracies classification t).
Proof.
  unfold class_accuracies. apply for_each_keeps. intros _ i. unfold class_accuracy.
  apply bind_keeps; [apply lift_keeps|]. intros c.
  apply bind_keeps; [apply lift_keeps|]. intros s.
  apply bind_keeps; [apply lift_keeps|]. intros a.
  apply bind_keeps; [apply lift_keeps|]. intros name.
  apply emit_keeps. reflexivity.
Qed.

End Displayed.

Section DisplayedBound.
Context `{Torch}.
Variable classification : list string.
Variables (show_wrongs : bool) (n_wrongs : Z) (base : nat).

Local Abbreviation J := (wrongs_shown show_wrongs n_wrongs base).
Local Abbreviation Q := (shown_within show_wrongs n_wrongs base).

Lemma wrongs_shown_within t w : J t w -> Q w.
Proof.
  intros (Hs & Hle & Hoff). split.
  - rewrite Hs. lia.
  - intros Hf. rewrite Hs, (Hoff Hf). cbn. lia.
Qed.

Lemma lift_after {A : Type} (x : result A) t w :
  J t w -> after (fun _ w' => J t w') Q (lift x w).
Proof. intros HJ. unfold lift. destruct x; [exact HJ|]. eapply wrongs_shown_within, HJ. Qed.

Lemma with_model_after {A : Type} (c : M Model A) t w :
  J t w -> after (fun _ w' => J t w') Q (with_model c w).
Proof.
  intros HJ. pose proof (with_model_out c w) as E.
  assert (HJ' : J t (snd (with_model c w))).
  { destruct HJ as (Hs & Hrest). split; [rewrite E; exact Hs|exact Hrest]. }
  destruct (with_model c w) as [[a|e] w']; cbn [snd] in HJ';
    [exact HJ'|eapply wrongs_shown_within, HJ'].
Qed.

Lemma tally_sample_after images labels predicted t i w :
  J t w ->
  after J Q
    (tally_sample classification show_wrongs n_wrongs images labels predicted t i w).
Proof.
  intros HJ. unfold tally_sample.
  apply (bind_after (fun _ w' => J t w')); [apply lift_after; exact HJ|].
  intros label w1 K1.
  apply (bind_after (fun _ w' => J t w')); [apply lift_after; exact K1|].
  intros pred w2 K2.
  apply (bind_after J).
  - destruct (label =? pred).
    + apply (bind_after (fun _ w' => J t w')); [apply lift_after; exact K2|].
      intros ncc w3 K3. exact K3.
    + destruct (show_wrongs && _) eqn:Hcond; [|exact K2].
      apply andb_prop in Hcond as [Hshow Hlt]. apply Z.ltb_lt in Hlt.
      apply (bind_after (fun _ w' => J t w')); [apply lift_after; exact K2|].
      intros key w3 K3.
      destruct (bool_decide _); [exact K3|].
      apply (bind_after (fun _ w' => J t w')); [apply lift_after; exact K3|].
      intros c w4 K4.
      apply (bind_after (fun _ w' => J t w')); [apply lift_after; exact K4|].
      intros p w5 (Hs & Hle & Hoff).
      unfold imshow. rewrite (bind_run _ _ _ _ _ (emit_out _ _)).
      rewrite (bind_run _ _ _ _ _ (emit_out _ _)).
      cbn [after ret w_out]. split; [|split; [|congruence]].
      * cbn [wrongs w_out]. rewrite !shown_app, Hs, length_app, !shown_one.
        cbn [is_imshow length]. lia.
      * cbn [wrongs]. rewrite length_app. cbn [length]. lia.
  - intros t1 w3 K3.
    apply (bind_after (fun _ w' => J t1 w')); [apply lift_after; exact K3|].
    intros ncs w4 K4. exact K4.
Qed.

Lemma tally_batch_after device_ t (b : Batch) w :
  J t w ->
  after J Q (tally_batch classification device_ show_wrongs n_wrongs t b w).
Proof.
  intros HJ. destruct b as [images labels]. unfold tally_batch.
  apply (bind_after (fun _ w' => J t w')); [apply lift_after; exact HJ|].
  intros images' w1 K1.
  apply (bind_after (fun _ w' => J t w')); [apply with_model_after; exact K1|].
  intros outputs w2 K2.
  apply (bind_after (fun _ w' => J t w')); [apply lift_after; exact K2|].
  intros predicted w3 K3.
  apply (bind_after (fun _ w' => J t w')); [apply lift_after; exact K3|].
  intros eq w4 K4.
  apply for_each_after; [|exact K4].
  intros acc i s Hs. apply tally_sample_after. exact Hs.
Qed.

End DisplayedBound.

(** X15. Whatever its outcome, [load_model] displays at most [n_wrongs]
    samples ([visual.imshow] calls), and none when [show_wrongs] is off. *)
Theorem load_model_shows_at_most_n_wrongs `{Torch}
    (data_loader : DataLoader Batch) (classification : list string)
    (device_ : device) (save_path : option string)
    (class_results show_wrongs : bool) (n_wrongs : Z) (w : world)
    (r : result F) (w' : world) :
  load_model data_loader classification device_ save_path class_results show_wrongs
    n_wrongs w = (r, w') ->
  (shown (w_out w') <= shown (w_out w) + Z.to_nat n_wrongs)%nat
  /\ (show_wrongs = false -> shown (w_out w') = shown (w_out w)).
Proof.
  intros E.
  set (base := shown (w_out w)).
  change (shown_within show_wrongs n_wrongs base w').
  assert (Hafter : after (fun _ s => shown_within show_wrongs n_wrongs base s)
                     (shown_within show_wrongs n_wrongs base)
                     (load_model data_loader classification device_ save_path
                        class_results show_wrongs n_wrongs w)).
  2: { rewrite E in Hafter. destruct r; exact Hafter. }
  clear E r w'. unfold load_model.
  assert (Hkeep : forall s, shown (w_out s) = base ->
                            shown_within show_wrongs n_wrongs base s).
  { intros s Hs. split; [lia|intros _; exact Hs]. }
  assert (K0 : wrongs_shown show_wrongs n_wrongs base
                 {| wrongs := []; n_correct := 0; n_samples := 0;
                    n_class_correct := replicate (length classification) 0;
                    n_class_samples := replicate (length classification) 0 |} w).
  { split; [cbn; lia|]. split; [cbn; lia|reflexivity]. }
  apply (bind_after (fun _ s => shown (w_out s) = base)).
  { pose proof (restore_keeps base save_path device_ w eq_refl) as Hr.
    destruct (restore save_path device_ w) as [[a|e] s]; [exact Hr|apply Hkeep, Hr]. }
  intros _ s1 Hs1.
  apply (bind_after (fun _ s => shown (w_out s) = base)).
  { pose proof (with_model_keeps base (module_to device_) s1 Hs1) as Hr.
    destruct (with_model (module_to device_) s1) as [[a|e] s];
      [exact Hr|apply Hkeep, Hr]. }
  intros _ s2 Hs2.
  apply (bind_after (wrongs_shown show_wrongs n_wrongs base)).
  { unfold run_tally. apply for_each_after.
    - intros acc b s Hs. apply tally_batch_after. exact Hs.
    - destruct K0 as (_ & Hb & Hc). split; [rewrite Hs2; cbn; lia|]. split; assumption. }
  intros t s3 Hs3.
  apply (bind_after (fun _ s => wrongs_shown show_wrongs n_wrongs base t s)).
  { apply lift_after. exact Hs3. }
  intros acc s4 Hs4.
  rewrite (bind_run _ _ _ _ _ (emit_out _ _)).
  set (s5 := {| w_model := w_model s4; w_fs := w_fs s4;
                w_out := w_out s4 ++ [PrintAccuracy acc] |}).
  assert (Hs5 : wrongs_shown show_wrongs n_wrongs base t s5).
  { destruct Hs4 as (Hs & Hrest). split; [|exact Hrest].
    unfold s5. cbn [w_out]. rewrite shown_app, Hs, shown_one. cbn [is_imshow]. lia. }
  apply (bind_after (fun _ s => shown_within show_wrongs n_wrongs base s)).
  - destruct class_results; [|eapply wrongs_shown_within, Hs5].
    pose proof (class_accuracies_keeps (shown (w_out s5)) classification t s5 eq_refl)
      as Hr.
    pose proof (wrongs_shown_within _ _ _ _ _ Hs5) as (Hle & Hoff).
    destruct (class_accuracies classification t s5) as [[a|e] s]; cbn in Hr |- *;
      (split; [rewrite Hr; exact Hle|intros Hf; rewrite Hr; exact (Hoff Hf)]).
  - intros _ s6 Hs6. exact Hs6.
Qed.

Lemma load_model_shows_at_most_n_wrongs_witness :
  (shown (w_out (snd (load_model Example.loader ["a"; "b"] (torch_device "cpu") None
                        true true 1 (Example.fresh 3 ∅))))
   <= shown (w_out (Example.fresh 3 ∅)) + Z.to_nat 1)%nat.
Proof.
  apply (load_model_shows_at_most_n_wrongs Example.loader ["a"; "b"]
           (torch_device "cpu") None true true 1 (Example.fresh 3 ∅)
           (fst (load_model Example.loader ["a"; "b"] (torch_device "cpu") None
                   true true 1 (Example.fresh 3 ∅)))).
  apply surjective_pairing.
Defined.

(** *** Labels *)

(** A loop that returns has run every iteration to its end, each from an
    accumulator that satisfies the invariant. *)
Lemma for_each_all_ok {S A B : Type} (P : B -> Prop) (body : B -> A -> M S B) :
  (forall acc x s acc' s', P acc -> body acc x s = (Ok acc', s') -> P acc') ->
  forall l acc s acc' s',
    P acc -> for_each l acc body s = (Ok acc', s') ->
    forall x, x ∈ l ->
      exists acc0 s0 acc1 s1, P acc0 /\ body acc0 x s0 = (Ok acc1, s1).
Proof.
  intros Hbody. induction l as [|y l IH]; intros acc s acc' s' HP E x Hx.
  - apply elem_of_nil in Hx. contradiction.
  - cbn [for_each] in E. apply bind_ok in E as (acc1 & s1 & E1 & E).
    apply elem_of_cons in Hx as [->|Hx]; [eauto 6|].
    eapply IH; [|exact E|exact Hx]. eapply Hbody; eassumption.
Qed.

Lemma py_index_ok {A : Type} (l : list A) (i : Z) (k : nat) :
  py_index l i = Ok k -> - Z.of_nat (length l) <= i < Z.of_nat (length l).
Proof.
  unfold py_index.
  destruct ((0 <=? i) && (i <? Z.of_nat (length l))) eqn:E1.
  - apply andb_prop in E1 as [E1 E2]. apply Z.leb_le in E1. apply Z.ltb_lt in E2.
    intros _. lia.
  - destruct ((- Z.of_nat (length l) <=? i) && (i <? 0)) eqn:E2; [|discriminate].
    apply andb_prop in E2 as [E2 E3]. apply Z.leb_le in E2. apply Z.ltb_lt in E3.
    intros _. lia.
Qed.

Section Labels.
Context `{Torch}.
Variable classification : list string.
Variables (show_wrongs : bool) (n_wrongs : Z).

Lemma tally_sample_label images labels predicted t (j : nat) label w t' w' :
  tally_sized (length classification) t ->
  labels !! j = Some label ->
  tally_sample classification show_wrongs n_wrongs images labels predicted t
    (Z.of_nat j) w = (Ok t', w') ->
  - Z.of_nat (length classification) <= label < Z.of_nat (length classification).
Proof.
  intros [Hc Hs] Hj E. unfold tally_sample in E.
  rewrite (bind_lift _ _ _ _ (py_getitem_range _ _ _ Hj)) in E.
  apply bind_ok in E as (pred & w2 & _ & E).
  apply bind_ok in E as (t1 & w3 & E1 & E).
  apply bind_ok in E as (ncs & w4 & E2 & _). apply lift_ok in E2 as [E2 _].
  assert (Hsame : n_class_samples t1 = n_class_samples t).
  { destruct (label =? pred).
    - apply bind_ok in E1 as (ncc & w5 & _ & E3). injection E3 as <- _. reflexivity.
    - destruct (show_wrongs && _); [|injection E1 as <- _; reflexivity].
      apply bind_ok in E1 as (key & w5 & _ & E1).
      destruct (bool_decide _); [injection E1 as <- _; reflexivity|].
      apply bind_ok in E1 as (c & w6 & _ & E1).
      apply bind_ok in E1 as (p & w7 & _ & E1).
      apply bind_ok in E1 as (u1 & w8 & _ & E1).
      apply bind_ok in E1 as (u2 & w9 & _ & E1).
      injection E1 as <- _. reflexivity. }
  rewrite Hsame in E2. apply py_incr_ok in E2 as (k & a & Ik & _ & _).
  apply py_index_ok in Ik. rewrite Hs in Ik. exact Ik.
Qed.

Lemma tally_batch_labels device_ t (b : Batch) w t' w' label :
  tally_sized (length classification) t ->
  tally_batch classification device_ show_wrongs n_wrongs t b w = (Ok t', w') ->
  label ∈ snd b ->
  - Z.of_nat (length classification) <= label < Z.of_nat (length classification).
Proof.
  intros Ht E Hin. destruct b as [images labels]. cbn [snd] in Hin.
  unfold tally_batch in E.
  apply bind_ok in E as (images' & w1 & _ & E).
  apply bind_ok in E as (outputs & w2 & _ & E).
  apply bind_ok in E as (predicted & w3 & _ & E).
  apply bind_ok in E as (eq & w4 & _ & E).
  apply list_elem_of_lookup in Hin as [j Hj].
  pose proof (lookup_lt_Some _ _ _ Hj) as Hlt.
  eapply (for_each_all_ok (tally_sized (length classification))) with (x := Z.of_nat j)
    in E as (t0 & s0 & t1 & s1 & Ht0 & E0).
  - eapply tally_sample_label; eassumption.
  - intros acc x s acc' s' Hacc Hb. eapply tally_sample_sized; eassumption.
  - destruct Ht. split; assumption.
  - unfold range. rewrite Nat2Z.id. apply list_elem_of_fmap_2, elem_of_seq. lia.
Qed.

End Labels.

(** X16. When the counting loop of [load_model] completes, every label that
    the loader yielded designates a class in Python's way:
    [-n_classes <= label < n_classes] (a negative label counts from the
    end); any other label raises. *)
Theorem load_model_labels_in_range `{Torch}
    (data_loader : DataLoader Batch) (classification : list string)
    (device_ : device) (save_path : option string) (show_wrongs : bool)
    (n_wrongs : Z) (w : world) (t : tally) (w1 : world) :
  load_and_tally data_loader classification device_ save_path show_wrongs n_wrongs w
    = (Ok t, w1) ->
  forall b label, b ∈ dl_iter data_loader 0%nat -> label ∈ snd b ->
    - Z.of_nat (length classification) <= label < Z.of_nat (length classification).
Proof.
  intros E b label Hb Hl. unfold load_and_tally in E.
  apply bind_ok in E as ([] & wa & _ & E).
  apply bind_ok in E as ([] & wb & _ & E).
  unfold run_tally in E.
  eapply (for_each_all_ok (tally_sized (length classification))) with (x := b)
    in E as (t0 & s0 & t1 & s1 & Ht0 & E0).
  - eapply tally_batch_labels; eassumption.
  - intros acc x s acc' s' Hacc Hx. eapply tally_batch_sized; eassumption.
  - split; apply length_replicate.
  - exact Hb.
Qed.

Lemma load_model_labels_in_range_witness :
  - Z.of_nat (length ["a"; "b"]) <= 1 < Z.of_nat (length ["a"; "b"]).
Proof.
  assert (E : load_and_tally Example.loader ["a"; "b"] (torch_device "cpu") None false 5
                (Example.fresh 3 ∅)
              = (Ok {| wrongs := []; n_correct := 4; n_samples := 5;
                       n_class_correct := [1; 3]; n_class_samples := [1; 4] |},
                 Example.fresh 3 ∅))
    by (vm_compute; reflexivity).
  apply (load_model_labels_in_range _ _ _ _ _ _ _ _ _ E ([2; 9], [1; 1]) 1).
  - right. left.
  - left.
Defined.

(** *** Printing does not influence training *)

Section PrintingIsInert.
Context `{Torch}.

Lemma same_training_refl w : same_training w w.
Proof. repeat split. Qed.

Lemma same_training_trans w1 w2 w3 :
  same_training w1 w2 -> same_training w2 w3 -> same_training w1 w3.
Proof. intros (A & B & C) (A' & B' & C'). repeat split; congruence. Qed.

Lemma same_training_sym w1 w2 : same_training w1 w2 -> same_training w2 w1.
Proof. intros (A & B & C). repeat split; congruence. Qed.

Lemma on_model_same {A : Type} (c : M Model A) w1 w2 r1 r2 w1' w2' :
  same_training w1 w2 ->
  on_model c w1 = (r1, w1') -> on_model c w2 = (r2, w2') ->
  r1 = r2 /\ same_training w1' w2'.
Proof.
  intros (Hm & Ho & Hi). unfold on_model. rewrite Hm.
  destruct (c (tw_model w2)) as [r m]. intros [= <- <-] [= <- <-].
  split; [reflexivity|]. repeat split; assumption.
Qed.

Lemma on_optimizer_same {A : Type} (c : M (Model * Optimizer) A) w1 w2 r1 r2 w1' w2' :
  same_training w1 w2 ->
  on_optimizer c w1 = (r1, w1') -> on_optimizer c w2 = (r2, w2') ->
  r1 = r2 /\ same_training w1' w2'.
Proof.
  intros (Hm & Ho & Hi). unfold on_optimizer. rewrite Hm, Ho.
  destruct (c (tw_model w2, tw_optimizer w2)) as [r [m o]]. intros [= <- <-] [= <- <-].
  split; [reflexivity|]. repeat split; assumption.
Qed.

Lemma print_same e w r w' : print e w = (r, w') -> same_training w w'.
Proof. intros [= _ <-]. repeat split. Qed.

Variable criterion : Tensor -> list Z -> result Loss.
Variables (n_epochs : Z) (device_ : device) (n_total_steps : Z).

(** The report of a step leaves the training state alone. *)
Lemma report_same (print_steps print_epochs loss_acc epoch i : Z) mean_loss
    loss_counter w u w' :
  (if epoch mod print_epochs =? 0
   then q <- lift (true_div n_total_steps print_steps) ;;
        r <- lift (py_mod (i + 1) (py_int q)) ;;
        (if r =? 0
         then avg <- lift (py_fdiv mean_loss loss_counter) ;;
              (if (loss_acc <? 0) || (2 ^ 31 <=? loss_acc) then raise ValueError
               else ret tt) ;;
              print (Progress (epoch + 1) n_epochs (i + 1) n_total_steps avg loss_acc)
         else ret tt)
   else ret tt) w = (Ok u, w') ->
  same_training w w'.
Proof.
  intros E.
  destruct (_ =? 0); [|injection E as _ <-; apply same_training_refl].
  apply bind_ok in E as (q & wa & Ea & E). apply lift_ok in Ea as [_ ->].
  apply bind_ok in E as (r & wb & Eb & E). apply lift_ok in Eb as [_ ->].
  destruct (r =? 0); [|injection E as _ <-; apply same_training_refl].
  apply bind_ok in E as (avg & wc & Ec & E). apply lift_ok in Ec as [_ ->].
  apply bind_ok in E as ([] & wd & Ed & E).
  destruct (_ || _); [discriminate|]. injection Ed as <-.
  eapply print_same. exact E.
Qed.

Lemma train_batch_same ps1 pe1 la1 ps2 pe2 la2 epoch acc ib w1 w2 acc1 acc2 w1' w2' :
  same_training w1 w2 ->
  train_batch criterion n_epochs device_ ps1 pe1 la1 n_total_steps epoch acc ib w1
    = (Ok acc1, w1') ->
  train_batch criterion n_epochs device_ ps2 pe2 la2 n_total_steps epoch acc ib w2
    = (Ok acc2, w2') ->
  acc1 = acc2 /\ same_training w1' w2'.
Proof.
  intros Hs E1 E2. destruct acc as [mean_loss loss_counter], ib as [i [images labels]].
  unfold train_batch in E1, E2.
  apply bind_ok in E1 as (im1 & a1 & A1 & E1). apply lift_ok in A1 as [A1 ->].
  apply bind_ok in E2 as (im2 & a2 & A2 & E2). apply lift_ok in A2 as [A2 ->].
  assert (im2 = im1) by congruence. subst im2.
  apply bind_ok in E1 as (o1 & b1 & B1 & E1).
  apply bind_ok in E2 as (o2 & b2 & B2 & E2).
  destruct (on_model_same _ _ _ _ _ _ _ Hs B1 B2) as [Ho Hb]. injection Ho as <-.
  apply bind_ok in E1 as (l1 & c1 & C1 & E1). apply lift_ok in C1 as [C1 ->].
  apply bind_ok in E2 as (l2 & c2 & C2 & E2). apply lift_ok in C2 as [C2 ->].
  assert (l2 = l1) by congruence. subst l2.
  apply bind_ok in E1 as ([] & d1 & D1 & E1). injection D1 as <-.
  apply bind_ok in E2 as ([] & d2 & D2 & E2). injection D2 as <-.
  match type of E1 with bind _ _ ?s1 = _ => match type of E2 with bind _ _ ?s2 = _ =>
    assert (Hd : same_training s1 s2)
      by (destruct Hb as (X & Y & Z'); repeat split; cbn; congruence) end end.
  apply bind_ok in E1 as ([] & e1 & F1 & E1).
  apply bind_ok in E2 as ([] & e2 & F2 & E2).
  destruct (on_optimizer_same _ _ _ _ _ _ _ Hd F1 F2) as [_ He].
  apply bind_ok in E1 as ([] & f1 & G1 & E1).
  apply bind_ok in E2 as ([] & f2 & G2 & E2).
  destruct (on_model_same _ _ _ _ _ _ _ He G1 G2) as [_ Hf].
  apply bind_ok in E1 as ([] & g1 & I1 & E1).
  apply bind_ok in E2 as ([] & g2 & I2 & E2).
  destruct (on_optimizer_same _ _ _ _ _ _ _ Hf I1 I2) as [_ Hg].
  apply bind_ok in E1 as (r1 & h1 & J1 & E1). apply lift_ok in J1 as [J1 ->].
  apply bind_ok in E2 as (r2 & h2 & J2 & E2). apply lift_ok in J2 as [J2 ->].
  unfold py_mod in J1, J2.
  destruct (pe1 =? 0); [discriminate|]. injection J1 as <-.
  destruct (pe2 =? 0); [discriminate|]. injection J2 as <-.
  apply bind_ok in E1 as ([] & k1 & K1 & E1). apply report_same in K1.
  apply bind_ok in E2 as ([] & k2 & K2 & E2). apply report_same in K2.
  injection E1 as <- <-. injection E2 as <- <-.
  split; [reflexivity|].
  eapply same_training_trans; [apply same_training_sym; exact K1|].
  eapply same_training_trans; [exact Hg|exact K2].
Qed.

Lemma train_batches_same ps1 pe1 la1 ps2 pe2 la2 epoch (l : list (Z * Batch)) :
  forall acc w1 w2 acc1 acc2 w1' w2',
    same_training w1 w2 ->
    for_each l acc
      (train_batch criterion n_epochs device_ ps1 pe1 la1 n_total_steps epoch) w1
      = (Ok acc1, w1') ->
    for_each l acc
      (train_batch criterion n_epochs device_ ps2 pe2 la2 n_total_steps epoch) w2
      = (Ok acc2, w2') ->
    acc1 = acc2 /\ same_training w1' w2'.
Proof.
  induction l as [|ib l IH]; intros acc w1 w2 acc1 acc2 w1' w2' Hs E1 E2.
  - injection E1 as <- <-. injection E2 as <- <-. split; [reflexivity|assumption].
  - cbn [for_each] in E1, E2.
    apply bind_ok in E1 as (a1 & s1 & B1 & E1).
    apply bind_ok in E2 as (a2 & s2 & B2 & E2).
    destruct (train_batch_same _ _ _ _ _ _ _ _ _ _ _ _ _ _ _ Hs B1 B2) as [<- Hs'].
    eapply IH; eassumption.
Qed.

End PrintingIsInert.

(** X17. The printing parameters do not influence training: two runs of
    [train_model] from the same state that differ only in [print_steps],
    [print_epochs] and [loss_acc], and that both return, return the same
    loss and leave the same model, the same optimizer and the same record of
    loss values. *)
Theorem train_model_printing_is_inert `{Torch}
    (data_loader : DataLoader Batch) (criterion : Tensor -> list Z -> result Loss)
    (n_epochs : Z) (device_ : device)
    (print_steps1 print_steps2 : Z) (print_epochs1 print_epochs2 : option Z)
    (loss_acc1 loss_acc2 : Z) (w : train_world) (v1 v2 : F) (w1 w2 : train_world) :
  train_model data_loader criterion n_epochs device_ print_steps1 print_epochs1
    loss_acc1 w = (Ok v1, w1) ->
  train_model data_loader criterion n_epochs device_ print_steps2 print_epochs2
    loss_acc2 w = (Ok v2, w2) ->
  v1 = v2 /\ tw_model w1 = tw_model w2 /\ tw_optimizer w1 = tw_optimizer w2
  /\ tw_items w1 = tw_items w2.
Proof.
  intros E1 E2. unfold train_model in E1, E2.
  set (pe1 := match print_epochs1 with None => n_epochs | Some p => p end) in *.
  set (pe2 := match print_epochs2 with None => n_epochs | Some p => p end) in *.
  apply bind_ok in E1 as ([] & a1 & A1 & E1). apply print_same in A1.
  apply bind_ok in E2 as ([] & a2 & A2 & E2). apply print_same in A2.
  assert (Ha : same_training a1 a2).
  { eapply same_training_trans; [apply same_training_sym; exact A1|exact A2]. }
  apply bind_ok in E1 as ([] & b1 & B1 & E1).
  apply bind_ok in E2 as ([] & b2 & B2 & E2).
  destruct (on_model_same _ _ _ _ _ _ _ Ha B1 B2) as [_ Hb].
  apply bind_ok in E1 as (m1 & c1 & C1 & E1).
  apply bind_ok in E2 as (m2 & c2 & C2 & E2).
  assert (Hloop : forall es acc s1 s2 r1 r2 s1' s2',
    same_training s1 s2 ->
    for_each es acc (fun _ epoch =>
      train_epoch data_loader criterion n_epochs device_ print_steps1 pe1 loss_acc1
        epoch) s1 = (Ok r1, s1') ->
    for_each es acc (fun _ epoch =>
      train_epoch data_loader criterion n_epochs device_ print_steps2 pe2 loss_acc2
        epoch) s2 = (Ok r2, s2') ->
    r1 = r2 /\ same_training s1' s2').
  { induction es as [|epoch es IH]; intros acc s1 s2 r1 r2 s1' s2' Hs F1 F2.
    - injection F1 as <- <-. injection F2 as <- <-. split; [reflexivity|assumption].
    - cbn [for_each] in F1, F2.
      apply bind_ok in F1 as (x1 & t1 & G1 & F1).
      apply bind_ok in F2 as (x2 & t2 & G2 & F2).
      unfold train_epoch in G1, G2.
      apply bind_ok in G1 as (y1 & u1 & G1 & R1). injection R1 as <- <-.
      apply bind_ok in G2 as (y2 & u2 & G2 & R2). injection R2 as <- <-.
      destruct (train_batches_same _ _ _ _ _ _ _ _ _ _ _ _ _ _ _ _ _ _ _ Hs G1 G2)
        as [<- Hu].
      eapply IH; eassumption. }
  destruct (Hloop _ _ _ _ _ _ _ _ Hb C1 C2) as [<- Hc].
  apply bind_ok in E1 as ([] & d1 & D1 & E1). apply print_same in D1.
  apply bind_ok in E2 as ([] & d2 & D2 & E2). apply print_same in D2.
  apply lift_ok in E1 as [E1 ->]. apply lift_ok in E2 as [E2 ->].
  split; [congruence|].
  eapply same_training_trans; [apply same_training_sym; exact D1|].
  eapply same_training_trans; [exact Hc|exact D2].
Qed.

Lemma train_model_printing_is_inert_witness :
  fst (train_model Example.loader Example.criterion 2 (torch_device "cpu") 1 (Some 1) 4
         (Example.start 3))
  = fst (train_model Example.loader Example.criterion 2 (torch_device "cpu") 2 None 0
           (Example.start 3)).
Proof.
  destruct (train_model Example.loader Example.criterion 2 (torch_device "cpu") 1
              (Some 1) 4 (Example.start 3)) as [[v1|e1] w1] eqn:E1;
    [|vm_compute in E1; discriminate].
  destruct (train_model Example.loader Example.criterion 2 (torch_device "cpu") 2
              None 0 (Example.start 3)) as [[v2|e2] w2] eqn:E2;
    [|vm_compute in E2; discriminate].
  destruct (train_model_printing_is_inert _ _ _ _ _ _ _ _ _ _ _ _ _ _ _ E1 E2)
    as [Hv _].
  cbn [fst]. f_equal. exact Hv.
Defined.
